(** * SPOSC: the OSC action runtime, sender and listener lifecycle of
      [lib/osc_lib.py], embedded in Rocq.

    The Python code is translated function by function.

    - Values.  Python objects are the inductive type [pyval]; floats are
      binary64 (Rocq's primitive floats), integers are unbounded ([Z]), and
      text is a [string] of ASCII characters.
    - Exceptions.  An expression that may raise returns a [result]; a
      [try ... except Exception] is [catch].
    - Effects.  Logging, completion callbacks, sockets and timers are events
      appended to the trace of a [world], threaded through every call by the
      state monad [M].
    - The runtime.  What the library takes from CPython, python-osc and the
      network without defining it (reading and printing numbers, building a
      datagram, [sendto]) is the class [PyRuntime]; general statements hold
      for every instance, examples use [decimal_runtime].
    - The listener.  The caller's thread and the background thread act on
      one shared object; their steps are interleaved explicitly, and time is
      the time the caller spends in timed waits.

    - Registration.  The parameters [oscAction] adds to the host's user
      interface are recorded as [ui_param]s; the actions of the plugin,
      [madryxTesting.py], are the table [Madrix.actions].

    The dispatcher and the receiving side are not modelled. *)

From Stdlib Require Import ZArith List String Ascii Bool Lia Floats.
From Stdlib Require Import DecimalString.
Import ListNotations.

Open Scope string_scope.
Open Scope list_scope.
Open Scope Z_scope.

(* ================================================================== *)
(** ** Python text: the [str] methods the library calls

    Text is ASCII: [lower] and [strip] treat the letters and the white space
    of that range, as Python does on it. *)

Module PyStr.
#[local] Open Scope string_scope.

(** ASCII white space as [str.strip] understands it. *)
Definition is_space (c : ascii) : bool :=
  let n := nat_of_ascii c in
  ((9 <=? n)%nat && (n <=? 13)%nat) || ((28 <=? n)%nat && (n <=? 32)%nat).

Fixpoint lstrip (s : string) : string :=
  match s with
  | String c s' => if is_space c then lstrip s' else s
  | EmptyString => EmptyString
  end.

Fixpoint rstrip (s : string) : string :=
  match s with
  | EmptyString => EmptyString
  | String c s' =>
      match rstrip s' with
      | EmptyString => if is_space c then EmptyString else String c EmptyString
      | r => String c r
      end
  end.

(** [s.strip()] *)
Definition strip (s : string) : string := rstrip (lstrip s).

(** [s.split(sep)] for a one-character separator: never an empty list. *)
Fixpoint split (sep : ascii) (s : string) : list string :=
  match s with
  | EmptyString => [EmptyString]
  | String c s' =>
      if Ascii.eqb c sep then EmptyString :: split sep s'
      else match split sep s' with
           | h :: t => String c h :: t
           | [] => [String c EmptyString]
           end
  end.

Definition lower_char (c : ascii) : ascii :=
  let n := nat_of_ascii c in
  if ((65 <=? n)%nat && (n <=? 90)%nat) then ascii_of_nat (n + 32) else c.

(** [s.lower()] *)
Fixpoint lower (s : string) : string :=
  match s with
  | EmptyString => EmptyString
  | String c s' => String (lower_char c) (lower s')
  end.

(** [s.startswith(p)] *)
Definition startswith (s p : string) : bool := String.prefix p s.

(** [s[1:]] *)
Definition tail (s : string) : string :=
  match s with
  | EmptyString => EmptyString
  | String _ s' => s'
  end.

(** [s in l] for a list of strings. *)
Definition mem (s : string) (l : list string) : bool :=
  existsb (String.eqb s) l.

Definition nonempty (s : string) : bool :=
  match s with EmptyString => false | _ => true end.

(** [s.replace(old, new)]: every occurrence, left to right, without overlap.
    [skip] counts the characters of an occurrence still to be dropped. *)
Fixpoint replace_from (old new s : string) (skip : nat) : string :=
  match s with
  | EmptyString => EmptyString
  | String c s' =>
      match skip with
      | S k => replace_from old new s' k
      | O =>
          if String.prefix old s
          then new ++ replace_from old new s' (String.length old - 1)
          else String c (replace_from old new s' 0)
      end
  end.

Fixpoint interleave (new s : string) : string :=
  match s with
  | EmptyString => new
  | String c s' => new ++ String c (interleave new s')
  end.

Definition replace (s old new : string) : string :=
  match old with
  | EmptyString => interleave new s
  | _ => replace_from old new s 0
  end.

(** [re.finditer(r'\{([^{}]+)\}', s)], each match given by its group 1.
    [cur] is the body read since the last opening brace, if any: a match
    needs an opening brace, at least one character that is no brace, and a
    closing brace. *)
Fixpoint scan_defs (s : string) (cur : option string) : list string :=
  match s with
  | EmptyString => []
  | String c s' =>
      if Ascii.eqb c "{" then scan_defs s' (Some EmptyString)
      else if Ascii.eqb c "}" then
        match cur with
        | Some (String b body) => String b body :: scan_defs s' None
        | _ => scan_defs s' None
        end
      else
        match cur with
        | Some body => scan_defs s' (Some (body ++ String c EmptyString))
        | None => scan_defs s' None
        end
  end.

Definition find_defs (s : string) : list string := scan_defs s None.

End PyStr.

(* ================================================================== *)
(** ** Python values, exceptions and the built-ins the library uses *)

(** The exception classes that can arise in the modelled code. *)
Inductive exn : Set :=
| ValueError | TypeError | IndexError | ZeroDivisionError
| OverflowError | OSError | BuildError.

(** The outcome of an expression: a value, or a raised exception. *)
Inductive result (A : Type) : Type :=
| Ok (a : A)
| Raise (e : exn).
Arguments Ok {A} a.
Arguments Raise {A} e.

Definition rbind {A B} (r : result A) (k : A -> result B) : result B :=
  match r with
  | Ok a => k a
  | Raise e => Raise e
  end.

Definition of_option {A} (e : exn) (o : option A) : result A :=
  match o with
  | Some a => Ok a
  | None => Raise e
  end.

Declare Scope result_scope.
Delimit Scope result_scope with result.
Notation "x <~ r ;; k" := (rbind r (fun x => k))
  (at level 61, r at next level, right associativity) : result_scope.

#[local] Set Warnings "-register-all".

(** The dynamically typed values that reach the library: action arguments
    coming from the host, and the values handed to the sender.  [PyFunc] is
    a host callable (a completion callback), named by a number. *)
Inductive pyval : Type :=
| PyNone
| PyBool (b : bool)
| PyInt (z : Z)
| PyFloat (f : float)
| PyStr (s : string)
| PyBytes (s : string)
| PyList (l : list pyval)
| PyFunc (id : nat).

(** What the modelled code takes from the Python runtime, from python-osc and
    from the network, and does not define itself: reading a number from text
    ([int(str)], [float(str)]), printing a float, printing a container or a
    function object, whether [OscMessageBuilder.build] accepts a message, and
    whether [socket.sendto] fails for a host and port. *)
Class PyRuntime : Type := {
  int_of_str : string -> option Z;
  float_of_str : string -> option float;
  str_of_float : float -> string;
  repr_obj : pyval -> string;
  build_ok : string -> list pyval -> bool;
  sendto_error : string -> Z -> option exn
}.

(** [int(x)] of a float: truncation towards zero. *)
Definition float_trunc (f : float) : result Z :=
  match Prim2SF f with
  | S754_zero _ => Ok 0
  | S754_finite s m e =>
      let a := Z.shiftl (Zpos m) e in
      Ok (if s then - a else a)
  | S754_infinity _ => Raise OverflowError
  | S754_nan => Raise ValueError
  end.

(** [float(n)] of an integer: the nearest binary64 value. *)
Definition float_of_Z (z : Z) : result float :=
  let f := SF2Prim (binary_normalize prec emax z 0 false) in
  if PrimFloat.is_infinity f then Raise OverflowError else Ok f.

Definition Z_of_bool (b : bool) : Z := if b then 1 else 0.

Definition str_of_Z (z : Z) : string := NilZero.string_of_int (Z.to_int z).

Section Builtins.
Context {rt : PyRuntime}.

(** [float(v)] *)
Definition py_float (v : pyval) : result float :=
  match v with
  | PyFloat f => Ok f
  | PyInt z => float_of_Z z
  | PyBool b => Ok (if b then 1%float else 0%float)
  | PyStr s | PyBytes s => of_option ValueError (float_of_str s)
  | PyNone | PyList _ | PyFunc _ => Raise TypeError
  end.

(** [int(v)] *)
Definition py_int (v : pyval) : result Z :=
  match v with
  | PyInt z => Ok z
  | PyBool b => Ok (Z_of_bool b)
  | PyFloat f => float_trunc f
  | PyStr s | PyBytes s => of_option ValueError (int_of_str s)
  | PyNone | PyList _ | PyFunc _ => Raise TypeError
  end.

(** [str(v)] *)
Definition py_str (v : pyval) : string :=
  match v with
  | PyNone => "None"
  | PyBool true => "True"
  | PyBool false => "False"
  | PyInt z => str_of_Z z
  | PyFloat f => str_of_float f
  | PyStr s => s
  | PyBytes _ | PyList _ | PyFunc _ => repr_obj v
  end.

End Builtins.

(** [bool(v)]: the truth value of an object. *)
Definition py_truthy (v : pyval) : bool :=
  match v with
  | PyNone => false
  | PyBool b => b
  | PyInt z => negb (z =? 0)
  | PyFloat f => negb (PrimFloat.eqb f 0)
  | PyStr s | PyBytes s => PyStr.nonempty s
  | PyList l => match l with [] => false | _ => true end
  | PyFunc _ => true
  end.

(** [l[i]] on a list, with Python's negative indices. *)
Definition py_index {A} (l : list A) (i : Z) : result A :=
  let n := Z.of_nat (List.length l) in
  if (0 <=? i) && (i <? n) then of_option IndexError (nth_error l (Z.to_nat i))
  else if (- n <=? i) && (i <? 0)
       then of_option IndexError (nth_error l (Z.to_nat (n + i)))
       else Raise IndexError.

(** [v == s] for a string literal [s]. *)
Definition py_eq_str (v : pyval) (s : string) : bool :=
  match v with
  | PyStr t => String.eqb t s
  | _ => false
  end.


(** The classes the code tests with [isinstance]; [bool] is a subclass of
    [int], so a boolean is an instance of both. *)
Inductive pyclass : Set :=
| ClsInt | ClsFloat | ClsBool | ClsStr | ClsList | ClsBytes.

Definition isinstance (v : pyval) (c : pyclass) : bool :=
  match c, v with
  | ClsInt, (PyInt _ | PyBool _) => true
  | ClsFloat, PyFloat _ => true
  | ClsBool, PyBool _ => true
  | ClsStr, PyStr _ => true
  | ClsList, PyList _ => true
  | ClsBytes, PyBytes _ => true
  | _, _ => false
  end.

Definition chars_of (s : string) : list pyval :=
  map (fun c => PyStr (String c EmptyString)) (list_ascii_of_string s).

Definition bytes_of (s : string) : list pyval :=
  map (fun c => PyInt (Z.of_nat (nat_of_ascii c))) (list_ascii_of_string s).

(** [for x in v]: the elements of an iterable. *)
Definition py_iter (v : pyval) : result (list pyval) :=
  match v with
  | PyList l => Ok l
  | PyStr s => Ok (chars_of s)
  | PyBytes s => Ok (bytes_of s)
  | PyNone | PyBool _ | PyInt _ | PyFloat _ | PyFunc _ => Raise TypeError
  end.

(** [v[i]] *)
Definition py_getitem (v : pyval) (i : Z) : result pyval :=
  match v with
  | PyList l => py_index l i
  | PyStr s => py_index (chars_of s) i
  | PyBytes s => py_index (bytes_of s) i
  | PyNone | PyBool _ | PyInt _ | PyFloat _ | PyFunc _ => Raise TypeError
  end.

Fixpoint map_result {A B} (f : A -> result B) (l : list A) : result (list B) :=
  match l with
  | [] => Ok []
  | x :: r =>
      match f x with
      | Ok y => match map_result f r with
                | Ok ys => Ok (y :: ys)
                | Raise e => Raise e
                end
      | Raise e => Raise e
      end
  end.

(* ================================================================== *)
(** ** [OSCTypes] and colour packing *)

Module OSCTypes.
Inductive t : Set :=
| Int | Float | String | Blob | BigInt | TimeTag | Double | Char | Color
| Midi | TrueBit | FalseBit | Bool | Nil | Infinitum | Bare | Mixed.

(** The [.value] of each member. *)
Definition value (x : t) : string :=
  match x with
  | Int => "i" | Float => "f" | String => "s" | Blob => "b"
  | BigInt => "h" | TimeTag => "t" | Double => "d" | Char => "c"
  | Color => "r" | Midi => "m" | TrueBit => "T" | FalseBit => "F"
  | Bool => "B" | Nil => "N" | Infinitum => "I" | Bare => ""
  | Mixed => "M"
  end.

Definition eqb (x y : t) : bool :=
  match x, y with
  | Int, Int | Float, Float | String, String | Blob, Blob
  | BigInt, BigInt | TimeTag, TimeTag | Double, Double | Char, Char
  | Color, Color | Midi, Midi | TrueBit, TrueBit | FalseBit, FalseBit
  | Bool, Bool | Nil, Nil | Infinitum, Infinitum | Bare, Bare
  | Mixed, Mixed => true
  | _, _ => false
  end.
End OSCTypes.

(** A [val_type] argument: a member of [OSCTypes], a plain string (as the
    custom action passes), or [None]. *)
Inductive valtype : Set :=
| VtEnum (t : OSCTypes.t)
| VtStr (s : string)
| VtNone.

(** A Python number: what [r * 255], [min] and [max] compute with. *)
Inductive number : Set :=
| NumInt (z : Z)
| NumFloat (f : float).

(** [x * 255] *)
Definition times_255 (x : pyval) : result number :=
  match x with
  | PyFloat f => Ok (NumFloat (f * 255)%float)
  | PyInt z => Ok (NumInt (z * 255))
  | PyBool b => Ok (NumInt (Z_of_bool b * 255))
  (* a repeated sequence, which [min] then refuses to compare with 255 *)
  | PyStr _ | PyBytes _ | PyList _ => Raise TypeError
  | PyNone | PyFunc _ => Raise TypeError
  end.

(** [min(255, x)]: [x] when [x < 255], else the integer 255. *)
Definition min_255 (x : number) : number :=
  match x with
  | NumInt z => if z <? 255 then x else NumInt 255
  | NumFloat f => if (f <? 255)%float then x else NumInt 255
  end.

(** [max(0, y)]: [y] when [y > 0], else the integer 0. *)
Definition max_0 (y : number) : number :=
  match y with
  | NumInt z => if 0 <? z then y else NumInt 0
  | NumFloat f => if (0 <? f)%float then y else NumInt 0
  end.

(** [int(n)] *)
Definition int_of_number (n : number) : result Z :=
  match n with
  | NumInt z => Ok z
  | NumFloat f => float_trunc f
  end.

(** [int(max(0, min(255, c * 255)))] *)
Definition channel (c : pyval) : result Z :=
  (x <~ times_255 c ;; int_of_number (max_0 (min_255 x)))%result.

(** [(r << 24) | (g << 16) | (b << 8) | a] *)
Definition pack_rgba (r g b a : Z) : Z :=
  Z.lor (Z.lor (Z.lor (Z.shiftl r 24) (Z.shiftl g 16)) (Z.shiftl b 8)) a.

(** [rgb_floats_to_rgba_int(r, g, b, a)]; the [print] of the packed value to
    standard output is left out. *)
Definition rgb_floats_to_rgba_int (r g b a : pyval) : result Z :=
  (r' <~ channel r ;;
   g' <~ channel g ;;
   b' <~ channel b ;;
   a' <~ channel a ;;
   Ok (pack_rgba r' g' b' a'))%result.

(* ================================================================== *)
(** ** Effects: the trace of a run *)

(** An OSC message as [OscMessageBuilder] holds it before [build()]. *)
Record message : Type := { msg_address : string; msg_args : list pyval }.

(** The lines written through [plugin.log] and [self.log]. *)
Inductive logmsg : Type :=
| LogFinalPath (tempPath : string)
| LogFinalValues (send_values : list pyval)
| LogSendAction (address : string) (value : pyval)
| LogTarget (host : string) (port : Z)
| LogPrefix (prefix : string)
| LogAddress (address : string)
| LogWithArg (full_address : string) (value : pyval) (tag : option string)
| LogBare (full_address : string)
| LogSent (host : string) (port : Z) (full_address : string) (values : list pyval)
| LogSendFailed (e : exn)
| LogCustomSending (path : string) (val_type : string) (coerced : pyval)
| LogConfigUpdated (host : string) (port : Z) (prefix : string).

(** The diagnostics written through [plugin.logError]. *)
Inductive diag : Type :=
| NotEnoughArgs (got expected : nat)
| PathSubstitutionError (ddef : string) (e : exn)
| ValueSubstitutionError (ddef : string) (e : exn)
| SendActionError (e : exn)
| CustomActionFailed (e : exn).

Inductive event : Type :=
| EvLog (m : logmsg)
| EvLogError (d : diag)
| EvCallback (id : nat) (ok : bool)        (* callback(ok) *)
| EvSocket (fd : nat)                      (* socket.socket(...) *)
| EvSendTo (fd : nat) (m : message) (host : string) (port : Z)
| EvClose (fd : nat)                       (* sock.close() *)
| EvPushOutputTimer.                       (* threading.Timer(0.01, _push).start() *)

(** The [SPOSC] object as the sender sees it, with the trace so far and the
    number of the next socket handle. *)
Record world : Type := {
  host : string;
  port : Z;
  prefix : string;
  next_fd : nat;
  trace : list event
}.

(** Computations with effects: a state monad over [world] whose results may
    be raised exceptions. *)
Definition M (A : Type) : Type := world -> result A * world.

Definition ret {A} (a : A) : M A := fun w => (Ok a, w).

Definition raise {A} (e : exn) : M A := fun w => (Raise e, w).

Definition bind {A B} (m : M A) (k : A -> M B) : M B :=
  fun w =>
    match m w with
    | (Ok a, w') => k a w'
    | (Raise e, w') => (Raise e, w')
    end.

(** [try: m  except Exception as e: h e] *)
Definition catch {A} (m : M A) (h : exn -> M A) : M A :=
  fun w =>
    match m w with
    | (Ok a, w') => (Ok a, w')
    | (Raise e, w') => h e w'
    end.

Definition lift {A} (r : result A) : M A := fun w => (r, w).

Definition get : M world := fun w => (Ok w, w).

Definition emit (ev : event) : M unit :=
  fun w => (Ok tt, {| host := host w; port := port w; prefix := prefix w;
                      next_fd := next_fd w; trace := trace w ++ [ev] |}).

Declare Scope M_scope.
Delimit Scope M_scope with M.
Notation "x <- m ;; k" := (bind m (fun x => k))
  (at level 61, m at next level, right associativity) : M_scope.
Notation "m ;; k" := (bind m (fun _ => k))
  (at level 61, right associativity) : M_scope.

Fixpoint for_each {A} (l : list A) (body : A -> M unit) : M unit :=
  match l with
  | [] => ret tt
  | x :: r => (body x ;; for_each r body)%M
  end.

(** [socket.socket(AF_INET, SOCK_DGRAM)]: a handle no earlier call returned. *)
Definition socket : M nat :=
  fun w => (Ok (next_fd w),
            {| host := host w; port := port w; prefix := prefix w;
               next_fd := S (next_fd w);
               trace := trace w ++ [EvSocket (next_fd w)] |}).

Section Sender.
Context {rt : PyRuntime}.

(** [sock.sendto(msg.dgram, (host, port))] *)
Definition sendto (fd : nat) (m : message) (h : string) (p : Z) : M unit :=
  match sendto_error h p with
  | Some e => raise e
  | None => emit (EvSendTo fd m h p)
  end.

(** [update_config] *)
Definition update_config (h : string) (p : Z) (pre : string) : M unit :=
  fun w => (Ok tt, {| host := h; port := p; prefix := pre;
                      next_fd := next_fd w;
                      trace := trace w ++ [EvLog (LogConfigUpdated h p pre)] |}).

(** [val_type.value if isinstance(val_type, Enum) else val_type if val_type else None] *)
Definition val_type_str (val_type : valtype) : option string :=
  match val_type with
  | VtEnum t => Some (OSCTypes.value t)
  | VtStr s => if PyStr.nonempty s then Some s else None
  | VtNone => None
  end.

Definition tag_is (ts : option string) (tag : string) : bool :=
  match ts with
  | Some s => String.eqb s tag
  | None => false
  end.

(** The arms of the Mixed branch of [send], in the order of the source. *)
Definition convert_mixed (val : pyval) : result pyval :=
  if isinstance val ClsInt then (z <~ py_int val ;; Ok (PyInt z))%result
  else if isinstance val ClsFloat then (f <~ py_float val ;; Ok (PyFloat f))%result
  else if isinstance val ClsBool then Ok (PyBool (py_truthy val))
  else if isinstance val ClsStr then Ok (PyStr (py_str val))
  else if isinstance val ClsList then Ok (PyStr (py_str val))
  else Ok (PyStr (py_str val)).

(** [int(val) if val else 0] *)
Definition int_or_zero (val : pyval) : result pyval :=
  if py_truthy val then (z <~ py_int val ;; Ok (PyInt z))%result
  else Ok (PyInt 0).

(** The arms for a given type tag; the source has this chain twice, once
    for the elements of a list and once for a single value. *)
Definition convert (ts : option string) (val : pyval) : result pyval :=
  if tag_is ts "i" then (z <~ py_int val ;; Ok (PyInt z))%result
  else if tag_is ts "f" then (f <~ py_float val ;; Ok (PyFloat f))%result
  else if tag_is ts "B" then
    if py_eq_str val "True" then Ok (PyBool true) else Ok (PyBool false)
  else if tag_is ts "s" then Ok (PyStr (py_str val))
  else if tag_is ts "h" then (z <~ py_int val ;; Ok (PyInt z))%result
  else if tag_is ts "d" then (f <~ py_float val ;; Ok (PyFloat f))%result
  else if tag_is ts "c" then
    match py_str val with
    | String c _ => Ok (PyStr (String c EmptyString))
    | EmptyString => Ok (PyStr (String Ascii.zero EmptyString))
    end
  else if tag_is ts "b" then
    if isinstance val ClsBytes then Ok val else Ok (PyBytes (py_str val))
  else if tag_is ts "r" then
    (r <~ py_getitem val 0 ;;
     g <~ py_getitem val 1 ;;
     b <~ py_getitem val 2 ;;
     a <~ py_getitem val 3 ;;
     c <~ rgb_floats_to_rgba_int r g b a ;;
     Ok (PyInt c))%result
  else if tag_is ts "m" then int_or_zero val
  else if tag_is ts "t" then int_or_zero val
  else if tag_is ts "N" then Ok PyNone
  else if tag_is ts "I" then Ok (PyFloat infinity)
  else Ok (PyStr (py_str val)).

(** The list [values] that [send] builds from [raw_val]. *)
Definition send_values_of (ts : option string) (raw_val : pyval)
  : result (list pyval) :=
  if tag_is ts "M" then
    (l <~ py_iter raw_val ;; map_result convert_mixed l)%result
  else
    match raw_val with
    | PyList l => map_result (convert ts) l
    | _ => (v <~ convert ts raw_val ;; Ok [v])%result
    end.

Definition is_none (v : pyval) : bool :=
  match v with PyNone => true | _ => false end.

(** The loop that adds the arguments to the builder: what it logs, and the
    arguments the message ends with. *)
Definition add_arg_log (ts : option string) (full_address : string)
  (value : pyval) : M unit :=
  match ts with
  | Some _ =>
      if is_none value then emit (EvLog (LogBare full_address))
      else emit (EvLog (LogWithArg full_address value ts))
  | None => emit (EvLog (LogBare full_address))
  end.

Definition added_args (ts : option string) (values : list pyval)
  : list pyval :=
  match ts with
  | Some _ => filter (fun v => negb (is_none v)) values
  | None => []
  end.

(** [safe_push_output(plugin)] *)
Definition safe_push_output : M unit := emit EvPushOutputTimer.

(** [send(address, val_type, raw_val, plugin)] *)
Definition send (address : string) (val_type : valtype) (raw_val : pyval)
  : M unit :=
  catch
    (let ts := val_type_str val_type in
     values <- lift (send_values_of ts raw_val) ;;
     w <- get ;;
     let full_address := (prefix w ++ address)%string in
     emit (EvLog (LogTarget (host w) (port w))) ;;
     emit (EvLog (LogPrefix (prefix w))) ;;
     emit (EvLog (LogAddress address)) ;;
     for_each values (add_arg_log ts full_address) ;;
     let args := added_args ts values in
     msg <- (if build_ok full_address args
             then ret {| msg_address := full_address; msg_args := args |}
             else raise BuildError) ;;
     sock <- socket ;;
     sendto sock msg (host w) (port w) ;;
     safe_push_output ;;
     emit (EvClose sock) ;;
     emit (EvLog (LogSent (host w) (port w) full_address values)))%M
    (fun e => emit (EvLog (LogSendFailed e))).

End Sender.

(* ================================================================== *)
(** ** The action runtime *)

Section Actions.
Context {rt : PyRuntime}.

(** [callback(ok)]: calling an object that is no callable raises. *)
Definition call (callback : pyval) (ok : bool) : M unit :=
  match callback with
  | PyFunc id => emit (EvCallback id ok)
  | _ => raise TypeError
  end.

(** [_send_osc_action(callback, val_type=, address=, plugin=, value=)] *)
Definition _send_osc_action (callback : pyval) (val_type : valtype)
  (address : string) (value : pyval) : M unit :=
  catch
    (emit (EvLog (LogSendAction address value)) ;;
     send address val_type value ;;
     call callback true)%M
    (fun e =>
       (emit (EvLogError (SendActionError e)) ;;
        call callback false)%M).

(** [[p.strip() for p in ddef.split(",")]] *)
Definition parts_of (ddef : string) : list string :=
  map PyStr.strip (PyStr.split "," ddef).

(** [parts[0]] *)
Definition param_type_of (parts : list string) : string :=
  match parts with
  | p :: _ => p
  | [] => EmptyString
  end.

(** The modifier step of the numeric kinds: [parts[6]] when there are more
    than six parts, applied to the parsed value. *)
Definition apply_modifier (val : float) (parts : list string) : result float :=
  match nth_error parts 6 with
  | Some modifier =>
      if PyStr.nonempty modifier then
        if PyStr.startswith modifier "*" then
          (k <~ py_float (PyStr (PyStr.tail modifier)) ;; Ok (val * k)%float)%result
        else if PyStr.startswith modifier "/" then
          (k <~ py_float (PyStr (PyStr.tail modifier)) ;;
           if PrimFloat.eqb k 0 then Raise ZeroDivisionError
           else Ok (val / k)%float)%result
        else if PyStr.startswith modifier "+" then
          (k <~ py_float (PyStr (PyStr.tail modifier)) ;; Ok (val + k)%float)%result
        else if PyStr.startswith modifier "-" then
          (k <~ py_float (PyStr (PyStr.tail modifier)) ;; Ok (val - k)%float)%result
        else Ok val
      else Ok val
  | None => Ok val
  end.

(** [val = float(raw_val)] followed by the modifier. *)
Definition numeric_value (parts : list string) (raw_val : pyval) : result float :=
  (val <~ py_float raw_val ;; apply_modifier val parts)%result.

(** [bool(raw_val and str(raw_val).lower() not in ["false", "0", "no"])] *)
Definition bool_value (raw_val : pyval) : bool :=
  py_truthy raw_val
  && negb (PyStr.mem (PyStr.lower (py_str raw_val)) ["false"; "0"; "no"]).

(** [options = parts[3].split(";"); options[int(raw_val)].strip()] *)
Definition array_value (parts : list string) (raw_val : pyval) : result string :=
  (p3 <~ py_index parts 3 ;;
   let options := PyStr.split ";" p3 in
   i <~ py_int raw_val ;;
   o <~ py_index options i ;;
   Ok (PyStr.strip o))%result.

Definition is_numeric_kind (param_type : string) : bool :=
  PyStr.mem param_type ["I"; "F"].

(** The body of the [try] of the path loop: the replacement text. *)
Definition path_replacement (parts : list string) (raw_val : pyval)
  : result string :=
  let param_type := param_type_of parts in
  if is_numeric_kind param_type then
    (val <~ numeric_value parts raw_val ;;
     if String.eqb param_type "I"
     then (z <~ float_trunc val ;; Ok (str_of_Z z))
     else Ok (str_of_float val))%result
  else if String.eqb param_type "B" then
    Ok (py_str (PyBool (bool_value raw_val)))
  else if String.eqb param_type "A" then array_value parts raw_val
  else if String.eqb param_type "S" then Ok (py_str raw_val)
  else Ok (py_str raw_val).

(** The body of the [try] of the value loop: the value to send. *)
Definition value_replacement (parts : list string) (raw_val : pyval)
  : result pyval :=
  let param_type := param_type_of parts in
  if is_numeric_kind param_type then
    (val <~ numeric_value parts raw_val ;;
     if String.eqb param_type "I"
     then (z <~ float_trunc val ;; Ok (PyInt z))
     else Ok (PyFloat val))%result
  else if String.eqb param_type "B" then
    Ok (PyStr (py_str (PyBool (bool_value raw_val))))
  else if String.eqb param_type "A" then
    (o <~ array_value parts raw_val ;; Ok (PyStr o))%result
  else if String.eqb param_type "S" then Ok (PyStr (py_str raw_val))
  else Ok (PyStr (py_str raw_val)).

(** [dyn_args[i]] *)
Definition dyn_arg (dyn_args : list pyval) (i : nat) : M pyval :=
  lift (of_option IndexError (nth_error dyn_args i)).

Definition braced (ddef : string) : string :=
  ("{" ++ ddef ++ "}")%string.

(** The path loop, [for i, match in enumerate(path_defs)], from index [i]. *)
Fixpoint substitute_path (defs : list string) (i : nat)
  (dyn_args : list pyval) (tempPath : string) : M string :=
  match defs with
  | [] => ret tempPath
  | ddef :: rest =>
      (let parts := parts_of ddef in
       raw_val <- dyn_arg dyn_args i ;;
       replacement <-
         catch (lift (path_replacement parts raw_val))
               (fun e =>
                  emit (EvLogError (PathSubstitutionError ddef e)) ;;
                  ret (py_str raw_val)) ;;
       substitute_path rest (S i) dyn_args
         (PyStr.replace tempPath (braced ddef) replacement))%M
  end.

(** The value loop, [for i, match in enumerate(value_defs)], from index [i];
    [offset] is [len(path_defs)]. *)
Fixpoint substitute_values (defs : list string) (offset i : nat)
  (dyn_args : list pyval) (send_values : list pyval) : M (list pyval) :=
  match defs with
  | [] => ret send_values
  | ddef :: rest =>
      (let parts := parts_of ddef in
       raw_val <- dyn_arg dyn_args (offset + i) ;;
       replacement <-
         catch (lift (value_replacement parts raw_val))
               (fun e =>
                  emit (EvLogError (ValueSubstitutionError ddef e)) ;;
                  ret (PyStr (py_str raw_val))) ;;
       substitute_values rest offset (S i) dyn_args
         (send_values ++ [replacement]))%M
  end.

(** What [oscAction] computes once and its [action_callback] closes over.
    The registration of its parameters with the host's user interface is
    [register_action], further down. *)
Record action : Type := {
  act_val_type : valtype;
  act_path : string;
  act_values : list string;
  path_defs : list string;
  value_defs : list string;
  expected_total : nat
}.

Definition oscAction (val_type : valtype) (path : string)
  (values : list string) : action :=
  let path_defs := PyStr.find_defs path in
  let value_defs := flat_map PyStr.find_defs values in
  {| act_val_type := val_type;
     act_path := path;
     act_values := values;
     path_defs := path_defs;
     value_defs := value_defs;
     expected_total := 1 + List.length path_defs + List.length value_defs |}.

(** [val_type != OSCTypes.Bare] *)
Definition not_bare (val_type : valtype) : bool :=
  match val_type with
  | VtEnum t => negb (OSCTypes.eqb t OSCTypes.Bare)
  | VtStr _ | VtNone => true
  end.

Definition nonempty_list {A} (l : list A) : bool :=
  match l with [] => false | _ => true end.

(** [val_type != OSCTypes.Bare and values and value_defs]: whether the
    value loop runs. *)
Definition value_phase (a : action) : bool :=
  not_bare (act_val_type a) && nonempty_list (act_values a)
  && nonempty_list (value_defs a).

(** The closure [action_callback] of [oscAction], called with the tuple [args]. *)
Definition action_callback (a : action) (args : list pyval) : M unit :=
  if (List.length args <? expected_total a)%nat then
    emit (EvLogError (NotEnoughArgs (List.length args) (expected_total a)))
  else
    (callback <- lift (of_option IndexError (nth_error args 0)) ;;
     let dyn_args := firstn (expected_total a - 1) (skipn 1 args) in
     tempPath <- substitute_path (path_defs a) 0 dyn_args (act_path a) ;;
     emit (EvLog (LogFinalPath tempPath)) ;;
     send_values <-
       (if value_phase a
        then
          vs <- substitute_values (value_defs a) (List.length (path_defs a))
                  0 dyn_args [] ;;
          emit (EvLog (LogFinalValues vs)) ;;
          ret vs
        else ret []) ;;
     _send_osc_action callback (act_val_type a) tempPath (PyList send_values))%M.

(** [value_type_options] of [oscCustomAction]. *)
Definition value_type_options : list string :=
  ["Int"; "Float"; "String"; "Bool"].

(** A list subscript must be an integer. *)
Definition as_index (v : pyval) : result Z :=
  match v with
  | PyInt z => Ok z
  | PyBool b => Ok (Z_of_bool b)
  | _ => Raise TypeError
  end.

(** [str(value).lower() in ["true", "True", "1", "yes", "on"]] *)
Definition custom_bool (value : pyval) : bool :=
  PyStr.mem (PyStr.lower (py_str value)) ["true"; "True"; "1"; "yes"; "on"].

(** The coercion chain of the custom action. *)
Definition custom_coerce (val_type : string) (value : pyval) : result pyval :=
  if String.eqb val_type "Int" then (z <~ py_int value ;; Ok (PyInt z))%result
  else if String.eqb val_type "Float" then
    (f <~ py_float value ;; Ok (PyFloat f))%result
  else if PyStr.mem val_type ["Bool"; "True"; "False"] then
    Ok (PyBool (custom_bool value))
  else if String.eqb val_type "String" then Ok (PyStr (py_str value))
  else Ok value.

(** The closure [action_callback(callback, path, val_type_index, value)] of
    [oscCustomAction]. *)
Definition custom_action_callback (callback : pyval) (path : string)
  (val_type_index : pyval) (value : pyval) : M unit :=
  catch
    (i <- lift (as_index val_type_index) ;;
     val_type <- lift (py_index value_type_options i) ;;
     coerced_value <- lift (custom_coerce val_type value) ;;
     emit (EvLog (LogCustomSending path val_type coerced_value)) ;;
     _send_osc_action callback (VtStr val_type) path coerced_value)%M
    (fun e =>
       (emit (EvLogError (CustomActionFailed e)) ;;
        call callback false)%M).

End Actions.

(* ================================================================== *)
(** ** A runtime for the examples

    [decimal_runtime] reads and prints plain decimal text.  It agrees with
    CPython on integer literals (sign, digits, surrounding white space), on
    decimal literals of at most fifteen digits, and on printing floats whose
    exact expansion has at most fifteen significant digits and lies between
    1e-4 and 1e16.  It refuses other literals that CPython reads (exponents,
    [inf], [nan], underscores, longer mantissas).  Every python-osc build
    succeeds, and [sendto] fails exactly for a port outside 0..65535.  The
    theorems that quantify over [PyRuntime] do not depend on it. *)

Module Decimal.
#[local] Open Scope string_scope.

Definition digit_of (c : ascii) : option Z :=
  let n := nat_of_ascii c in
  if ((48 <=? n)%nat && (n <=? 57)%nat) then Some (Z.of_nat n - 48) else None.

(** The value of a non-empty run of digits, with the number of digits. *)
Fixpoint digits (s : string) (acc : Z) (n : nat) : option (Z * nat) :=
  match s with
  | EmptyString => Some (acc, n)
  | String c s' =>
      match digit_of c with
      | Some d => digits s' (10 * acc + d) (S n)
      | None => None
      end
  end.

Definition unsigned_int (s : string) : option Z :=
  match s with
  | EmptyString => None
  | _ => option_map fst (digits s 0 0%nat)
  end.

Definition signed {A} (neg : A -> A) (body : string -> option A)
  (s : string) : option A :=
  match s with
  | String "-" s' => option_map neg (body s')
  | String "+" s' => body s'
  | _ => body s
  end.

Definition parse_int (s : string) : option Z :=
  signed Z.opp unsigned_int (PyStr.strip s).

(** [m / 10^k], exact in binary64 arithmetic when both are below [2^53]
    and [k <= 22]: one correctly rounded division. *)
Definition ratio (m : Z) (k : nat) : option float :=
  if (m <? 2 ^ 53)%Z && (k <=? 22)%nat then
    Some (SF2Prim (binary_normalize prec emax m 0 false)
          / SF2Prim (binary_normalize prec emax (10 ^ Z.of_nat k) 0 false))%float
  else None.

Fixpoint split_point (s : string) : string * option string :=
  match s with
  | EmptyString => (EmptyString, None)
  | String "." s' => (EmptyString, Some s')
  | String c s' => let (a, b) := split_point s' in (String c a, b)
  end.

Definition unsigned_float (s : string) : option float :=
  match split_point s with
  | (EmptyString, None) | (EmptyString, Some EmptyString) => None
  | (i, None) =>
      match digits i 0 0%nat with
      | Some (m, _) => ratio m 0
      | None => None
      end
  | (i, Some f) =>
      match digits (i ++ f) 0 0%nat, digits f 0 0%nat with
      | Some (m, _), Some (_, k) => ratio m k
      | _, _ => None
      end
  end.

Definition parse_float (s : string) : option float :=
  signed PrimFloat.opp unsigned_float (PyStr.strip s).

(** [n] written with at least [k] digits. *)
Definition pad (k : nat) (s : string) : string :=
  Nat.iter (k - String.length s) (String "0") s.

Definition strip_zeros (s : string) : string :=
  match PyStr.rstrip (PyStr.replace s "0" " ") with
  | EmptyString => "0"
  | r => PyStr.replace r " " "0"
  end.

Definition render_float (f : float) : string :=
  match Prim2SF f with
  | S754_nan => "nan"
  | S754_infinity s => if s then "-inf" else "inf"
  | S754_zero s => if s then "-0.0" else "0.0"
  | S754_finite s m e =>
      let sign := if s then "-" else "" in
      if (0 <=? e)%Z then sign ++ str_of_Z (Z.shiftl (Zpos m) e) ++ ".0"
      else
        let k := Z.to_nat (- e) in
        let n := Zpos m * 5 ^ (- e) in
        let p := 10 ^ (- e) in
        sign ++ str_of_Z (n / p) ++ "."
             ++ strip_zeros (pad k (str_of_Z (n mod p)))
  end.

Definition join (sep : string) (l : list string) : string :=
  match l with
  | [] => ""
  | x :: r => fold_left (fun acc y => acc ++ sep ++ y) r x
  end.

Fixpoint repr (v : pyval) : string :=
  match v with
  | PyNone => "None"
  | PyBool b => if b then "True" else "False"
  | PyInt z => str_of_Z z
  | PyFloat f => render_float f
  | PyStr s => "'" ++ s ++ "'"
  | PyBytes s => "b'" ++ s ++ "'"
  | PyList l => "[" ++ join ", " (map repr l) ++ "]"
  | PyFunc _ => "<function>"
  end.

(** [sendto] refuses a port outside [0, 65535] with [OverflowError]. *)
Definition port_error (h : string) (p : Z) : option exn :=
  if ((0 <=? p) && (p <=? 65535))%Z then None else Some OverflowError.

End Decimal.

#[export] Instance decimal_runtime : PyRuntime := {|
  int_of_str := Decimal.parse_int;
  float_of_str := Decimal.parse_float;
  str_of_float := Decimal.render_float;
  repr_obj := Decimal.repr;
  build_ok := fun _ _ => true;
  sendto_error := Decimal.port_error
|}.

(* ================================================================== *)
(** ** What a trace shows *)

(** The completion callbacks called, in order. *)
Definition callbacks_of (evs : list event) : list (nat * bool) :=
  flat_map (fun ev => match ev with
                      | EvCallback id ok => [(id, ok)]
                      | _ => []
                      end) evs.

(** The messages handed to [sendto]. *)
Definition sent_of (evs : list event) : list message :=
  flat_map (fun ev => match ev with
                      | EvSendTo _ m _ _ => [m]
                      | _ => []
                      end) evs.

(** The socket handles a trace opens. *)
Definition opened_of (evs : list event) : list nat :=
  flat_map (fun ev => match ev with
                      | EvSocket fd => [fd]
                      | _ => []
                      end) evs.

(** The socket handles a trace closes. *)
Definition closed_of (evs : list event) : list nat :=
  flat_map (fun ev => match ev with
                      | EvClose fd => [fd]
                      | _ => []
                      end) evs.

(** The handles opened and never closed. *)
Definition leaked_of (evs : list event) : list nat :=
  filter (fun fd => negb (existsb (Nat.eqb fd) (closed_of evs))) (opened_of evs).

(** The diagnostics written through [plugin.logError]. *)
Definition errors_of (evs : list event) : list diag :=
  flat_map (fun ev => match ev with
                      | EvLogError d => [d]
                      | _ => []
                      end) evs.

(* ================================================================== *)
(** ** The listener lifecycle

    The caller's thread runs [enable] and [disable]; the thread that
    [enable] starts runs the event loop.  The state is the [SPOSC] object
    together with the threads started so far, and the background work is a
    sequence of steps that the environment interleaves with the caller's
    calls.  Time is counted in milliseconds, and only the time the caller
    spends in its timed waits is counted. *)

Module Lifecycle.

Inductive lmsg : Type :=
| AlreadyEnabled | BackgroundLoopStarted | AlreadyDisabled
| TransportClosed | ServerCleared | ThreadTerminated
| AttemptingStartup | ListenerSkipped
| StartingListener (ip : string) (port : Z)
| ListenerRunning | BindFailed.

(** A thread started by [enable]: the arguments its closure holds, and
    whether its event loop is running. *)
Record worker : Type := {
  listen_ip : string;
  listen_port : Z;
  retry_interval : Z;
  running : bool
}.

Record sposc : Type := {
  should_run : bool;                  (* _should_run *)
  listener_enabled : bool;            (* _listener_enabled *)
  transport : option nat;             (* _transport *)
  osc_server : option (string * Z);   (* _osc_server *)
  loop : option nat;                  (* _loop: the thread that owns it *)
  thread : option nat;                (* _thread *)
  workers : list worker;              (* the threads started, oldest first *)
  bind_attempts : list (string * Z * bool);  (* create_serve_endpoint calls *)
  blocked : Z;                        (* time spent in timed waits *)
  log : list lmsg
}.

(** [__init__] *)
Definition init : sposc :=
  {| should_run := false; listener_enabled := false; transport := None;
     osc_server := None; loop := None; thread := None; workers := [];
     bind_attempts := []; blocked := 0; log := [] |}.

Definition add_log (m : lmsg) (s : sposc) : sposc :=
  {| should_run := should_run s; listener_enabled := listener_enabled s;
     transport := transport s; osc_server := osc_server s; loop := loop s;
     thread := thread s; workers := workers s;
     bind_attempts := bind_attempts s; blocked := blocked s;
     log := log s ++ [m] |}.

Definition set_should_run (b : bool) (s : sposc) : sposc :=
  {| should_run := b; listener_enabled := listener_enabled s;
     transport := transport s; osc_server := osc_server s; loop := loop s;
     thread := thread s; workers := workers s;
     bind_attempts := bind_attempts s; blocked := blocked s; log := log s |}.

Definition set_listener (enabled : bool) (tr : option nat)
  (srv : option (string * Z)) (s : sposc) : sposc :=
  {| should_run := should_run s; listener_enabled := enabled;
     transport := tr; osc_server := srv; loop := loop s;
     thread := thread s; workers := workers s;
     bind_attempts := bind_attempts s; blocked := blocked s; log := log s |}.

Definition set_loop_thread (l t : option nat) (s : sposc) : sposc :=
  {| should_run := should_run s; listener_enabled := listener_enabled s;
     transport := transport s; osc_server := osc_server s; loop := l;
     thread := t; workers := workers s;
     bind_attempts := bind_attempts s; blocked := blocked s; log := log s |}.

Definition set_workers (ws : list worker) (s : sposc) : sposc :=
  {| should_run := should_run s; listener_enabled := listener_enabled s;
     transport := transport s; osc_server := osc_server s; loop := loop s;
     thread := thread s; workers := ws;
     bind_attempts := bind_attempts s; blocked := blocked s; log := log s |}.

Definition add_bind (ip : string) (p : Z) (ok : bool) (s : sposc) : sposc :=
  {| should_run := should_run s; listener_enabled := listener_enabled s;
     transport := transport s; osc_server := osc_server s; loop := loop s;
     thread := thread s; workers := workers s;
     bind_attempts := bind_attempts s ++ [(ip, p, ok)];
     blocked := blocked s; log := log s |}.

Definition block (t : Z) (s : sposc) : sposc :=
  {| should_run := should_run s; listener_enabled := listener_enabled s;
     transport := transport s; osc_server := osc_server s; loop := loop s;
     thread := thread s; workers := workers s;
     bind_attempts := bind_attempts s; blocked := blocked s + t;
     log := log s |}.

Fixpoint set_nth {A} (n : nat) (x : A) (l : list A) : list A :=
  match l, n with
  | [], _ => []
  | _ :: r, O => x :: r
  | y :: r, S k => y :: set_nth k x r
  end.

Definition set_running (tid : nat) (b : bool) (s : sposc) : sposc :=
  match nth_error (workers s) tid with
  | Some w =>
      set_workers
        (set_nth tid {| listen_ip := listen_ip w; listen_port := listen_port w;
                        retry_interval := retry_interval w; running := b |}
                 (workers s)) s
  | None => s
  end.

Definition is_running (tid : nat) (s : sposc) : bool :=
  match nth_error (workers s) tid with
  | Some w => running w
  | None => false
  end.

(** [enable(listen_ip, listen_port, retry_interval)] *)
Definition enable (ip : string) (p : Z) (retry : Z) (s : sposc) : sposc :=
  if should_run s then add_log AlreadyEnabled s
  else
    let s1 := set_should_run true s in
    let tid := List.length (workers s1) in
    let w := {| listen_ip := ip; listen_port := p; retry_interval := retry;
                running := false |} in
    add_log BackgroundLoopStarted
      (set_loop_thread (loop s1) (Some tid) (set_workers (workers s1 ++ [w]) s1)).

(** [_start_listener(listen_ip, listen_port)]; [bind_ok] tells whether
    [create_serve_endpoint] succeeds. *)
Definition _start_listener (ip : string) (p : Z) (bind_ok : bool)
  (s : sposc) : sposc :=
  if listener_enabled s then add_log ListenerSkipped s
  else
    let s1 := add_log (StartingListener ip p) s in
    let s2 := set_listener (listener_enabled s1) (transport s1) (Some (ip, p)) s1 in
    let s3 := add_bind ip p bind_ok s2 in
    if bind_ok then
      let handle := List.length (bind_attempts s2) in
      add_log ListenerRunning (set_listener true (Some handle) (osc_server s3) s3)
    else
      set_listener false (transport s3) (osc_server s3) (add_log BindFailed s3).

(** One turn of the [while self._should_run] loop of [_main_loop], up to its
    [sleep(retry_interval)]. *)
Definition main_loop_turn (ip : string) (p : Z) (bind_ok : bool)
  (s : sposc) : sposc :=
  if should_run s then
    if negb (listener_enabled s)
    then _start_listener ip p bind_ok (add_log AttemptingStartup s)
    else s
  else s.

(** The coroutine [_shutdown] of [disable], run by the loop of thread [tid]. *)
Definition _shutdown (tid : nat) (s : sposc) : sposc :=
  let s1 := match transport s with
            | Some _ => add_log TransportClosed
                          (set_listener (listener_enabled s) None (osc_server s) s)
            | None => s
            end in
  let s2 := add_log ServerCleared (set_listener false (transport s1) None s1) in
  if is_running tid s2 then set_running tid false s2 else s2.

(** [_shutdown] once [disable] has returned and set [self._loop] to [None]:
    the [try] runs as before, the test [self._loop.is_running()] of the
    [finally] raises [AttributeError], and no loop is stopped. *)
Definition _shutdown_without_loop (s : sposc) : sposc :=
  let s1 := match transport s with
            | Some _ => add_log TransportClosed
                          (set_listener (listener_enabled s) None (osc_server s) s)
            | None => s
            end in
  add_log ServerCleared (set_listener false (transport s1) None s1).

(** The steps of the background threads. *)
Inductive bg_step : Type :=
| StartLoop (tid : nat)                       (* _start_loop, up to run_forever *)
| MainLoopTurn (tid : nat) (bind_ok : bool)   (* a turn of _main_loop *)
| RunShutdown (tid : nat).                    (* the scheduled _shutdown *)

Definition bg_exec (st : bg_step) (s : sposc) : sposc :=
  match st with
  | StartLoop tid =>
      match nth_error (workers s) tid with
      | Some _ => set_running tid true (set_loop_thread (Some tid) (thread s) s)
      | None => s
      end
  | MainLoopTurn tid bind_ok =>
      match nth_error (workers s) tid with
      | Some w =>
          if running w
          then main_loop_turn (listen_ip w) (listen_port w) bind_ok s
          else s
      | None => s
      end
  | RunShutdown tid =>
      (* the coroutine runs on the loop of thread [tid]; the loop its
         [finally] stops is [self._loop] as it is by then *)
      if is_running tid s then
        match loop s with
        | Some l => _shutdown l s
        | None => _shutdown_without_loop s
        end
      else s
  end.

Definition bg_run (steps : list bg_step) (s : sposc) : sposc :=
  fold_left (fun acc st => bg_exec st acc) steps s.

(** How the scheduler answers a [disable]: after how long the scheduled
    [_shutdown] has run, and after how long (counted from the end of the
    first wait) the thread has ended; [None] is never. *)
Record scheduler : Type := {
  done_after : option Z;
  exit_after : option Z
}.

(** The scheduler that never runs anything again. *)
Definition stuck : scheduler := {| done_after := None; exit_after := None |}.

(** The time a wait with a timeout blocks. *)
Definition timed_wait (timeout : Z) (ready_after : option Z) : Z :=
  match ready_after with
  | Some d => Z.min timeout (Z.max 0 d)
  | None => timeout
  end.

(** The timeout of [shutdown_complete.wait] and of [_thread.join]: 2.0 s. *)
Definition wait_timeout : Z := 2000.

(** [disable()] *)
Definition disable (env : scheduler) (s : sposc) : sposc :=
  if negb (should_run s) then add_log AlreadyDisabled s
  else
    let s1 := set_should_run false s in
    (* run_coroutine_threadsafe, when the loop exists and runs *)
    let scheduled := match loop s1 with
                     | Some tid => if is_running tid s1 then Some tid else None
                     | None => None
                     end in
    let completion := match scheduled with
                      | Some _ => done_after env
                      | None => None
                      end in
    (* shutdown_complete.wait(timeout=2.0) *)
    let s2 := block (timed_wait wait_timeout completion) s1 in
    let s3 := match scheduled, completion with
              | Some tid, Some d =>
                  if d <=? wait_timeout then _shutdown tid s2 else s2
              | _, _ => s2
              end in
    (* self._thread.join(timeout=2.0) *)
    let s4 := match thread s3 with
              | Some _ =>
                  add_log ThreadTerminated
                    (block (timed_wait wait_timeout (exit_after env)) s3)
              | None => s3
              end in
    set_loop_thread None None s4.


(** The pause of [restart] between its [disable] and its [enable]: 1.0 s. *)
Definition restart_pause : Z := 1000.

(** [restart(listen_ip, listen_port, retry_interval)]: the body
    [delayed_restart] of the thread it starts. *)
Definition delayed_restart (env : scheduler) (ip : string) (p : Z)
  (retry : Z) (s : sposc) : sposc :=
  enable ip p retry (block restart_pause (disable env s)).

(** Whether the scheduled [_shutdown] completes within the wait of
    [disable]. *)
Definition answers_in_time (env : scheduler) : bool :=
  match done_after env with
  | Some d => d <=? wait_timeout
  | None => false
  end.

(** The outcomes of the binds a loop makes: those up to the first success. *)
Fixpoint through_first_success (oks : list bool) : list bool :=
  match oks with
  | [] => []
  | true :: _ => [true]
  | false :: rest => false :: through_first_success rest
  end.

(** The turns of the main loop of thread [tid]. *)
Definition turns_of (tid : nat) (oks : list bool) : list bg_step :=
  map (MainLoopTurn tid) oks.

End Lifecycle.

(* ================================================================== *)
(** ** Example data *)

Module Demo.

(** A freshly configured sender. *)
Definition world0 : world :=
  {| host := "127.0.0.1"; port := 9001; prefix := "/studio";
     next_fd := 0; trace := [] |}.

(** The same sender with a port that [sendto] refuses. *)
Definition bad_port : world :=
  {| host := "127.0.0.1"; port := 70000; prefix := "/studio";
     next_fd := 0; trace := [] |}.

(** "Set Cue Index" of the MADRIX plugin. *)
Definition cue_index : action :=
  oscAction (VtEnum OSCTypes.Int) "/Cues/Index" ["{I, Index, 0, 0, 999}"].

(** An action with an enumeration in its path and a scaled float value. *)
Definition scene_level : action :=
  oscAction (VtEnum OSCTypes.Float) "/Scene/{A, Scene, 0, Intro;Main}/Level"
    ["{F, Level, 0, 0, 100, %, *2}"].


End Demo.

(* ================================================================== *)
(** ** Runs and their traces *)

(** [runs m w r w' evs]: started in [w], [m] ends with outcome [r] in [w']
    after appending exactly [evs] to the trace. *)
Definition runs {A} (m : M A) (w : world) (r : result A) (w' : world)
  (evs : list event) : Prop :=
  m w = (r, w') /\ trace w' = trace w ++ evs.

(** [m] calls no completion callback, whatever its outcome. *)
Definition silent {A} (m : M A) : Prop :=
  forall w, exists r w' evs, runs m w r w' evs /\ callbacks_of evs = [].

(** [m] calls no completion callback and does not raise. *)
Definition quiet {A} (m : M A) : Prop :=
  forall w, exists a w' evs, runs m w (Ok a) w' evs /\ callbacks_of evs = [].

(* ================================================================== *)
(** ** The modifiers as the specification words them *)

(** The four arithmetic modifiers of a numeric placeholder. *)
Inductive modifier_op : Set := Times | Over | Plus | Minus.

Definition op_sign (o : modifier_op) : ascii :=
  match o with
  | Times => "*" | Over => "/" | Plus => "+" | Minus => "-"
  end%char.

Definition op_apply (o : modifier_op) (v k : float) : float :=
  match o with
  | Times => v * k
  | Over => v / k
  | Plus => v + k
  | Minus => v - k
  end%float.

(** What a numeric placeholder resolves to once the number is known: Int
    truncates, Float keeps the value. *)
Definition numeric_result (kind : string) (x : float) : result pyval :=
  if String.eqb kind "I"
  then (z <~ float_trunc x ;; Ok (PyInt z))%result
  else Ok (PyFloat x).

(** The text a numeric placeholder leaves in a path. *)
Definition numeric_text {rt : PyRuntime} (kind : string) (x : float)
  : result string :=
  if String.eqb kind "I"
  then (z <~ float_trunc x ;; Ok (str_of_Z z))%result
  else Ok (str_of_float x).

(** The text of a truth value. *)
Definition bool_text (b : bool) : string := if b then "True" else "False".

(** A channel value clamped to a byte, as the specification words it. *)
Definition clamp_byte (t : Z) : Z := Z.max 0 (Z.min 255 t).

(** [c] is the component [x] scaled by 255, truncated and clamped. *)
Definition scaled_and_clamped (x : float) (c : Z) : Prop :=
  forall t, float_trunc (x * 255)%float = Ok t -> c = clamp_byte t.

Module LifecycleDemo.
Import Lifecycle.



End LifecycleDemo.

(** A stretch of trace that only logs. *)
Definition only_logs (evs : list event) : Prop :=
  forall ev, In ev evs -> exists m, ev = EvLog m.

(* ================================================================== *)
(** ** What an invocation resolves to

    The two substitution loops of [action_callback], read as functions of
    the descriptors and of the arguments they consume in order. *)

(** The world after more events. *)
Definition log_to (w : world) (evs : list event) : world :=
  {| host := host w; port := port w; prefix := prefix w;
     next_fd := next_fd w; trace := trace w ++ evs |}.

(** Events that only write to the log. *)
Definition is_note (ev : event) : bool :=
  match ev with
  | EvLog _ | EvLogError _ => true
  | _ => false
  end.

Section Resolution.
Context {rt : PyRuntime}.

(** What the path loop puts in place of a placeholder: its replacement, or
    the text of the raw value when the replacement fails. *)
Definition path_text (ddef : string) (raw_val : pyval) : string :=
  match path_replacement (parts_of ddef) raw_val with
  | Ok s => s
  | Raise _ => py_str raw_val
  end.

(** What the value loop appends for a placeholder. *)
Definition resolved_value (ddef : string) (raw_val : pyval) : pyval :=
  match value_replacement (parts_of ddef) raw_val with
  | Ok v => v
  | Raise _ => PyStr (py_str raw_val)
  end.

(** The path after the placeholders [defs] took the arguments [raws]. *)
Fixpoint resolve_path (defs : list string) (raws : list pyval)
  (tempPath : string) : string :=
  match defs, raws with
  | ddef :: defs', raw :: raws' =>
      resolve_path defs' raws'
        (PyStr.replace tempPath (braced ddef) (path_text ddef raw))
  | _, _ => tempPath
  end.

(** The values of the placeholders [defs] for the arguments [raws]. *)
Fixpoint resolve_values (defs : list string) (raws : list pyval)
  : list pyval :=
  match defs, raws with
  | ddef :: defs', raw :: raws' =>
      resolved_value ddef raw :: resolve_values defs' raws'
  | _, _ => []
  end.

(** The diagnostics of the path loop. *)
Fixpoint path_errors (defs : list string) (raws : list pyval) : list event :=
  match defs, raws with
  | ddef :: defs', raw :: raws' =>
      match path_replacement (parts_of ddef) raw with
      | Ok _ => path_errors defs' raws'
      | Raise e =>
          EvLogError (PathSubstitutionError ddef e) :: path_errors defs' raws'
      end
  | _, _ => []
  end.

(** The diagnostics of the value loop. *)
Fixpoint value_errors (defs : list string) (raws : list pyval) : list event :=
  match defs, raws with
  | ddef :: defs', raw :: raws' =>
      match value_replacement (parts_of ddef) raw with
      | Ok _ => value_errors defs' raws'
      | Raise e =>
          EvLogError (ValueSubstitutionError ddef e) :: value_errors defs' raws'
      end
  | _, _ => []
  end.

(** [args[1:expected_total]] *)
Definition dyn_args_of (a : action) (args : list pyval) : list pyval :=
  firstn (expected_total a - 1) (skipn 1 args).

(** The address an invocation resolves to, before the prefix. *)
Definition action_path (a : action) (args : list pyval) : string :=
  resolve_path (path_defs a) (dyn_args_of a args) (act_path a).

(** The values an invocation hands to the sender: those of the value
    placeholders, which take the arguments that follow the path's. *)
Definition action_values (a : action) (args : list pyval) : list pyval :=
  if value_phase a
  then resolve_values (value_defs a)
         (skipn (List.length (path_defs a)) (dyn_args_of a args))
  else [].

(** What the loop over [values] logs for one of them. *)
Definition arg_log_event (ts : option string) (full_address : string)
  (value : pyval) : event :=
  match ts with
  | Some _ =>
      if is_none value then EvLog (LogBare full_address)
      else EvLog (LogWithArg full_address value ts)
  | None => EvLog (LogBare full_address)
  end.

(** The message [send] builds for converted [values]. *)
Definition message_of (w : world) (address : string) (val_type : valtype)
  (values : list pyval) : message :=
  {| msg_address := (prefix w ++ address)%string;
     msg_args := added_args (val_type_str val_type) values |}.

(** What [send] logs before it builds the message. *)
Definition send_prologue (w : world) (address : string) (val_type : valtype)
  (values : list pyval) : list event :=
  [EvLog (LogTarget (host w) (port w)); EvLog (LogPrefix (prefix w));
   EvLog (LogAddress address)]
  ++ map (arg_log_event (val_type_str val_type) (prefix w ++ address)%string)
       values.

(** The events of a [send] that goes through, after the prologue. *)
Definition send_epilogue (w : world) (address : string) (val_type : valtype)
  (values : list pyval) : list event :=
  [EvSocket (next_fd w);
   EvSendTo (next_fd w) (message_of w address val_type values) (host w) (port w);
   EvPushOutputTimer;
   EvClose (next_fd w);
   EvLog (LogSent (host w) (port w) (prefix w ++ address)%string values)].

(** The world after a socket was opened and more events were logged. *)
Definition opened_to (w : world) (evs : list event) : world :=
  {| host := host w; port := port w; prefix := prefix w;
     next_fd := S (next_fd w); trace := trace w ++ evs |}.

(** What [action_callback] logs before it hands over to [_send_osc_action]. *)
Definition invocation_notes (a : action) (args : list pyval) : list event :=
  path_errors (path_defs a) (dyn_args_of a args)
  ++ [EvLog (LogFinalPath (action_path a args))]
  ++ (if value_phase a
      then value_errors (value_defs a)
             (skipn (List.length (path_defs a)) (dyn_args_of a args))
           ++ [EvLog (LogFinalValues (action_values a args))]
      else []).

(** What the [try] of the custom action computes before it logs and
    sends: the selected type and the coerced value. *)
Definition custom_resolve (val_type_index value : pyval)
  : result (string * pyval) :=
  (i <~ as_index val_type_index ;;
   val_type <~ py_index value_type_options i ;;
   coerced_value <~ custom_coerce val_type value ;;
   Ok (val_type, coerced_value))%result.

(** Whether a result is a value. *)
Definition succeeded {A} (r : result A) : bool :=
  match r with Ok _ => true | Raise _ => false end.

End Resolution.

(* ================================================================== *)
(** ** Templates

    A path or a value template is literal text in which placeholders,
    descriptors in braces, stand. *)

(** Whether the character [c] occurs in [s]. *)
Fixpoint has_char (c : ascii) (s : string) : bool :=
  match s with
  | EmptyString => false
  | String a s' => Ascii.eqb a c || has_char c s'
  end.

(** Text a placeholder can hold, [[^{}]+]: not empty and without braces. *)
Definition is_descriptor (d : string) : bool :=
  PyStr.nonempty d && negb (has_char "{" d) && negb (has_char "}" d).

(** The literal text [t0] followed by placeholders, each with the literal
    text that follows it. *)
Fixpoint template (t0 : string) (segs : list (string * string)) : string :=
  match segs with
  | [] => t0
  | (d, t) :: rest => (t0 ++ braced d ++ template t rest)%string
  end.

(** The template with the texts [xs] in the place of its placeholders. *)
Fixpoint filled (t0 : string) (segs : list (string * string))
  (xs : list string) : string :=
  match segs, xs with
  | (_, t) :: rest, x :: xs' => (t0 ++ x ++ filled t rest xs')%string
  | _, _ => t0
  end.

(** The conditions on a template: descriptors that are placeholders, and
    literal text without an opening brace. *)
Definition well_formed (segs : list (string * string)) : Prop :=
  Forall (fun seg => is_descriptor (fst seg) = true
                     /\ has_char "{" (snd seg) = false) segs.

Section Texts.
Context {rt : PyRuntime}.

(** The replacement texts of the placeholders [defs] for the arguments
    [raws]. *)
Fixpoint path_texts (defs : list string) (raws : list pyval) : list string :=
  match defs, raws with
  | ddef :: defs', raw :: raws' => path_text ddef raw :: path_texts defs' raws'
  | _, _ => []
  end.

End Texts.

(* ================================================================== *)
(** ** The parameters an action registers

    After [plugin.addAction], [oscAction] walks over the descriptors of the
    path and of the values and adds one parameter to the action's user
    interface for each; what the host is asked to add is recorded. *)

(** The calls on the host's action object. *)
Inductive ui_param : Type :=
| IntParameter (name : string) (default min max : Z)       (* addIntParameter *)
| FloatParameter (name : string) (default min max : float) (* addFloatParameter *)
| StringParameter (name default : string)                  (* addStringParameter *)
| IPParameter (name : string) (default : bool)             (* addIPParameter *)
| EnumParameter (name : string) (default : Z) (options : string)
                                                           (* addEnumParameter *)
| ColorParameter (name : string)                           (* addColorParameter *)
| BoolParameter (name : string) (default : bool).          (* addBoolParameter *)

(** What the registration of one descriptor leaves behind: a parameter, or
    the error [plugin.logError] reports. *)
Inductive reg_event : Type :=
| Registered (p : ui_param)
| RegisterFailed (ddef : string) (e : exn).

(** The fields of a descriptor written out, [", "] between them. *)
Fixpoint descriptor_of (fields : list string) : string :=
  match fields with
  | [] => ""
  | [f] => f
  | f :: rest => (f ++ ", " ++ descriptor_of rest)%string
  end.

(** A field as [parts_of] returns it: without a comma and without white
    space around it. *)
Definition is_field (f : string) : bool :=
  negb (has_char "," f) && String.eqb (PyStr.strip f) f.

Section Registration.
Context {rt : PyRuntime}.

(** [add_action_param_int(action, name, min_val, max_val, default)] *)
Definition add_action_param_int (name min_val max_val default : string)
  : result ui_param :=
  (d <~ py_int (PyStr default) ;;
   lo <~ py_int (PyStr min_val) ;;
   hi <~ py_int (PyStr max_val) ;;
   Ok (IntParameter name d lo hi))%result.

(** [add_action_param_float(action, name, min_val, max_val, default)] *)
Definition add_action_param_float (name min_val max_val default : string)
  : result ui_param :=
  (d <~ py_float (PyStr default) ;;
   lo <~ py_float (PyStr min_val) ;;
   hi <~ py_float (PyStr max_val) ;;
   Ok (FloatParameter name d lo hi))%result.

(** [add_action_param_string(action, name, default)] *)
Definition add_action_param_string (name default : string) : result ui_param :=
  Ok (StringParameter name (py_str (PyStr default))).

(** [add_action_param_IP(action, name, default)] *)
Definition add_action_param_IP (name default : string) : result ui_param :=
  Ok (IPParameter name (py_truthy (PyStr default))).

(** [add_action_param_Array(action, name, default, options)] *)
Definition add_action_param_Array (name default options : string)
  : result ui_param :=
  (d <~ py_int (PyStr default) ;;
   Ok (EnumParameter name d (py_str (PyStr options))))%result.

(** [add_action_param_Color(action, name)] *)
Definition add_action_param_Color (name : string) : result ui_param :=
  Ok (ColorParameter name).

(** [add_action_param_Bool(action, name, default)] *)
Definition add_action_param_Bool (name default : string) : result ui_param :=
  Ok (BoolParameter name (py_truthy (PyStr default))).

(** The body of the [try] of the registration loop: the parameters added
    for one descriptor.  The suffix, [parts[5]], [parts[4]] or [parts[3]]
    when there is one, is read under a length test and passed on to a
    helper that ignores it. *)
Definition register_body (parts : list string)
  (param_type param_name : string) : result (list ui_param) :=
  if PyStr.mem param_type ["I"; "F"] then
    (default <~ py_index parts 2 ;;
     min_val <~ py_index parts 3 ;;
     max_val <~ py_index parts 4 ;;
     if String.eqb param_type "I"
     then (p <~ add_action_param_int param_name min_val max_val default ;;
           Ok [p])
     else (p <~ add_action_param_float param_name min_val max_val default ;;
           Ok [p]))%result
  else if String.eqb param_type "A" then
    (default <~ py_index parts 2 ;;
     options <~ py_index parts 3 ;;
     p <~ add_action_param_Array param_name default options ;;
     Ok [p])%result
  else if String.eqb param_type "S" then
    (default <~ py_index parts 2 ;;
     p <~ add_action_param_string param_name default ;;
     Ok [p])%result
  else if String.eqb param_type "B" then
    (default <~ py_index parts 2 ;;
     p <~ add_action_param_Bool param_name default ;;
     Ok [p])%result
  else if String.eqb param_type "IP" then
    (default <~ py_index parts 2 ;;
     p <~ add_action_param_IP param_name default ;;
     Ok [p])%result
  else if String.eqb param_type "C" then
    (p <~ add_action_param_Color param_name ;; Ok [p])%result
  else Ok [].

(** One turn of the loop [for ddef in all_defs]: [parts[0]] and [parts[1]]
    are read outside the [try], so that their exception leaves the loop. *)
Definition register_one (ddef : string) : result (list reg_event) :=
  (let parts := parts_of ddef in
   param_type <~ py_index parts 0 ;;
   param_name <~ py_index parts 1 ;;
   Ok (match register_body parts param_type param_name with
       | Ok ps => map Registered ps
       | Raise e => [RegisterFailed ddef e]
       end))%result.

(** The loop: what it registered and reported, and the exception that ended
    it, if any. *)
Fixpoint register_params (defs : list string) : list reg_event * option exn :=
  match defs with
  | [] => ([], None)
  | ddef :: rest =>
      match register_one ddef with
      | Raise e => ([], Some e)
      | Ok evs => let (evs', r) := register_params rest in (evs ++ evs', r)
      end
  end.

(** [all_defs]: the descriptors of the path, then those of the values. *)
Definition all_defs (a : action) : list string :=
  path_defs a ++ value_defs a.

(** The part of [oscAction] that follows [plugin.addAction]. *)
Definition register_action (a : action) : list reg_event * option exn :=
  register_params (all_defs a).

End Registration.

(** The parameters among the events of a registration. *)
Fixpoint params_of (evs : list reg_event) : list ui_param :=
  match evs with
  | [] => []
  | Registered p :: rest => p :: params_of rest
  | RegisterFailed _ _ :: rest => params_of rest
  end.

(** The errors among the events of a registration. *)
Fixpoint failures_of (evs : list reg_event) : list (string * exn) :=
  match evs with
  | [] => []
  | Registered _ :: rest => failures_of rest
  | RegisterFailed d e :: rest => (d, e) :: failures_of rest
  end.

(* ================================================================== *)
(** ** The plugin: the actions [afterInit] registers, in order *)

Module Madrix.

(** The [oscAction] calls of [afterInit]: name, type, path, values. *)
Definition actions : list (string * valtype * string * list string) :=
  [ ("Set Input AGC", VtEnum OSCTypes.Bool, "/Audio/Input/Agc",
       ["{B, AGC, 0, 0;1, Enable;Disable}"]);
    ("Set Input Level", VtEnum OSCTypes.Float, "/Audio/Input/Level",
       ["{F, Level, 50, 0, 100, %}"]);
    ("Set Input Level Offset", VtEnum OSCTypes.Float,
       "/Audio/Input/Level/Offset", ["{F, Offset, 0, -100, 100, %}"]);
    ("Mute Input", VtEnum OSCTypes.Bool, "/Audio/Input/Mute",
       ["{B, Mute, 0, 0;1, Off;On}"]);
    ("Set Output Level", VtEnum OSCTypes.Float, "/Audio/Output/Level",
       ["{F, Level, 50, 0, 100, %}"]);
    ("Set Output Level Offset", VtEnum OSCTypes.Float,
       "/Audio/Output/Level/Offset", ["{F, Offset, 0, -100, 100, %}"]);
    ("Mute Output", VtEnum OSCTypes.Bool, "/Audio/Output/Mute",
       ["{B, Mute, 0, 0;1, Off;On}"]);
    ("Freeze Output", VtEnum OSCTypes.Bool, "/Output/Freeze",
       ["{B, Freeze, 0, 0;1, Off;On}"]);
    ("Set Master Level", VtEnum OSCTypes.Int, "/Output/Master",
       ["{I, Level, 127, 0, 255}"]);
    ("Set Master Offset", VtEnum OSCTypes.Float, "/Output/Master/Offset",
       ["{F, Offset, 0, -100, 100, %}"]);
    ("Blackout", VtEnum OSCTypes.Bool, "/Output/Blackout",
       ["{B, Blackout, 0, 0;1, Off;On}"]);
    ("Set CueList Index", VtEnum OSCTypes.Int, "/CueList/Index",
       ["{I, Index, 0, 0, 999}"]);
    ("Next CueList", VtEnum OSCTypes.Bare, "/CueList/Index/Up", []);
    ("Previous CueList", VtEnum OSCTypes.Bare, "/CueList/Index/Down", []);
    ("Set Playback Mode (LOOP/SHUFFLE)", VtEnum OSCTypes.Bool,
       "/CueList/PlaybackMode", ["{B, Mode, 0, 0;1, Loop;Shuffle}"]);
    ("Set Playback State (0-STOP, 1-PAUSE, 2-PLAY)", VtEnum OSCTypes.Bare,
       "/CueList/PlaybackState/{I, State, 0, 0, 2}", []);
    ("Set Timecode Source", VtEnum OSCTypes.String, "/CueList/TimeCodeSource",
       ["{S, Source, SMPTE, None;Art-net;MIDI;SMPTE;System Time}"]);
    ("Next Timecode Source", VtEnum OSCTypes.Bare,
       "/CueList/TimeCodeSource/Up", []);
    ("Previous Timecode Source", VtEnum OSCTypes.Bare,
       "/CueList/TimeCodeSource/Down", []);
    ("Set Cue Index", VtEnum OSCTypes.Int, "/Cues/Index",
       ["{I, Index, 0, 0, 999}"]);
    ("Next Cue", VtEnum OSCTypes.Bare, "/Cues/Index/Up", []);
    ("Previous Cue", VtEnum OSCTypes.Bare, "/Cues/Index/Down", []) ].

(** The action [oscAction] builds for an entry. *)
Definition action_of (entry : string * valtype * string * list string)
  : action :=
  let '(_, val_type, path, values) := entry in oscAction val_type path values.

End Madrix.

(* ================================================================== *)
(** * Properties *)

(** ** Facts about runs *)

Lemma callbacks_of_app (e1 e2 : list event) :
  callbacks_of (e1 ++ e2) = callbacks_of e1 ++ callbacks_of e2.
Proof. unfold callbacks_of. apply flat_map_app. Qed.

Lemma errors_of_app (e1 e2 : list event) :
  errors_of (e1 ++ e2) = errors_of e1 ++ errors_of e2.
Proof. unfold errors_of. apply flat_map_app. Qed.

Lemma runs_ret {A} (a : A) (w : world) : runs (ret a) w (Ok a) w [].
Proof. split; [reflexivity | now rewrite app_nil_r]. Qed.

Lemma runs_emit (ev : event) (w : world) :
  exists w', runs (emit ev) w (Ok tt) w' [ev].
Proof. eexists. split; reflexivity. Qed.

Lemma runs_lift {A} (r : result A) (w : world) : runs (lift r) w r w [].
Proof. split; [reflexivity | now rewrite app_nil_r]. Qed.

Lemma runs_bind {A B} (m : M A) (k : A -> M B) w a w1 e1 r w2 e2 :
  runs m w (Ok a) w1 e1 -> runs (k a) w1 r w2 e2 ->
  runs (bind m k) w r w2 (e1 ++ e2).
Proof.
  intros [Hm Ht1] [Hk Ht2]. split.
  - unfold bind. now rewrite Hm.
  - now rewrite Ht2, Ht1, app_assoc.
Qed.

Lemma runs_bind_raise {A B} (m : M A) (k : A -> M B) w e w1 e1 :
  runs m w (Raise e) w1 e1 -> runs (bind m k) w (Raise e) w1 e1.
Proof.
  intros [Hm Ht1]. split; [| exact Ht1]. unfold bind. now rewrite Hm.
Qed.

Lemma runs_catch_ok {A} (m : M A) (h : exn -> M A) w a w1 e1 :
  runs m w (Ok a) w1 e1 -> runs (catch m h) w (Ok a) w1 e1.
Proof.
  intros [Hm Ht1]. split; [| exact Ht1]. unfold catch. now rewrite Hm.
Qed.

Lemma runs_catch_raise {A} (m : M A) (h : exn -> M A) w e w1 e1 r w2 e2 :
  runs m w (Raise e) w1 e1 -> runs (h e) w1 r w2 e2 ->
  runs (catch m h) w r w2 (e1 ++ e2).
Proof.
  intros [Hm Ht1] [Hh Ht2]. split.
  - unfold catch. now rewrite Hm.
  - now rewrite Ht2, Ht1, app_assoc.
Qed.

Lemma quiet_silent {A} (m : M A) : quiet m -> silent m.
Proof.
  intros H w. destruct (H w) as (a & w' & evs & Hr & Hc).
  now exists (Ok a), w', evs.
Qed.

Lemma quiet_ret {A} (a : A) : quiet (ret a).
Proof. intros w. exists a, w, []. split; [apply runs_ret | reflexivity]. Qed.

Lemma silent_raise {A} (e : exn) : silent (@raise A e).
Proof.
  intros w. exists (Raise e), w, []. split; [| reflexivity].
  split; [reflexivity | now rewrite app_nil_r].
Qed.

Lemma silent_lift {A} (r : result A) : silent (lift r).
Proof. intros w. exists r, w, []. split; [apply runs_lift | reflexivity]. Qed.

Lemma quiet_lift_ok {A} (a : A) : quiet (lift (Ok a)).
Proof. intros w. exists a, w, []. split; [apply runs_lift | reflexivity]. Qed.

Lemma quiet_get : quiet get.
Proof.
  intros w. exists w, w, []. split; [| reflexivity].
  split; [reflexivity | now rewrite app_nil_r].
Qed.

Lemma quiet_log (m : logmsg) : quiet (emit (EvLog m)).
Proof.
  intros w. destruct (runs_emit (EvLog m) w) as [w' H].
  now exists tt, w', [EvLog m].
Qed.

Lemma quiet_log_error (d : diag) : quiet (emit (EvLogError d)).
Proof.
  intros w. destruct (runs_emit (EvLogError d) w) as [w' H].
  now exists tt, w', [EvLogError d].
Qed.

Lemma quiet_close (fd : nat) : quiet (emit (EvClose fd)).
Proof.
  intros w. destruct (runs_emit (EvClose fd) w) as [w' H].
  now exists tt, w', [EvClose fd].
Qed.

Lemma quiet_push_output : quiet safe_push_output.
Proof.
  intros w. destruct (runs_emit EvPushOutputTimer w) as [w' H].
  now exists tt, w', [EvPushOutputTimer].
Qed.

Lemma quiet_socket : quiet socket.
Proof.
  intros w. exists (next_fd w). eexists. exists [EvSocket (next_fd w)].
  split; [split; reflexivity | reflexivity].
Qed.

Lemma silent_bind {A B} (m : M A) (k : A -> M B) :
  silent m -> (forall a, silent (k a)) -> silent (bind m k).
Proof.
  intros Hm Hk w. destruct (Hm w) as (r & w1 & e1 & Hr & Hc1).
  destruct r as [a | e].
  - destruct (Hk a w1) as (r2 & w2 & e2 & Hr2 & Hc2).
    exists r2, w2, (e1 ++ e2). split.
    + eapply runs_bind; eassumption.
    + now rewrite callbacks_of_app, Hc1, Hc2.
  - exists (Raise e), w1, e1. split; [now apply runs_bind_raise | exact Hc1].
Qed.

Lemma quiet_bind {A B} (m : M A) (k : A -> M B) :
  quiet m -> (forall a, quiet (k a)) -> quiet (bind m k).
Proof.
  intros Hm Hk w. destruct (Hm w) as (a & w1 & e1 & Hr & Hc1).
  destruct (Hk a w1) as (b & w2 & e2 & Hr2 & Hc2).
  exists b, w2, (e1 ++ e2). split.
  - eapply runs_bind; eassumption.
  - now rewrite callbacks_of_app, Hc1, Hc2.
Qed.

Lemma quiet_catch {A} (m : M A) (h : exn -> M A) :
  silent m -> (forall e, quiet (h e)) -> quiet (catch m h).
Proof.
  intros Hm Hh w. destruct (Hm w) as (r & w1 & e1 & Hr & Hc1).
  destruct r as [a | e].
  - exists a, w1, e1. split; [now apply runs_catch_ok | exact Hc1].
  - destruct (Hh e w1) as (b & w2 & e2 & Hr2 & Hc2).
    exists b, w2, (e1 ++ e2). split.
    + eapply runs_catch_raise; eassumption.
    + now rewrite callbacks_of_app, Hc1, Hc2.
Qed.

Lemma quiet_for_each {A} (l : list A) (body : A -> M unit) :
  (forall x, quiet (body x)) -> quiet (for_each l body).
Proof.
  intros Hb. induction l as [| x r IH]; simpl.
  - apply quiet_ret.
  - apply quiet_bind; [apply Hb | intros _; exact IH].
Qed.

Create HintDb quiet.
#[export] Hint Resolve quiet_ret quiet_lift_ok quiet_get quiet_log
  quiet_log_error quiet_close quiet_push_output quiet_socket
  silent_raise silent_lift quiet_silent : quiet.

Section SenderFacts.
Context {rt : PyRuntime}.

Lemma quiet_add_arg_log ts full v : quiet (add_arg_log ts full v).
Proof.
  unfold add_arg_log. destruct ts; [destruct (is_none v) |]; auto with quiet.
Qed.

Lemma silent_sendto fd m h p : silent (sendto fd m h p).
Proof.
  unfold sendto. destruct (sendto_error h p); [apply silent_raise |].
  apply quiet_silent. intros w.
  destruct (runs_emit (EvSendTo fd m h p) w) as [w' H].
  now exists tt, w', [EvSendTo fd m h p].
Qed.

(** [send] catches whatever goes wrong inside it and calls no callback. *)
Lemma quiet_send address val_type raw_val : quiet (send address val_type raw_val).
Proof.
  unfold send. apply quiet_catch; [| intros e; apply quiet_log].
  apply silent_bind; [apply silent_lift | intros values].
  apply silent_bind; [auto with quiet | intros w0].
  repeat (apply silent_bind; [solve [auto with quiet] | intros _]).
  apply silent_bind.
  { apply quiet_silent, quiet_for_each. intros v. apply quiet_add_arg_log. }
  intros _. apply silent_bind.
  { destruct (build_ok _ _); auto with quiet. }
  intros msg. apply silent_bind; [auto with quiet | intros sock].
  apply silent_bind; [apply silent_sendto | intros _].
  repeat (apply silent_bind; [solve [auto with quiet] | intros _]).
  auto with quiet.
Qed.

End SenderFacts.

Section ActionFacts.
Context {rt : PyRuntime}.

Lemma runs_dyn_arg dyn i raw w :
  nth_error dyn i = Some raw -> runs (dyn_arg dyn i) w (Ok raw) w [].
Proof. intros H. unfold dyn_arg. rewrite H. apply runs_lift. Qed.

(** The path loop neither raises nor calls back, and every replacement
    that fails leaves its diagnostic. *)
Lemma substitute_path_runs defs : forall i dyn tempPath w,
  (i + List.length defs <= List.length dyn)%nat ->
  exists p w' evs,
    runs (substitute_path defs i dyn tempPath) w (Ok p) w' evs
    /\ callbacks_of evs = []
    /\ forall j ddef raw e,
         nth_error defs j = Some ddef ->
         nth_error dyn (i + j) = Some raw ->
         path_replacement (parts_of ddef) raw = Raise e ->
         In (PathSubstitutionError ddef e) (errors_of evs).
Proof.
  induction defs as [| ddef rest IH]; intros i dyn tempPath w Hlen.
  - exists tempPath, w, []. split; [apply runs_ret |]. split; [reflexivity |].
    intros j d raw e Hj. now destruct j.
  - simpl in Hlen.
    destruct (nth_error dyn i) as [raw |] eqn:Hraw;
      [| apply nth_error_None in Hraw; lia].
    simpl substitute_path.
    destruct (path_replacement (parts_of ddef) raw) as [rep | e] eqn:Hrep.
    + destruct (IH (S i) dyn (PyStr.replace tempPath (braced ddef) rep) w)
        as (p & w' & evs & Hr & Hc & Hd); [lia |].
      exists p, w', evs. split; [| split; [exact Hc |]].
      * change evs with ([] ++ ([] ++ evs)).
        eapply runs_bind; [apply runs_dyn_arg, Hraw |].
        eapply runs_bind; [| exact Hr].
        apply runs_catch_ok. rewrite Hrep. apply runs_lift.
      * intros [| j] d raw' e Hj Hn Hf.
        -- simpl in Hj. injection Hj as <-. rewrite Nat.add_0_r in Hn.
           congruence.
        -- apply (Hd j d raw' e Hj); [| exact Hf].
           now replace (S i + j)%nat with (i + S j)%nat by lia.
    + destruct (runs_emit (EvLogError (PathSubstitutionError ddef e)) w)
        as [w1 Hw1].
      destruct (IH (S i) dyn
                  (PyStr.replace tempPath (braced ddef) (py_str raw)) w1)
        as (p & w' & evs & Hr & Hc & Hd); [lia |].
      exists p, w', ([EvLogError (PathSubstitutionError ddef e)] ++ evs).
      split; [| split].
      * change ([EvLogError (PathSubstitutionError ddef e)] ++ evs)
          with ([] ++ (([] ++ ([EvLogError (PathSubstitutionError ddef e)] ++ []))
                       ++ evs)).
        eapply runs_bind; [apply runs_dyn_arg, Hraw |].
        eapply runs_bind; [| exact Hr].
        eapply runs_catch_raise; [rewrite Hrep; apply runs_lift |].
        eapply runs_bind; [exact Hw1 | apply runs_ret].
      * rewrite callbacks_of_app, Hc. reflexivity.
      * rewrite errors_of_app. intros [| j] d raw' e' Hj Hn Hf.
        -- simpl in Hj. injection Hj as <-. rewrite Nat.add_0_r in Hn.
           left. congruence.
        -- apply in_or_app. right. apply (Hd j d raw' e' Hj); [| exact Hf].
           now replace (S i + j)%nat with (i + S j)%nat by lia.
Qed.

(** The same for the value loop. *)
Lemma substitute_values_runs defs : forall offset i dyn acc w,
  (offset + i + List.length defs <= List.length dyn)%nat ->
  exists vs w' evs,
    runs (substitute_values defs offset i dyn acc) w (Ok vs) w' evs
    /\ callbacks_of evs = []
    /\ forall j ddef raw e,
         nth_error defs j = Some ddef ->
         nth_error dyn (offset + i + j) = Some raw ->
         value_replacement (parts_of ddef) raw = Raise e ->
         In (ValueSubstitutionError ddef e) (errors_of evs).
Proof.
  induction defs as [| ddef rest IH]; intros offset i dyn acc w Hlen.
  - exists acc, w, []. split; [apply runs_ret |]. split; [reflexivity |].
    intros j d raw e Hj. now destruct j.
  - simpl in Hlen.
    destruct (nth_error dyn (offset + i)) as [raw |] eqn:Hraw;
      [| apply nth_error_None in Hraw; lia].
    simpl substitute_values.
    destruct (value_replacement (parts_of ddef) raw) as [rep | e] eqn:Hrep.
    + destruct (IH offset (S i) dyn (acc ++ [rep]) w)
        as (p & w' & evs & Hr & Hc & Hd); [lia |].
      exists p, w', evs. split; [| split; [exact Hc |]].
      * change evs with ([] ++ ([] ++ evs)).
        eapply runs_bind; [apply runs_dyn_arg, Hraw |].
        eapply runs_bind; [| exact Hr].
        apply runs_catch_ok. rewrite Hrep. apply runs_lift.
      * intros [| j] d raw' e Hj Hn Hf.
        -- simpl in Hj. injection Hj as <-. rewrite Nat.add_0_r in Hn.
           congruence.
        -- apply (Hd j d raw' e Hj); [| exact Hf].
           now replace (offset + S i + j)%nat with (offset + i + S j)%nat by lia.
    + destruct (runs_emit (EvLogError (ValueSubstitutionError ddef e)) w)
        as [w1 Hw1].
      destruct (IH offset (S i) dyn (acc ++ [PyStr (py_str raw)]) w1)
        as (p & w' & evs & Hr & Hc & Hd); [lia |].
      exists p, w', ([EvLogError (ValueSubstitutionError ddef e)] ++ evs).
      split; [| split].
      * change ([EvLogError (ValueSubstitutionError ddef e)] ++ evs)
          with ([] ++ (([] ++ ([EvLogError (ValueSubstitutionError ddef e)] ++ []))
                       ++ evs)).
        eapply runs_bind; [apply runs_dyn_arg, Hraw |].
        eapply runs_bind; [| exact Hr].
        eapply runs_catch_raise; [rewrite Hrep; apply runs_lift |].
        eapply runs_bind; [exact Hw1 | apply runs_ret].
      * rewrite callbacks_of_app, Hc. reflexivity.
      * rewrite errors_of_app. intros [| j] d raw' e' Hj Hn Hf.
        -- simpl in Hj. injection Hj as <-. rewrite Nat.add_0_r in Hn.
           left. congruence.
        -- apply in_or_app. right. apply (Hd j d raw' e' Hj); [| exact Hf].
           now replace (offset + S i + j)%nat with (offset + i + S j)%nat by lia.
Qed.

(** [_send_osc_action] with a callable callback: one call, with [true]. *)
Lemma send_osc_action_runs id vt address value w :
  exists w' evs,
    runs (_send_osc_action (PyFunc id) vt address value) w (Ok tt) w' evs
    /\ callbacks_of evs = [(id, true)].
Proof.
  destruct (quiet_log (LogSendAction address value) w)
    as ([] & w1 & e1 & Hr1 & Hc1).
  destruct (quiet_send address vt value w1) as ([] & w2 & e2 & Hr2 & Hc2).
  destruct (runs_emit (EvCallback id true) w2) as [w3 Hr3].
  exists w3, (e1 ++ (e2 ++ [EvCallback id true])). split.
  - apply runs_catch_ok.
    eapply runs_bind; [exact Hr1 |].
    eapply runs_bind; [exact Hr2 | exact Hr3].
  - now rewrite !callbacks_of_app, Hc1, Hc2.
Qed.

Lemma nth_error_dyn_args (args : list pyval) (n k : nat) :
  (k < n)%nat ->
  nth_error (firstn n (skipn 1 args)) k = nth_error args (1 + k).
Proof.
  intros Hk. rewrite nth_error_firstn.
  destruct (Nat.ltb_spec k n) as [_ | Hge]; [| lia].
  now rewrite nth_error_skipn.
Qed.

Lemma nth_error_lt {A} (l : list A) (n : nat) (x : A) :
  nth_error l n = Some x -> (n < List.length l)%nat.
Proof. intros H. apply nth_error_Some. congruence. Qed.

(** The arity guard: too few arguments leave one diagnostic and nothing
    else; in particular the completion callback is not called. *)
Lemma action_callback_short (a : action) (args : list pyval) (w : world) :
  (List.length args < expected_total a)%nat ->
  exists w',
    runs (action_callback a args) w (Ok tt) w'
         [EvLogError (NotEnoughArgs (List.length args) (expected_total a))].
Proof.
  intros H. unfold action_callback.
  apply Nat.ltb_lt in H. rewrite H. apply runs_emit.
Qed.

End ActionFacts.

Lemma only_logs_nil : only_logs [].
Proof. intros ev []. Qed.

Lemma only_logs_cons m evs : only_logs evs -> only_logs (EvLog m :: evs).
Proof. intros H ev [<- | Hin]; [now exists m | now apply H]. Qed.

Lemma only_logs_silent evs :
  only_logs evs ->
  opened_of evs = [] /\ closed_of evs = [] /\ sent_of evs = []
  /\ callbacks_of evs = [].
Proof.
  induction evs as [| ev r IH]; intros H; [repeat split |].
  destruct (H ev (or_introl eq_refl)) as [m ->].
  destruct IH as (Ho & Hc & Hs & Hb).
  { intros ev Hin. apply H. now right. }
  repeat split; simpl; assumption.
Qed.

Lemma opened_of_app e1 e2 : opened_of (e1 ++ e2) = opened_of e1 ++ opened_of e2.
Proof. unfold opened_of. apply flat_map_app. Qed.

Lemma closed_of_app e1 e2 : closed_of (e1 ++ e2) = closed_of e1 ++ closed_of e2.
Proof. unfold closed_of. apply flat_map_app. Qed.

Lemma sent_of_app e1 e2 : sent_of (e1 ++ e2) = sent_of e1 ++ sent_of e2.
Proof. unfold sent_of. apply flat_map_app. Qed.

Section LeakFacts.
Context {rt : PyRuntime}.

(** The loop that adds the arguments to the builder only logs, and leaves
    the configuration and the handle counter alone. *)
Lemma for_each_add_arg_log ts full values : forall w,
  exists w' evs,
    runs (for_each values (add_arg_log ts full)) w (Ok tt) w' evs
    /\ only_logs evs
    /\ next_fd w' = next_fd w /\ host w' = host w /\ port w' = port w
    /\ prefix w' = prefix w.
Proof.
  induction values as [| v r IH]; intros w.
  - exists w, []. split; [apply runs_ret |]. split; [apply only_logs_nil | auto].
  - assert (Hv : exists w1 m,
              runs (add_arg_log ts full v) w (Ok tt) w1 [EvLog m]
              /\ next_fd w1 = next_fd w /\ host w1 = host w
              /\ port w1 = port w /\ prefix w1 = prefix w).
    { unfold add_arg_log. destruct ts; [destruct (is_none v) |];
        eexists; eexists; (split; [split; reflexivity | auto]). }
    destruct Hv as (w1 & m & Hr1 & Hf1 & Hh1 & Hp1 & Hx1).
    destruct (IH w1) as (w2 & evs & Hr2 & Hl & Hf2 & Hh2 & Hp2 & Hx2).
    exists w2, ([EvLog m] ++ evs). split; [| split].
    + simpl for_each. eapply runs_bind; eassumption.
    + now apply only_logs_cons.
    + repeat split; congruence.
Qed.

(** The defect behind C7, for every runtime: when the values convert, the
    message builds and [sendto] raises, [send] ends normally having opened
    one socket, closed none and sent nothing. *)
Lemma send_leaks_on_sendto_error address val_type raw_val values e w :
  send_values_of (val_type_str val_type) raw_val = Ok values ->
  build_ok (prefix w ++ address)%string
           (added_args (val_type_str val_type) values) = true ->
  sendto_error (host w) (port w) = Some e ->
  exists w' evs,
    runs (send address val_type raw_val) w (Ok tt) w' evs
    /\ opened_of evs = [next_fd w] /\ closed_of evs = []
    /\ sent_of evs = [].
Proof.
  intros Hvals Hbuild Hsend.
  unfold runs, send, catch, bind, lift, get. rewrite Hvals.
  unfold emit at 1 2 3. cbv beta iota.
  match goal with
  | |- context [for_each values ?body ?w0] =>
      destruct (for_each_add_arg_log (val_type_str val_type)
                  (prefix w ++ address)%string values w0)
        as (w4 & evs & [Hrun Htr] & Hlogs & Hfd & Hh & Hp & Hx)
  end.
  rewrite Hrun, Hbuild. unfold ret, socket, sendto. rewrite Hsend.
  unfold raise, emit. simpl.
  simpl in Hfd, Htr.
  eexists.
  exists ([EvLog (LogTarget (host w) (port w)); EvLog (LogPrefix (prefix w));
           EvLog (LogAddress address)]
          ++ evs
          ++ [EvSocket (next_fd w); EvLog (LogSendFailed e)]).
  split; [split; [reflexivity |] |].
  - simpl trace. rewrite Htr, Hfd. rewrite <- !app_assoc. reflexivity.
  - destruct (only_logs_silent evs Hlogs) as (Ho & Hc & Hs & _).
    rewrite !opened_of_app, !closed_of_app, !sent_of_app, Ho, Hc, Hs.
    repeat split.
Qed.

End LeakFacts.

(* ================================================================== *)
(** ** The claims about the action runtime *)

(** C1.  The arity guard of a templated action logs a diagnostic and returns
    without calling the completion callback: "Set Cue Index" needs one
    descriptor, and invoked with the callback alone it ends normally with the
    diagnostic "not enough args: got 1, expected 2", sends nothing and calls
    neither [callback(False)] nor [callback(True)]. *)
Theorem arity_guard_skips_callback :
  let run := action_callback Demo.cue_index [PyFunc 7] Demo.world0 in
  expected_total Demo.cue_index = 2%nat
  /\ fst run = Ok tt
  /\ errors_of (trace (snd run)) = [NotEnoughArgs 1 2]
  /\ sent_of (trace (snd run)) = []
  /\ opened_of (trace (snd run)) = []
  /\ callbacks_of (trace (snd run)) = [].
Proof. vm_compute. repeat split; reflexivity. Qed.

(** C2 as stated fails: an enumeration index out of range is a coercion
    failure, it is logged, and the completion callback is still called with
    [true] and never with [false]. *)
Lemma coercion_failure_reports_true :
  let args := [PyFunc 7; PyInt 5; PyStr "10"] in
  let run := action_callback Demo.scene_level args Demo.world0 in
  path_replacement (parts_of "A, Scene, 0, Intro;Main") (PyInt 5) = Raise IndexError
  /\ errors_of (trace (snd run))
     = [PathSubstitutionError "A, Scene, 0, Intro;Main" IndexError]
  /\ callbacks_of (trace (snd run)) = [(7%nat, true)].
Proof. vm_compute. repeat split; reflexivity. Qed.

(** What an invocation with enough arguments and a callable callback does:
    it ends normally, the callback is called once, with [true], and every
    placeholder whose coercion fails leaves its diagnostic. *)
Lemma action_callback_runs {rt : PyRuntime}
  (vt : valtype) (path : string) (values : list string)
  (args : list pyval) (id : nat) (w : world) :
  (expected_total (oscAction vt path values) <= List.length args)%nat ->
  nth_error args 0 = Some (PyFunc id) ->
  exists w' evs,
    runs (action_callback (oscAction vt path values) args) w (Ok tt) w' evs
    /\ callbacks_of evs = [(id, true)]
    /\ (forall j ddef raw e,
          nth_error (path_defs (oscAction vt path values)) j = Some ddef ->
          nth_error args (1 + j) = Some raw ->
          path_replacement (parts_of ddef) raw = Raise e ->
          In (PathSubstitutionError ddef e) (errors_of evs))
    /\ (value_phase (oscAction vt path values) = true ->
        forall j ddef raw e,
          nth_error (value_defs (oscAction vt path values)) j = Some ddef ->
          nth_error args
            (1 + List.length (path_defs (oscAction vt path values)) + j)
          = Some raw ->
          value_replacement (parts_of ddef) raw = Raise e ->
          In (ValueSubstitutionError ddef e) (errors_of evs)).
Proof.
  set (a := oscAction vt path values).
  intros Hlen Hcb.
  assert (Het : expected_total a
                = (1 + List.length (path_defs a) + List.length (value_defs a))%nat)
    by reflexivity.
  set (dyn := firstn (expected_total a - 1) (skipn 1 args)).
  assert (Hdyn : List.length dyn
                 = (List.length (path_defs a) + List.length (value_defs a))%nat).
  { unfold dyn. rewrite length_firstn, length_skipn. lia. }
  destruct (substitute_path_runs (path_defs a) 0 dyn (act_path a) w)
    as (p & w1 & e1 & Hr1 & Hc1 & Hd1); [lia |].
  destruct (quiet_log (LogFinalPath p) w1) as ([] & w2 & e2 & Hr2 & Hc2).
  assert (Hvals : exists vs w3 e3,
    runs (if value_phase a
          then (vs <- substitute_values (value_defs a)
                        (List.length (path_defs a)) 0 dyn [] ;;
                emit (EvLog (LogFinalValues vs)) ;; ret vs)%M
          else ret []) w2 (Ok vs) w3 e3
    /\ callbacks_of e3 = []
    /\ (value_phase a = true ->
        forall j ddef raw e,
          nth_error (value_defs a) j = Some ddef ->
          nth_error dyn (List.length (path_defs a) + 0 + j) = Some raw ->
          value_replacement (parts_of ddef) raw = Raise e ->
          In (ValueSubstitutionError ddef e) (errors_of e3))).
  { destruct (value_phase a).
    - destruct (substitute_values_runs (value_defs a)
                  (List.length (path_defs a)) 0 dyn [] w2)
        as (vs & w3 & e3 & Hr3 & Hc3 & Hd3); [lia |].
      destruct (quiet_log (LogFinalValues vs) w3) as ([] & w4 & e4 & Hr4 & Hc4).
      exists vs, w4, (e3 ++ (e4 ++ [])). split; [| split].
      + eapply runs_bind; [exact Hr3 |].
        eapply runs_bind; [exact Hr4 | apply runs_ret].
      + now rewrite !callbacks_of_app, Hc3, Hc4.
      + intros _ j ddef raw e Hj Hn Hf. rewrite errors_of_app.
        apply in_or_app. left. exact (Hd3 j ddef raw e Hj Hn Hf).
    - exists [], w2, []. split; [apply runs_ret |].
      split; [reflexivity | discriminate]. }
  destruct Hvals as (vs & w3 & e3 & Hr3 & Hc3 & Hd3).
  destruct (send_osc_action_runs id (act_val_type a) p (PyList vs) w3)
    as (w4 & e4 & Hr4 & Hc4).
  exists w4, ([] ++ (e1 ++ (e2 ++ (e3 ++ e4)))). split; [| split; [| split]].
  - unfold action_callback.
    destruct (Nat.ltb_spec (List.length args) (expected_total a)) as [Hlt | _];
      [lia |].
    eapply runs_bind; [rewrite Hcb; apply runs_lift |].
    eapply runs_bind; [exact Hr1 |].
    eapply runs_bind; [exact Hr2 |].
    eapply runs_bind; [exact Hr3 | exact Hr4].
  - simpl. now rewrite !callbacks_of_app, Hc1, Hc2, Hc3, Hc4.
  - intros j ddef raw e Hj Hn Hf. simpl app. rewrite errors_of_app.
    apply in_or_app. left. apply (Hd1 j ddef raw e Hj); [| exact Hf].
    simpl. unfold dyn. rewrite nth_error_dyn_args; [exact Hn |].
    apply nth_error_lt in Hj. lia.
  - intros Hv j ddef raw e Hj Hn Hf. simpl app. rewrite !errors_of_app.
    apply in_or_app. right. apply in_or_app. right. apply in_or_app. left.
    apply (Hd3 Hv j ddef raw e Hj); [| exact Hf].
    unfold dyn. rewrite nth_error_dyn_args.
    + rewrite <- Hn. f_equal. lia.
    + apply nth_error_lt in Hj. lia.
Qed.

(** C2, amended.  For every templated action invoked with sufficient arity
    and a callable completion callback, the invocation ends without raising;
    every path or value placeholder whose coercion fails (an enumeration
    index out of range, for one) leaves its diagnostic and does not fail the
    invocation; and when the message is handed to the network the completion
    callback is called exactly once, with [true], whether or not a coercion
    failed. *)
Theorem action_callback_reports_true {rt : PyRuntime}
  (vt : valtype) (path : string) (values : list string)
  (args : list pyval) (id : nat) (w : world) :
  (expected_total (oscAction vt path values) <= List.length args)%nat ->
  nth_error args 0 = Some (PyFunc id) ->
  exists w' evs,
    runs (action_callback (oscAction vt path values) args) w (Ok tt) w' evs
    /\ (forall j ddef raw e,
          nth_error (path_defs (oscAction vt path values)) j = Some ddef ->
          nth_error args (1 + j) = Some raw ->
          path_replacement (parts_of ddef) raw = Raise e ->
          In (PathSubstitutionError ddef e) (errors_of evs))
    /\ (value_phase (oscAction vt path values) = true ->
        forall j ddef raw e,
          nth_error (value_defs (oscAction vt path values)) j = Some ddef ->
          nth_error args
            (1 + List.length (path_defs (oscAction vt path values)) + j)
          = Some raw ->
          value_replacement (parts_of ddef) raw = Raise e ->
          In (ValueSubstitutionError ddef e) (errors_of evs))
    /\ (sent_of evs <> [] -> callbacks_of evs = [(id, true)]).
Proof.
  intros Hlen Hcb.
  destruct (action_callback_runs vt path values args id w Hlen Hcb)
    as (w' & evs & Hr & Hc & Hp & Hv).
  exists w', evs. repeat split; try assumption; try apply Hr.
  intros _. exact Hc.
Qed.

(** The amended C2 at the run of the counterexample: three arguments for two
    descriptors, the callback first, an enumeration index out of range, and
    a message that is sent. *)
Lemma action_callback_reports_true_witness :
  (expected_total Demo.scene_level
   <= List.length [PyFunc 7; PyInt 5; PyStr "10"])%nat
  /\ nth_error [PyFunc 7; PyInt 5; PyStr "10"] 0 = Some (PyFunc 7)
  /\ sent_of (trace (snd (action_callback Demo.scene_level
                            [PyFunc 7; PyInt 5; PyStr "10"] Demo.world0)))
     <> []
  /\ callbacks_of (trace (snd (action_callback Demo.scene_level
                                 [PyFunc 7; PyInt 5; PyStr "10"] Demo.world0)))
     = [(7%nat, true)].
Proof.
  assert (Hlen : (expected_total Demo.scene_level
                  <= List.length [PyFunc 7; PyInt 5; PyStr "10"])%nat)
    by (vm_compute; lia).
  assert (Hsent : sent_of (trace (snd (action_callback Demo.scene_level
                     [PyFunc 7; PyInt 5; PyStr "10"] Demo.world0))) <> [])
    by (vm_compute; discriminate).
  split; [exact Hlen |]. split; [reflexivity |]. split; [exact Hsent |].
  destruct (action_callback_reports_true (VtEnum OSCTypes.Float)
              "/Scene/{A, Scene, 0, Intro;Main}/Level"
              ["{F, Level, 0, 0, 100, %, *2}"]
              [PyFunc 7; PyInt 5; PyStr "10"] 7 Demo.world0 Hlen eq_refl)
    as (w' & evs & [Hrun Htr] & _ & _ & Hcb).
  change (oscAction (VtEnum OSCTypes.Float)
            "/Scene/{A, Scene, 0, Intro;Main}/Level"
            ["{F, Level, 0, 0, 100, %, *2}"]) with Demo.scene_level in Hrun.
  rewrite Hrun in Hsent |- *. simpl snd in Hsent |- *.
  rewrite Htr in Hsent |- *. exact (Hcb Hsent).
Defined.

(* ================================================================== *)
(** ** The claims about coercion *)

(** The modifier is the seventh field, [parts[6]], when there is one. *)
Lemma apply_modifier_at {rt : PyRuntime} (o : modifier_op) (ktext : string)
  (v k : float) (parts : list string) :
  nth_error parts 6 = Some (String (op_sign o) ktext) ->
  float_of_str ktext = Some k ->
  (o = Over -> PrimFloat.eqb k 0 = false) ->
  apply_modifier v parts = Ok (op_apply o v k).
Proof.
  intros Hn Hk Hz. unfold apply_modifier. rewrite Hn.
  assert (Hp : String.prefix "" ktext = true) by now destruct ktext.
  destruct o; unfold PyStr.startswith; simpl; rewrite Hk, Hp; simpl;
    try reflexivity.
  now rewrite Hz.
Qed.

(** A descriptor with fewer than seven fields has no modifier. *)
Lemma apply_modifier_absent {rt : PyRuntime} (v : float)
  (parts : list string) :
  nth_error parts 6 = None -> apply_modifier v parts = Ok v.
Proof. intros Hn. unfold apply_modifier. now rewrite Hn. Qed.

Lemma starts_with_other (a c : ascii) (s : string) :
  a <> c -> String.prefix (String a "") (String c s) = false.
Proof.
  intros H. simpl. destruct (ascii_dec a c); [contradiction | reflexivity].
Qed.

(** A seventh field that does not start with an operator changes nothing. *)
Lemma apply_modifier_plain {rt : PyRuntime} (v : float)
  (parts : list string) (m : string) :
  nth_error parts 6 = Some m ->
  (forall o ktext, m <> String (op_sign o) ktext) ->
  apply_modifier v parts = Ok v.
Proof.
  intros Hn Hno. unfold apply_modifier. rewrite Hn.
  destruct m as [| c s]; [reflexivity |].
  assert (Hc : forall o, c <> op_sign o)
    by (intros o ->; now apply (Hno o s)).
  unfold PyStr.startswith.
  change (PyStr.nonempty (String c s)) with true. cbv iota.
  rewrite (starts_with_other "*" c s)
    by (intros E; exact (Hc Times (eq_sym E))).
  rewrite (starts_with_other "/" c s)
    by (intros E; exact (Hc Over (eq_sym E))).
  rewrite (starts_with_other "+" c s)
    by (intros E; exact (Hc Plus (eq_sym E))).
  rewrite (starts_with_other "-" c s)
    by (intros E; exact (Hc Minus (eq_sym E))).
  reflexivity.
Qed.

(** C3 as stated fails: the modifier is not the trailing field but the
    seventh.  In [{I,x,0,0,100,*2}] the trailing field [*2] is the sixth,
    and it is not applied: "10" resolves to 10, not to 20, in the value
    list and in the path, for Int and for Float. *)
Lemma trailing_modifier_in_sixth_field_is_ignored :
  parts_of "I,x,0,0,100,*2" = ["I"; "x"; "0"; "0"; "100"; "*2"]
  /\ @value_replacement decimal_runtime (parts_of "I,x,0,0,100,*2")
       (PyStr "10")
     = Ok (PyInt 10)
  /\ @path_replacement decimal_runtime (parts_of "I,x,0,0,100,*2")
       (PyStr "10")
     = Ok "10"
  /\ @value_replacement decimal_runtime (parts_of "F, Level, 50, 0, 100, *2")
       (PyStr "10")
     = Ok (PyFloat 10).
Proof. repeat split; vm_compute; reflexivity. Qed.

(** C3, amended.  A numeric placeholder (kind I or F), whatever the number
    of its fields, first parses the raw value as a number, then applies the
    modifier read from its seventh field, [parts[6]], and only then
    truncates (Int) or keeps the value (Float), in the value list as a
    number and in the path as its text.  The modifier is the seventh field
    and no other: a descriptor with fewer than seven fields has none, even
    when its last field reads like one, fields after the seventh are not
    looked at, and a seventh field that does not start with one of the four
    operators leaves the parsed number as it is.  With the decimal runtime,
    "10" under [{F,x,0,0,100,%,*2}] is the float 20.0 and under
    [{I,x,0,0,100,,*2}] the integer 20; "7" under [/2] is 3.5 as Float and 3
    as Int, and "-7" is -3 as Int; "42" under the plugin's
    [{I, Index, 0, 0, 999}] is 42. *)
Theorem numeric_coercion_parses_then_modifies {rt : PyRuntime}
  (kind : string) (rest : list string) (raw : pyval) (v : float) :
  kind = "I" \/ kind = "F" ->
  py_float raw = Ok v ->
  (forall (o : modifier_op) (ktext : string) (k : float),
     nth_error (kind :: rest) 6 = Some (String (op_sign o) ktext) ->
     float_of_str ktext = Some k ->
     (o = Over -> PrimFloat.eqb k 0 = false) ->
     value_replacement (kind :: rest) raw
     = numeric_result kind (op_apply o v k)
     /\ path_replacement (kind :: rest) raw
        = numeric_text kind (op_apply o v k))
  /\ (nth_error (kind :: rest) 6 = None ->
      value_replacement (kind :: rest) raw = numeric_result kind v
      /\ path_replacement (kind :: rest) raw = numeric_text kind v)
  /\ (forall m : string,
        nth_error (kind :: rest) 6 = Some m ->
        (forall o ktext, m <> String (op_sign o) ktext) ->
        value_replacement (kind :: rest) raw = numeric_result kind v
        /\ path_replacement (kind :: rest) raw = numeric_text kind v)
  /\ @value_replacement decimal_runtime (parts_of "F,x,0,0,100,%,*2") (PyStr "10")
     = Ok (PyFloat 20)
  /\ @value_replacement decimal_runtime (parts_of "I,x,0,0,100,,*2") (PyStr "10")
     = Ok (PyInt 20)
  /\ @value_replacement decimal_runtime (parts_of "F,x,0,0,100,%,/2") (PyStr "7")
     = Ok (PyFloat 3.5)
  /\ @value_replacement decimal_runtime (parts_of "I,x,0,0,100,%,/2") (PyStr "7")
     = Ok (PyInt 3)
  /\ @value_replacement decimal_runtime (parts_of "I,x,0,0,100,%,/2") (PyStr "-7")
     = Ok (PyInt (-3))
  /\ @value_replacement decimal_runtime (parts_of "F,x,0,0,100,%,*2,+1")
       (PyStr "10")
     = Ok (PyFloat 20)
  /\ @value_replacement decimal_runtime (parts_of "I, Index, 0, 0, 999")
       (PyStr "42")
     = Ok (PyInt 42).
Proof.
  intros Hkind Hv.
  assert (Hnum : is_numeric_kind kind = true)
    by (destruct Hkind; subst; reflexivity).
  assert (Hval : forall x, apply_modifier v (kind :: rest) = Ok x ->
            value_replacement (kind :: rest) raw = numeric_result kind x
            /\ path_replacement (kind :: rest) raw = numeric_text kind x).
  { intros x Hx. unfold value_replacement, path_replacement, numeric_value.
    simpl param_type_of. rewrite Hnum, Hv. simpl rbind. rewrite Hx.
    split; reflexivity. }
  split; [| split; [| split]].
  - intros o ktext k Hn Hk Hz. apply Hval.
    now apply (apply_modifier_at o ktext v k).
  - intros Hn. apply Hval. now apply apply_modifier_absent.
  - intros m Hn Hno. apply Hval. now apply (apply_modifier_plain v _ m).
  - repeat split; vm_compute; reflexivity.
Qed.

(** C3 at [{F,x,0,0,100,%,*2}] and the raw text "10". *)
Lemma numeric_coercion_witness :
  nth_error ["F"; "x"; "0"; "0"; "100"; "%"; "*2"] 6
  = Some (String (op_sign Times) "2")
  /\ @value_replacement decimal_runtime
       ["F"; "x"; "0"; "0"; "100"; "%"; "*2"] (PyStr "10")
     = numeric_result "F" (op_apply Times 10 2).
Proof.
  split; [reflexivity |].
  assert (Hv : @py_float decimal_runtime (PyStr "10") = Ok 10%float)
    by (vm_compute; reflexivity).
  assert (Hk : @float_of_str decimal_runtime "2" = Some 2%float)
    by (vm_compute; reflexivity).
  destruct (@numeric_coercion_parses_then_modifies decimal_runtime
              "F" ["x"; "0"; "0"; "100"; "%"; "*2"] (PyStr "10") 10
              (or_intror eq_refl) Hv) as [Hmod _].
  destruct (Hmod Times "2"%string 2%float eq_refl Hk) as [Hvalue _].
  - discriminate.
  - exact Hvalue.
Defined.

(** C4 as stated fails: the empty text is coerced to false although its
    lower-cased form is none of "false", "0", "no". *)
Lemma bool_of_empty_text_is_false :
  bool_value (PyStr "") = false
  /\ PyStr.mem (PyStr.lower (py_str (PyStr ""))) ["false"; "0"; "no"] = false.
Proof. split; reflexivity. Qed.

(** C4, amended.  A Bool placeholder coerces to false exactly when the raw
    value is falsy (empty text, zero, [None], [False], an empty list) or its
    lower-cased text is one of "false", "0", "no".  The result is the text
    "True" or "False", in the path and in the value list, and under the type
    tag B the sender turns that text into the boolean it names.  In
    particular "0" and "false" give false and "1" gives true. *)
Theorem bool_coercion {rt : PyRuntime} (raw : pyval) (rest : list string) :
  (bool_value raw = false <->
   py_truthy raw = false
   \/ PyStr.mem (PyStr.lower (py_str raw)) ["false"; "0"; "no"] = true)
  /\ path_replacement ("B" :: rest) raw = Ok (bool_text (bool_value raw))
  /\ value_replacement ("B" :: rest) raw = Ok (PyStr (bool_text (bool_value raw)))
  /\ send_values_of (val_type_str (VtEnum OSCTypes.Bool))
       (PyList [PyStr (bool_text (bool_value raw))])
     = Ok [PyBool (bool_value raw)]
  /\ bool_value (PyStr "0") = false
  /\ bool_value (PyStr "false") = false
  /\ bool_value (PyStr "1") = true.
Proof.
  split; [| split; [| split; [| split]]].
  - unfold bool_value.
    destruct (py_truthy raw);
      destruct (PyStr.mem (PyStr.lower (py_str raw)) ["false"; "0"; "no"]);
      simpl; intuition congruence.
  - unfold path_replacement. simpl. now destruct (bool_value raw).
  - unfold value_replacement. simpl. now destruct (bool_value raw).
  - now destruct (bool_value raw).
  - repeat split; reflexivity.
Qed.

(** C6.  The Mixed branch of [send] keeps an integer, a float and a string
    as they are and sends a list or [None] as text, but a boolean is caught
    by the [int] arm, which comes first, and is sent as the integer 1 or 0:
    the [bool] arm is never reached. *)
Theorem mixed_sends_bool_as_int {rt : PyRuntime} :
  (forall z, convert_mixed (PyInt z) = Ok (PyInt z))
  /\ (forall f, convert_mixed (PyFloat f) = Ok (PyFloat f))
  /\ (forall s, convert_mixed (PyStr s) = Ok (PyStr s))
  /\ (forall l, convert_mixed (PyList l) = Ok (PyStr (py_str (PyList l))))
  /\ convert_mixed PyNone = Ok (PyStr "None")
  /\ (forall b, convert_mixed (PyBool b) = Ok (PyInt (Z_of_bool b)))
  /\ send_values_of (val_type_str (VtEnum OSCTypes.Mixed))
       (PyList [PyBool true; PyBool false])
     = Ok [PyInt 1; PyInt 0]
  /\ sent_of (trace (snd (@send decimal_runtime "/x" (VtEnum OSCTypes.Mixed)
                            (PyList [PyBool true; PyFloat 1.5; PyStr "on"])
                            Demo.world0)))
     = [{| msg_address := "/studio/x";
           msg_args := [PyInt 1; PyFloat 1.5; PyStr "on"] |}].
Proof. repeat split; vm_compute; reflexivity. Qed.

(** C7.  When [sendto] raises, [send] has opened its socket and does not
    close it: with a port outside 0..65535 the run ends normally (the
    exception is caught and logged), nothing is sent, handle 0 is opened and
    never closed.  With a valid port the same call opens and closes it. *)
Theorem send_leaks_socket_when_sendto_fails :
  let failing := send "/Cues/Index" (VtEnum OSCTypes.Int) (PyList [PyInt 42])
                   Demo.bad_port in
  let passing := send "/Cues/Index" (VtEnum OSCTypes.Int) (PyList [PyInt 42])
                   Demo.world0 in
  fst failing = Ok tt
  /\ sent_of (trace (snd failing)) = []
  /\ opened_of (trace (snd failing)) = [0%nat]
  /\ closed_of (trace (snd failing)) = []
  /\ leaked_of (trace (snd failing)) = [0%nat]
  /\ opened_of (trace (snd passing)) = [0%nat]
  /\ closed_of (trace (snd passing)) = [0%nat]
  /\ leaked_of (trace (snd passing)) = [].
Proof. vm_compute. repeat split; reflexivity. Qed.




(* ================================================================== *)
(** ** Binary64 facts for the colour channels *)

Lemma digits2_pos_bounds (m : positive) :
  2 ^ (Zpos (digits2_pos m) - 1) <= Zpos m < 2 ^ Zpos (digits2_pos m).
Proof.
  induction m as [p IH | p IH |]; simpl digits2_pos.
  - rewrite Pos2Z.inj_succ, (Pos2Z.inj_xI p).
    replace (Z.succ (Zpos (digits2_pos p)) - 1)
      with (Z.succ (Zpos (digits2_pos p) - 1)) by lia.
    rewrite !Z.pow_succ_r by lia. lia.
  - rewrite Pos2Z.inj_succ, (Pos2Z.inj_xO p).
    replace (Z.succ (Zpos (digits2_pos p)) - 1)
      with (Z.succ (Zpos (digits2_pos p) - 1)) by lia.
    rewrite !Z.pow_succ_r by lia. lia.
  - simpl. lia.
Qed.

(** The mantissa of a binary64 value has at most 53 bits, and exactly 53
    above the smallest exponent. *)
Lemma mantissa_bounds (x : float) (s : bool) (m : positive) (e : Z) :
  Prim2SF x = S754_finite s m e ->
  Zpos m < 2 ^ 53 /\ (-1074 < e -> 2 ^ 52 <= Zpos m).
Proof.
  intros Hx. pose proof (Prim2SF_valid x) as Hv. rewrite Hx in Hv.
  unfold valid_binary, bounded, canonical_mantissa, fexp, SpecFloat.emin in Hv.
  apply andb_prop in Hv. destruct Hv as [Hc _]. apply Z.eqb_eq in Hc.
  change prec with 53 in Hc. change emax with 1024 in Hc.
  pose proof (digits2_pos_bounds m) as [Hlo Hhi].
  set (d := Zpos (digits2_pos m)) in *.
  assert (Hd : 0 < d) by (unfold d; lia).
  split.
  - assert (d <= 53) by lia.
    apply Z.lt_le_trans with (2 ^ d); [exact Hhi |].
    apply Z.pow_le_mono_r; lia.
  - intros He. assert (d = 53) by lia. subst d.
    replace 52 with (Zpos (digits2_pos m) - 1) by lia. exact Hlo.
Qed.

Lemma Prim2SF_255 : Prim2SF 255 = S754_finite false 8972014882652160 (-45).
Proof. reflexivity. Qed.

Lemma Prim2SF_0 : Prim2SF 0 = S754_zero false.
Proof. reflexivity. Qed.

(** Comparison of two positive finite values: by exponent, then mantissa. *)
Lemma SFltb_finite (m1 m2 : positive) (e1 e2 : Z) :
  SFltb (S754_finite false m1 e1) (S754_finite false m2 e2)
  = if e1 <? e2 then true
    else if e1 =? e2 then (Zpos m1 <? Zpos m2) else false.
Proof.
  unfold SFltb, SFcompare.
  change (Pos.compare_cont Eq m1 m2) with (Pos.compare m1 m2).
  destruct (Z.compare_spec e1 e2) as [He | He | He].
  - subst e2. rewrite Z.ltb_irrefl, Z.eqb_refl.
    rewrite Pos2Z.inj_compare. unfold Z.ltb.
    now destruct (Zpos m1 ?= Zpos m2).
  - apply Z.ltb_lt in He. now rewrite He.
  - destruct (Z.ltb_spec e1 e2); [lia |].
    destruct (Z.eqb_spec e1 e2); [lia | reflexivity].
Qed.

Lemma finite_lt_255 (m : positive) (e : Z) :
  SFltb (S754_finite false m e) (Prim2SF 255)
  = if e <? -45 then true
    else if e =? -45 then (Zpos m <? 255 * 2 ^ 45) else false.
Proof. rewrite Prim2SF_255. apply SFltb_finite. Qed.

(** A float strictly between 0 and 255 truncates into 0..254. *)
Lemma trunc_inside (x : float) :
  (0 <? x)%float = true -> (x <? 255)%float = true ->
  exists z, float_trunc x = Ok z /\ 0 <= z <= 254.
Proof.
  rewrite !ltb_spec, Prim2SF_0. unfold float_trunc.
  destruct (Prim2SF x) as [s | s | | s m e] eqn:Hx;
    try (intros H; discriminate H);
    try (destruct s; intros H1 H2; (discriminate H1 || discriminate H2)).
  destruct s; [intros H; discriminate H |]. intros _ Hlt.
  rewrite finite_lt_255 in Hlt.
  destruct (mantissa_bounds x false m e Hx) as [Hm _].
  exists (Z.shiftl (Zpos m) e). split; [reflexivity |].
  destruct (Z.ltb_spec e (-45)) as [He | He].
  - rewrite Z.shiftl_div_pow2 by lia.
    assert (Hp : 2 ^ 46 <= 2 ^ (- e)) by (apply Z.pow_le_mono_r; lia).
    split; [apply Z.div_pos; lia |].
    apply Z.lt_succ_r. apply Z.div_lt_upper_bound; [lia |].
    replace (2 ^ 53) with (2 ^ 46 * 128) in Hm by reflexivity.
    apply Z.lt_le_trans with (2 ^ 46 * 128); [exact Hm |].
    replace (Z.succ 254) with 255 by reflexivity.
    apply Z.le_trans with (2 ^ (- e) * 128);
      [apply Z.mul_le_mono_nonneg_r; lia | apply Z.mul_le_mono_nonneg_l; lia].
  - destruct (Z.eqb_spec e (-45)) as [-> | _]; [| discriminate].
    apply Z.ltb_lt in Hlt.
    rewrite Z.shiftl_div_pow2 by lia.
    replace (- -45) with 45 by reflexivity.
    split; [apply Z.div_pos; lia |].
    apply Z.lt_succ_r. apply Z.div_lt_upper_bound; [lia |].
    replace (Z.succ 254) with 255 by reflexivity.
    now rewrite Z.mul_comm.
Qed.

(** A float that is not below 255 truncates to at least 255. *)
Lemma trunc_above (x : float) (t : Z) :
  (x <? 255)%float = false -> float_trunc x = Ok t -> 255 <= t.
Proof.
  rewrite ltb_spec. unfold float_trunc.
  destruct (Prim2SF x) as [s | s | | s m e] eqn:Hx;
    try (intros H; discriminate H); try (intros _ H; discriminate H).
  destruct s; [intros H; discriminate H |]. intros Hlt Ht.
  injection Ht as <-. rewrite finite_lt_255 in Hlt.
  destruct (mantissa_bounds x false m e Hx) as [_ Hm].
  destruct (Z.ltb_spec e (-45)) as [He | He]; [discriminate |].
  destruct (Z.eqb_spec e (-45)) as [-> | Hne].
  - apply Z.ltb_ge in Hlt.
    rewrite Z.shiftl_div_pow2 by lia.
    replace (- -45) with 45 by reflexivity.
    apply Z.div_le_lower_bound; [lia |]. now rewrite Z.mul_comm.
  - assert (H52 : 2 ^ 52 <= Zpos m) by (apply Hm; lia).
    destruct (Z.le_gt_cases 0 e) as [Hpos | Hneg].
    + rewrite Z.shiftl_mul_pow2 by lia.
      assert (0 < 2 ^ e) by (apply Z.pow_pos_nonneg; lia).
      apply Z.le_trans with (Zpos m * 1).
      * rewrite Z.mul_1_r.
        apply Z.le_trans with (2 ^ 52); [| exact H52].
        apply Z.lt_le_incl. reflexivity.
      * apply Z.mul_le_mono_nonneg_l; lia.
    + rewrite Z.shiftl_div_pow2 by lia.
      assert (Hp : 2 ^ (- e) <= 2 ^ 44) by (apply Z.pow_le_mono_r; lia).
      assert (0 < 2 ^ (- e)) by (apply Z.pow_pos_nonneg; lia).
      apply Z.div_le_lower_bound; [lia |].
      apply Z.le_trans with (2 ^ 44 * 255);
        [apply Z.mul_le_mono_nonneg_r; lia |].
      apply Z.le_trans with (2 ^ 52); [| exact H52].
      apply Z.lt_le_incl. reflexivity.
Qed.

(** A float that is not above 0 truncates to at most 0. *)
Lemma trunc_below (x : float) (t : Z) :
  (0 <? x)%float = false -> float_trunc x = Ok t -> t <= 0.
Proof.
  rewrite ltb_spec, Prim2SF_0. unfold float_trunc.
  destruct (Prim2SF x) as [s | s | | s m e] eqn:Hx;
    try (intros _ H; discriminate H).
  - intros _ Ht. injection Ht as <-. lia.
  - destruct s; [| intros H; discriminate H]. intros _ Ht. injection Ht as <-.
    assert (0 <= Z.shiftl (Zpos m) e) by (apply Z.shiftl_nonneg; lia). lia.
Qed.

(** ** Packing *)

Lemma testbit_small (lo n i : Z) :
  0 <= lo < 2 ^ n -> n <= i -> Z.testbit lo i = false.
Proof.
  intros [Hlo Hhi] Hi.
  destruct (Z.eq_dec lo 0) as [-> | Hne]; [apply Z.bits_0 |].
  apply Z.bits_above_log2; [exact Hlo |].
  apply Z.lt_le_trans with n; [| exact Hi].
  apply Z.log2_lt_pow2; lia.
Qed.

(** Or-ing a multiple of [2^n] with a value below [2^n] adds them. *)
Lemma lor_mul_pow2_add (k lo n : Z) :
  0 <= n -> 0 <= lo < 2 ^ n -> Z.lor (k * 2 ^ n) lo = k * 2 ^ n + lo.
Proof.
  intros Hn Hlo.
  rewrite <- (Z.add_lor_land (k * 2 ^ n) lo).
  assert (Hland : Z.land (k * 2 ^ n) lo = 0).
  { apply Z.bits_inj'. intros i Hi. rewrite Z.land_spec, Z.bits_0.
    destruct (Z.lt_ge_cases i n) as [Hlt | Hge].
    - rewrite Z.mul_pow2_bits_low by lia. reflexivity.
    - rewrite (testbit_small lo n i Hlo Hge). apply andb_false_r. }
  rewrite Hland. lia.
Qed.

Lemma pack_rgba_sum (r g b a : Z) :
  0 <= r <= 255 -> 0 <= g <= 255 -> 0 <= b <= 255 -> 0 <= a <= 255 ->
  pack_rgba r g b a = r * 2 ^ 24 + g * 2 ^ 16 + b * 2 ^ 8 + a.
Proof.
  intros Hr Hg Hb Ha. unfold pack_rgba.
  rewrite !Z.shiftl_mul_pow2 by lia.
  rewrite (lor_mul_pow2_add r (g * 2 ^ 16) 24) by lia.
  replace (r * 2 ^ 24 + g * 2 ^ 16) with ((r * 2 ^ 8 + g) * 2 ^ 16) by lia.
  rewrite (lor_mul_pow2_add (r * 2 ^ 8 + g) (b * 2 ^ 8) 16) by lia.
  replace ((r * 2 ^ 8 + g) * 2 ^ 16 + b * 2 ^ 8)
    with ((r * 2 ^ 16 + g * 2 ^ 8 + b) * 2 ^ 8) by lia.
  rewrite (lor_mul_pow2_add (r * 2 ^ 16 + g * 2 ^ 8 + b) a 8) by lia.
  lia.
Qed.

(** A float component always yields a byte: the product with 255 clamped
    between 0 and 255 and truncated. *)
Lemma channel_float (x : float) :
  exists c, channel (PyFloat x) = Ok c /\ 0 <= c <= 255 /\ scaled_and_clamped x c.
Proof.
  unfold channel, scaled_and_clamped, clamp_byte. simpl.
  destruct (x * 255 <? 255)%float eqn:Hhi; simpl.
  - destruct (0 <? x * 255)%float eqn:Hlo; simpl.
    + destruct (trunc_inside _ Hlo Hhi) as (z & Hz & Hr).
      exists z. split; [exact Hz |]. split; [lia |].
      intros t Ht. rewrite Hz in Ht. injection Ht as <-. lia.
    + exists 0. split; [reflexivity |]. split; [lia |].
      intros t Ht. pose proof (trunc_below _ t Hlo Ht). lia.
  - exists 255. split; [reflexivity |]. split; [lia |].
    intros t Ht. pose proof (trunc_above _ t Hhi Ht). lia.
Qed.

(** C5.  For any four float components the colour conversion succeeds; each
    channel is the component scaled by 255, truncated and clamped to 0..255,
    and the result is [(R<<24)|(G<<16)|(B<<8)|A], which is the 32-bit number
    [R*2^24 + G*2^16 + B*2^8 + A].  Opaque red, (1.0, 0.0, 0.0, 1.0), packs
    to 0xFF0000FF. *)
Theorem rgb_floats_to_rgba_int_packs (r g b a : float) :
  exists R G B A : Z,
    (channel (PyFloat r) = Ok R /\ channel (PyFloat g) = Ok G
     /\ channel (PyFloat b) = Ok B /\ channel (PyFloat a) = Ok A)
    /\ (0 <= R <= 255 /\ 0 <= G <= 255 /\ 0 <= B <= 255 /\ 0 <= A <= 255)
    /\ (scaled_and_clamped r R /\ scaled_and_clamped g G
        /\ scaled_and_clamped b B /\ scaled_and_clamped a A)
    /\ rgb_floats_to_rgba_int (PyFloat r) (PyFloat g) (PyFloat b) (PyFloat a)
       = Ok (pack_rgba R G B A)
    /\ pack_rgba R G B A = R * 2 ^ 24 + G * 2 ^ 16 + B * 2 ^ 8 + A
    /\ 0 <= pack_rgba R G B A < 2 ^ 32
    /\ rgb_floats_to_rgba_int (PyFloat 1) (PyFloat 0) (PyFloat 0) (PyFloat 1)
       = Ok 0xFF0000FF.
Proof.
  destruct (channel_float r) as (R & HR & HRb & HRs).
  destruct (channel_float g) as (G & HG & HGb & HGs).
  destruct (channel_float b) as (B & HB & HBb & HBs).
  destruct (channel_float a) as (A & HA & HAb & HAs).
  exists R, G, B, A.
  pose proof (pack_rgba_sum R G B A HRb HGb HBb HAb) as Hsum.
  repeat split; try assumption; try lia.
  - unfold rgb_floats_to_rgba_int. now rewrite HR, HG, HB, HA.
Qed.

(* ================================================================== *)
(** ** The claims about the listener lifecycle *)

Section LifecycleFacts.
Import Lifecycle LifecycleDemo.



(** Once the listener is bound, a turn of the main loop changes nothing. *)
Lemma turn_when_bound tid ok s :
  listener_enabled s = true -> bg_exec (MainLoopTurn tid ok) s = s.
Proof.
  intros H. simpl. destruct (nth_error (workers s) tid) as [w |]; [| reflexivity].
  destruct (running w); [| reflexivity].
  unfold main_loop_turn. rewrite H. simpl. now destruct (should_run s).
Qed.


Lemma bg_run_app l1 l2 s : bg_run (l1 ++ l2) s = bg_run l2 (bg_run l1 s).
Proof. unfold bg_run. apply fold_left_app. Qed.



End LifecycleFacts.




(* ================================================================== *)
(** ** The two boolean normalisations *)







(* ================================================================== *)
(** * Further properties *)

(** ** The sender, case by case *)

Lemma log_to_nil (w : world) : log_to w [] = w.
Proof. destruct w. unfold log_to. simpl. now rewrite app_nil_r. Qed.

Lemma log_to_app (w : world) (e1 e2 : list event) :
  log_to (log_to w e1) e2 = log_to w (e1 ++ e2).
Proof. unfold log_to. simpl. now rewrite app_assoc. Qed.

Lemma emit_log_to (ev : event) (w : world) : emit ev w = (Ok tt, log_to w [ev]).
Proof. reflexivity. Qed.

Lemma runs_log_to {A} (m : M A) (w : world) (r : result A) (evs : list event) :
  m w = (r, log_to w evs) -> runs m w r (log_to w evs) evs.
Proof. intros H. split; [exact H | reflexivity]. Qed.

Section SenderCases.
Context {rt : PyRuntime}.

Lemma for_each_add_arg_log_exact ts full values : forall w,
  for_each values (add_arg_log ts full) w
  = (Ok tt, log_to w (map (arg_log_event ts full) values)).
Proof.
  induction values as [| v r IH]; intros w.
  - simpl. now rewrite log_to_nil.
  - simpl for_each. unfold bind.
    assert (Hv : add_arg_log ts full v w = (Ok tt, log_to w [arg_log_event ts full v])).
    { unfold add_arg_log, arg_log_event. destruct ts; [destruct (is_none v) |];
        reflexivity. }
    rewrite Hv, IH, log_to_app. reflexivity.
Qed.

Lemma send_convert_fails address val_type raw_val e w :
  send_values_of (val_type_str val_type) raw_val = Raise e ->
  send address val_type raw_val w = (Ok tt, log_to w [EvLog (LogSendFailed e)]).
Proof.
  intros H. unfold send, catch, bind, lift. rewrite H. reflexivity.
Qed.

Lemma send_body_prefix address val_type raw_val values w :
  send_values_of (val_type_str val_type) raw_val = Ok values ->
  send address val_type raw_val w
  = catch
      (fun w1 =>
         match (if build_ok (prefix w ++ address)%string
                     (added_args (val_type_str val_type) values)
                then ret (message_of w address val_type values)
                else raise BuildError) w1 with
         | (Ok msg, w2) =>
             (sock <- socket ;;
              sendto sock msg (host w) (port w) ;;
              safe_push_output ;;
              emit (EvClose sock) ;;
              emit (EvLog (LogSent (host w) (port w)
                             (prefix w ++ address)%string values)))%M w2
         | (Raise e, w2) => (Raise e, w2)
         end)
      (fun e => emit (EvLog (LogSendFailed e)))
      (log_to w (send_prologue w address val_type values)).
Proof.
  intros H. unfold send, catch, bind, lift, get. rewrite H.
  rewrite !emit_log_to. cbv beta iota.
  rewrite for_each_add_arg_log_exact, !log_to_app.
  reflexivity.
Qed.

Lemma send_build_fails address val_type raw_val values w :
  send_values_of (val_type_str val_type) raw_val = Ok values ->
  build_ok (prefix w ++ address)%string
           (added_args (val_type_str val_type) values) = false ->
  send address val_type raw_val w
  = (Ok tt, log_to w (send_prologue w address val_type values
                      ++ [EvLog (LogSendFailed BuildError)])).
Proof.
  intros Hv Hb. rewrite (send_body_prefix _ _ _ _ _ Hv).
  unfold catch. rewrite Hb. unfold raise. rewrite emit_log_to, log_to_app.
  reflexivity.
Qed.

Lemma send_sendto_fails address val_type raw_val values e w :
  send_values_of (val_type_str val_type) raw_val = Ok values ->
  build_ok (prefix w ++ address)%string
           (added_args (val_type_str val_type) values) = true ->
  sendto_error (host w) (port w) = Some e ->
  send address val_type raw_val w
  = (Ok tt, opened_to w (send_prologue w address val_type values
                         ++ [EvSocket (next_fd w); EvLog (LogSendFailed e)])).
Proof.
  intros Hv Hb Hs. rewrite (send_body_prefix _ _ _ _ _ Hv).
  unfold catch. rewrite Hb. unfold ret, bind, socket, sendto. rewrite Hs.
  unfold raise, emit, opened_to, log_to. simpl.
  rewrite <- !app_assoc. reflexivity.
Qed.

Lemma send_goes_through address val_type raw_val values w :
  send_values_of (val_type_str val_type) raw_val = Ok values ->
  build_ok (prefix w ++ address)%string
           (added_args (val_type_str val_type) values) = true ->
  sendto_error (host w) (port w) = None ->
  send address val_type raw_val w
  = (Ok tt, opened_to w (send_prologue w address val_type values
                         ++ send_epilogue w address val_type values)).
Proof.
  intros Hv Hb Hs. rewrite (send_body_prefix _ _ _ _ _ Hv).
  unfold catch. rewrite Hb. unfold ret, bind, socket, sendto. rewrite Hs.
  unfold safe_push_output, emit, opened_to, log_to, send_epilogue. simpl.
  rewrite <- !app_assoc. reflexivity.
Qed.

End SenderCases.

(** ** The substitution loops as functions *)

Lemma notes_silent (evs : list event) :
  forallb is_note evs = true ->
  opened_of evs = [] /\ closed_of evs = [] /\ sent_of evs = []
  /\ callbacks_of evs = [].
Proof.
  induction evs as [| ev r IH]; intros H; [repeat split |].
  simpl in H. apply andb_prop in H. destruct H as [Hev Hr].
  destruct (IH Hr) as (Ho & Hc & Hs & Hb).
  destruct ev; try discriminate Hev; repeat split; simpl; assumption.
Qed.

Lemma forallb_app_true {A} (f : A -> bool) (l1 l2 : list A) :
  forallb f l1 = true -> forallb f l2 = true -> forallb f (l1 ++ l2) = true.
Proof. intros H1 H2. rewrite forallb_app, H1, H2. reflexivity. Qed.

Lemma skipn_nth_error {A} (l : list A) (i : nat) (x : A) :
  nth_error l i = Some x -> skipn i l = x :: skipn (S i) l.
Proof.
  revert l. induction i as [| i IH]; intros [| y l] H; try discriminate.
  - simpl in H. injection H as ->. reflexivity.
  - simpl in H. simpl skipn at 1. rewrite (IH l H). reflexivity.
Qed.

Section LoopFacts.
Context {rt : PyRuntime}.

Lemma path_errors_notes defs : forall raws,
  forallb is_note (path_errors defs raws) = true.
Proof.
  induction defs as [| d defs IH]; intros [| r raws]; try reflexivity.
  simpl. destruct (path_replacement (parts_of d) r); simpl; apply IH.
Qed.

Lemma value_errors_notes defs : forall raws,
  forallb is_note (value_errors defs raws) = true.
Proof.
  induction defs as [| d defs IH]; intros [| r raws]; try reflexivity.
  simpl. destruct (value_replacement (parts_of d) r); simpl; apply IH.
Qed.

Lemma send_prologue_notes w address val_type values :
  forallb is_note (send_prologue w address val_type values) = true.
Proof.
  unfold send_prologue. simpl. induction values as [| v r IH]; [reflexivity |].
  simpl. rewrite IH. unfold arg_log_event.
  destruct (val_type_str val_type); [destruct (is_none v) |]; reflexivity.
Qed.

(** The path loop computes [resolve_path] and logs [path_errors]. *)
Lemma substitute_path_exact defs : forall i dyn tempPath w,
  (i + List.length defs <= List.length dyn)%nat ->
  substitute_path defs i dyn tempPath w
  = (Ok (resolve_path defs (skipn i dyn) tempPath),
     log_to w (path_errors defs (skipn i dyn))).
Proof.
  induction defs as [| ddef rest IH]; intros i dyn tempPath w Hlen.
  - simpl. now rewrite log_to_nil.
  - simpl in Hlen.
    destruct (nth_error dyn i) as [raw |] eqn:Hraw;
      [| apply nth_error_None in Hraw; lia].
    rewrite (skipn_nth_error dyn i raw Hraw).
    set (later := skipn (S i) dyn).
    simpl substitute_path. unfold bind, dyn_arg, lift, catch. rewrite Hraw.
    simpl of_option. cbv beta iota.
    simpl resolve_path. simpl path_errors. unfold path_text.
    destruct (path_replacement (parts_of ddef) raw) as [rep | e].
    + apply IH. lia.
    + rewrite emit_log_to. unfold ret. rewrite IH by lia.
      now rewrite log_to_app.
Qed.

(** The value loop computes [resolve_values] and logs [value_errors]. *)
Lemma substitute_values_exact defs : forall offset i dyn acc w,
  (offset + i + List.length defs <= List.length dyn)%nat ->
  substitute_values defs offset i dyn acc w
  = (Ok (acc ++ resolve_values defs (skipn (offset + i) dyn)),
     log_to w (value_errors defs (skipn (offset + i) dyn))).
Proof.
  induction defs as [| ddef rest IH]; intros offset i dyn acc w Hlen.
  - simpl. now rewrite log_to_nil, app_nil_r.
  - simpl in Hlen.
    destruct (nth_error dyn (offset + i)) as [raw |] eqn:Hraw;
      [| apply nth_error_None in Hraw; lia].
    rewrite (skipn_nth_error dyn (offset + i) raw Hraw).
    replace (S (offset + i)) with (offset + S i)%nat by lia.
    set (later := skipn (offset + S i) dyn).
    simpl substitute_values. unfold bind, dyn_arg, lift, catch. rewrite Hraw.
    simpl of_option. cbv beta iota.
    simpl resolve_values. simpl value_errors. unfold resolved_value.
    destruct (value_replacement (parts_of ddef) raw) as [rep | e].
    + rewrite IH by lia. now rewrite <- app_assoc.
    + rewrite emit_log_to. unfold ret. rewrite IH by lia.
      now rewrite log_to_app, <- app_assoc.
Qed.

End LoopFacts.

Section InvocationFacts.
Context {rt : PyRuntime}.

Lemma invocation_notes_are_notes a args :
  forallb is_note (invocation_notes a args) = true.
Proof.
  unfold invocation_notes.
  apply forallb_app_true; [apply path_errors_notes |].
  simpl. destruct (value_phase a); [| reflexivity].
  apply forallb_app_true; [apply value_errors_notes | reflexivity].
Qed.

(** An invocation with enough arguments is the two loops followed by
    [_send_osc_action] on what they resolved. *)
Lemma action_callback_unfolds vt path values args callback w :
  (expected_total (oscAction vt path values) <= List.length args)%nat ->
  nth_error args 0 = Some callback ->
  action_callback (oscAction vt path values) args w
  = _send_osc_action callback vt
      (action_path (oscAction vt path values) args)
      (PyList (action_values (oscAction vt path values) args))
      (log_to w (invocation_notes (oscAction vt path values) args)).
Proof.
  set (a := oscAction vt path values). intros Hlen Hcb.
  assert (Het : expected_total a
                = (1 + List.length (path_defs a) + List.length (value_defs a))%nat)
    by reflexivity.
  assert (Hdyn : List.length (dyn_args_of a args)
                 = (List.length (path_defs a) + List.length (value_defs a))%nat).
  { unfold dyn_args_of. rewrite length_firstn, length_skipn. lia. }
  unfold action_callback.
  destruct (Nat.ltb_spec (List.length args) (expected_total a)) as [Hlt | _];
    [lia |].
  unfold bind at 1. unfold lift. rewrite Hcb. simpl of_option. cbv beta iota.
  fold (dyn_args_of a args).
  unfold bind at 1.
  rewrite (substitute_path_exact (path_defs a) 0 (dyn_args_of a args)) by lia.
  simpl skipn. fold (action_path a args).
  unfold bind at 1. rewrite emit_log_to, log_to_app.
  unfold bind at 1. unfold invocation_notes, action_values.
  destruct (value_phase a).
  - unfold bind at 1.
    rewrite (substitute_values_exact (value_defs a) (List.length (path_defs a))
               0 (dyn_args_of a args) []) by lia.
    rewrite Nat.add_0_r. simpl app at 1.
    unfold bind at 1. rewrite emit_log_to. unfold ret.
    rewrite !log_to_app. rewrite <- !app_assoc. reflexivity.
  - unfold ret. rewrite app_nil_r. reflexivity.
Qed.

Lemma send_osc_action_goes_through id vt address raw_val values w :
  send_values_of (val_type_str vt) raw_val = Ok values ->
  build_ok (prefix w ++ address)%string
           (added_args (val_type_str vt) values) = true ->
  sendto_error (host w) (port w) = None ->
  _send_osc_action (PyFunc id) vt address raw_val w
  = (Ok tt, opened_to w ([EvLog (LogSendAction address raw_val)]
                         ++ send_prologue w address vt values
                         ++ send_epilogue w address vt values
                         ++ [EvCallback id true])).
Proof.
  intros Hv Hb Hs. unfold _send_osc_action, catch, bind.
  rewrite emit_log_to.
  rewrite (send_goes_through address vt raw_val values
             (log_to w [EvLog (LogSendAction address raw_val)]) Hv Hb Hs).
  unfold call, emit, opened_to, log_to, send_prologue, send_epilogue, message_of.
  simpl. repeat (rewrite <- app_assoc; simpl). reflexivity.
Qed.

End InvocationFacts.

(** ** What the sender guarantees *)

Section SenderOutcomes.
Context {rt : PyRuntime}.

Lemma observe_send_prologue w address vt values :
  opened_of (send_prologue w address vt values) = []
  /\ closed_of (send_prologue w address vt values) = []
  /\ sent_of (send_prologue w address vt values) = []
  /\ callbacks_of (send_prologue w address vt values) = [].
Proof. apply notes_silent, send_prologue_notes. Qed.

Lemma runs_opened_to {A} (m : M A) (w : world) (r : result A) (evs : list event) :
  m w = (r, opened_to w evs) -> runs m w r (opened_to w evs) evs.
Proof. intros H. split; [exact H | reflexivity]. Qed.

(** Every way a [send] can end. *)
Lemma send_outcomes address vt raw_val w :
  exists w' evs,
    runs (send address vt raw_val) w (Ok tt) w' evs
    /\ callbacks_of evs = []
    /\ ((sent_of evs = [] /\ closed_of evs = []
         /\ (opened_of evs = [] \/ opened_of evs = [next_fd w]))
        \/ (exists values,
              send_values_of (val_type_str vt) raw_val = Ok values
              /\ sent_of evs = [message_of w address vt values]
              /\ opened_of evs = [next_fd w]
              /\ closed_of evs = [next_fd w])).
Proof.
  destruct (send_values_of (val_type_str vt) raw_val) as [values | e] eqn:Hv.
  - destruct (observe_send_prologue w address vt values) as (Ho & Hc & Hs & Hb).
    destruct (build_ok (prefix w ++ address)%string
                (added_args (val_type_str vt) values)) eqn:Hbuild.
    + destruct (sendto_error (host w) (port w)) as [e |] eqn:Hsend.
      * eexists. eexists. split.
        { apply runs_opened_to.
          apply (send_sendto_fails address vt raw_val values e w Hv Hbuild Hsend). }
        rewrite callbacks_of_app, sent_of_app, closed_of_app, opened_of_app,
          Ho, Hc, Hs, Hb.
        split; [reflexivity |]. left. repeat split. now right.
      * eexists. eexists. split.
        { apply runs_opened_to.
          apply (send_goes_through address vt raw_val values w Hv Hbuild Hsend). }
        rewrite callbacks_of_app, sent_of_app, closed_of_app, opened_of_app,
          Ho, Hc, Hs, Hb.
        split; [reflexivity |]. right. exists values. repeat split.
    + eexists. eexists. split.
      { apply runs_log_to.
        apply (send_build_fails address vt raw_val values w Hv Hbuild). }
      rewrite callbacks_of_app, sent_of_app, closed_of_app, opened_of_app,
        Ho, Hc, Hs, Hb.
      split; [reflexivity |]. left. repeat split. now left.
  - eexists. eexists. split.
    { apply runs_log_to. apply (send_convert_fails address vt raw_val e w Hv). }
    split; [reflexivity |]. left. repeat split. now left.
Qed.

End SenderOutcomes.

(** X1.  [send] is best effort: whatever the address, type and value, and
    whatever the runtime and the network do, it returns normally, calls no
    completion callback, opens at most one socket and sends at most one
    datagram (it never retries), and when a datagram went out the socket it
    opened is closed again. *)
Theorem send_is_best_effort {rt : PyRuntime} (address : string)
  (val_type : valtype) (raw_val : pyval) (w : world) :
  exists w' evs,
    runs (send address val_type raw_val) w (Ok tt) w' evs
    /\ callbacks_of evs = []
    /\ (List.length (opened_of evs) <= 1)%nat
    /\ (List.length (sent_of evs) <= 1)%nat
    /\ (sent_of evs = [] \/ closed_of evs = opened_of evs).
Proof.
  destruct (send_outcomes address val_type raw_val w)
    as (w' & evs & Hr & Hc & [(Hs & Hcl & Ho) | (values & _ & Hs & Ho & Hcl)]);
    exists w', evs; (split; [exact Hr |]); (split; [exact Hc |]).
  - rewrite Hs. split; [destruct Ho as [-> | ->]; simpl; lia |].
    split; [simpl; lia | now left].
  - rewrite Hs, Ho, Hcl. split; [simpl; lia |].
    split; [simpl; lia | now right].
Qed.

(** What a [send] that goes through leaves in the trace. *)
Lemma send_success_observed {rt : PyRuntime} (address : string)
  (val_type : valtype) (raw_val : pyval) (values : list pyval) (w : world) :
  send_values_of (val_type_str val_type) raw_val = Ok values ->
  build_ok (prefix w ++ address)%string
           (added_args (val_type_str val_type) values) = true ->
  sendto_error (host w) (port w) = None ->
  exists w' evs,
    runs (send address val_type raw_val) w (Ok tt) w' evs
    /\ sent_of evs
       = [{| msg_address := (prefix w ++ address)%string;
             msg_args := added_args (val_type_str val_type) values |}]
    /\ In (EvSendTo (next_fd w)
             {| msg_address := (prefix w ++ address)%string;
                msg_args := added_args (val_type_str val_type) values |}
             (host w) (port w)) evs
    /\ In EvPushOutputTimer evs
    /\ opened_of evs = [next_fd w]
    /\ closed_of evs = [next_fd w]
    /\ leaked_of evs = []
    /\ (forall ts, val_type_str val_type = Some ts ->
        added_args (val_type_str val_type) values
        = filter (fun v => negb (is_none v)) values).
Proof.
  intros Hv Hb Hs.
  destruct (observe_send_prologue w address val_type values)
    as (Ho & Hc & Hse & _).
  eexists. eexists. split.
  { apply runs_opened_to.
    apply (send_goes_through address val_type raw_val values w Hv Hb Hs). }
  assert (Hop : opened_of (send_prologue w address val_type values
                           ++ send_epilogue w address val_type values)
                = [next_fd w])
    by (rewrite opened_of_app, Ho; reflexivity).
  assert (Hcl : closed_of (send_prologue w address val_type values
                           ++ send_epilogue w address val_type values)
                = [next_fd w])
    by (rewrite closed_of_app, Hc; reflexivity).
  split; [rewrite sent_of_app, Hse; reflexivity |].
  split; [apply in_or_app; right; simpl; auto |].
  split; [apply in_or_app; right; simpl; auto |].
  split; [exact Hop |]. split; [exact Hcl |].
  split.
  - unfold leaked_of. rewrite Hop, Hcl. simpl. now rewrite Nat.eqb_refl.
  - intros ts Hts. rewrite Hts. reflexivity.
Qed.

(** X2.  When the values convert, python-osc builds the message and
    [sendto] accepts it, [send] transmits exactly one datagram, to the host
    and port configured at that moment, whose address is the configured
    prefix followed by the given address and whose arguments are the
    converted values other than [None] (none at all without a type tag); it
    opens one socket, closes it, and schedules the status refresh. *)
Theorem send_transmits_once {rt : PyRuntime} (address : string)
  (val_type : valtype) (raw_val : pyval) (values : list pyval) (w : world) :
  send_values_of (val_type_str val_type) raw_val = Ok values ->
  build_ok (prefix w ++ address)%string
           (added_args (val_type_str val_type) values) = true ->
  sendto_error (host w) (port w) = None ->
  exists w' evs,
    runs (send address val_type raw_val) w (Ok tt) w' evs
    /\ sent_of evs
       = [{| msg_address := (prefix w ++ address)%string;
             msg_args := added_args (val_type_str val_type) values |}]
    /\ In (EvSendTo (next_fd w)
             {| msg_address := (prefix w ++ address)%string;
                msg_args := added_args (val_type_str val_type) values |}
             (host w) (port w)) evs
    /\ In EvPushOutputTimer evs
    /\ opened_of evs = [next_fd w]
    /\ closed_of evs = [next_fd w]
    /\ leaked_of evs = []
    /\ (forall ts, val_type_str val_type = Some ts ->
        added_args (val_type_str val_type) values
        = filter (fun v => negb (is_none v)) values).
Proof. apply send_success_observed. Qed.

(** X2 for the integer 42 sent to "/Cues/Index" on the example sender. *)
Lemma send_transmits_once_witness :
  send_values_of (val_type_str (VtEnum OSCTypes.Int)) (PyList [PyInt 42])
  = Ok [PyInt 42]
  /\ build_ok (prefix Demo.world0 ++ "/Cues/Index")%string
       (added_args (val_type_str (VtEnum OSCTypes.Int)) [PyInt 42]) = true
  /\ sendto_error (host Demo.world0) (port Demo.world0) = None
  /\ sent_of (trace (snd (send "/Cues/Index" (VtEnum OSCTypes.Int)
                            (PyList [PyInt 42]) Demo.world0)))
     = [{| msg_address := "/studio/Cues/Index"; msg_args := [PyInt 42] |}].
Proof.
  split; [reflexivity |]. split; [reflexivity |]. split; [reflexivity |].
  destruct (@send_transmits_once decimal_runtime "/Cues/Index"
              (VtEnum OSCTypes.Int) (PyList [PyInt 42]) [PyInt 42] Demo.world0
              eq_refl eq_refl eq_refl)
    as (w' & evs & [Hrun Htr] & Hsent & _).
  rewrite Hrun. simpl snd. rewrite Htr. exact Hsent.
Defined.

(** X3.  When a value does not convert to the requested type, [send] gives
    up before it touches the network: it writes the one line "[Send OSC]
    Error" with the exception and nothing else; no socket is opened and no
    datagram is built or sent. *)
Theorem send_conversion_failure_is_logged {rt : PyRuntime} (address : string)
  (val_type : valtype) (raw_val : pyval) (e : exn) (w : world) :
  send_values_of (val_type_str val_type) raw_val = Raise e ->
  send address val_type raw_val w
  = (Ok tt, log_to w [EvLog (LogSendFailed e)])
  /\ opened_of (trace (snd (send address val_type raw_val w)))
     = opened_of (trace w)
  /\ sent_of (trace (snd (send address val_type raw_val w)))
     = sent_of (trace w).
Proof.
  intros H. rewrite (send_convert_fails address val_type raw_val e w H).
  split; [reflexivity |]. simpl.
  rewrite opened_of_app, sent_of_app. simpl. now rewrite !app_nil_r.
Qed.

(** X3 for the text "abc" sent as Int. *)
Lemma send_conversion_failure_witness :
  send_values_of (val_type_str (VtEnum OSCTypes.Int)) (PyList [PyStr "abc"])
  = Raise ValueError
  /\ send "/Cues/Index" (VtEnum OSCTypes.Int) (PyList [PyStr "abc"]) Demo.world0
     = (Ok tt, log_to Demo.world0 [EvLog (LogSendFailed ValueError)]).
Proof.
  split; [reflexivity |].
  apply (@send_conversion_failure_is_logged decimal_runtime "/Cues/Index"
           (VtEnum OSCTypes.Int) (PyList [PyStr "abc"]) ValueError Demo.world0).
  reflexivity.
Defined.

(** X4.  The endpoint is read when [send] runs, so the last
    [update_config] wins: after [update_config(h, p, pre)] a [send] that goes
    through transmits to [h] and [p] under the prefix [pre], whatever was
    configured before, and the reconfiguration itself sends nothing. *)
Theorem send_uses_last_config {rt : PyRuntime} (h : string) (p : Z)
  (pre address : string) (val_type : valtype) (raw_val : pyval)
  (values : list pyval) (w : world) :
  send_values_of (val_type_str val_type) raw_val = Ok values ->
  build_ok (pre ++ address)%string
           (added_args (val_type_str val_type) values) = true ->
  sendto_error h p = None ->
  exists w' evs,
    runs (update_config h p pre ;; send address val_type raw_val)%M
         w (Ok tt) w' evs
    /\ sent_of evs
       = [{| msg_address := (pre ++ address)%string;
             msg_args := added_args (val_type_str val_type) values |}]
    /\ In (EvSendTo (next_fd w)
             {| msg_address := (pre ++ address)%string;
                msg_args := added_args (val_type_str val_type) values |}
             h p) evs
    /\ host w' = h /\ port w' = p /\ prefix w' = pre.
Proof.
  intros Hv Hb Hs.
  set (w1 := {| host := h; port := p; prefix := pre; next_fd := next_fd w;
                trace := trace w ++ [EvLog (LogConfigUpdated h p pre)] |}).
  destruct (send_success_observed address val_type raw_val values w1 Hv Hb Hs)
    as (w' & evs & [Hrun Htr] & Hsent & Hin & _).
  exists w', ([EvLog (LogConfigUpdated h p pre)] ++ evs).
  split; [| split; [| split]].
  - split.
    + unfold bind, update_config. fold w1. exact Hrun.
    + rewrite Htr. unfold w1. simpl trace. now rewrite <- app_assoc.
  - rewrite sent_of_app. exact Hsent.
  - apply in_or_app. right. exact Hin.
  - pose proof (send_goes_through address val_type raw_val values w1 Hv Hb Hs)
      as Hgo.
    rewrite Hgo in Hrun. injection Hrun as <-. repeat split.
Qed.

(** X4 on the example sender, reconfigured to another host, port and
    prefix. *)
Lemma send_uses_last_config_witness :
  send_values_of (val_type_str (VtEnum OSCTypes.Int)) (PyList [PyInt 42])
  = Ok [PyInt 42]
  /\ sendto_error "10.0.0.2" 8000 = None
  /\ sent_of (trace (snd ((update_config "10.0.0.2" 8000 "/hall" ;;
                           send "/Cues/Index" (VtEnum OSCTypes.Int)
                             (PyList [PyInt 42]))%M Demo.world0)))
     = [{| msg_address := "/hall/Cues/Index"; msg_args := [PyInt 42] |}].
Proof.
  split; [reflexivity |]. split; [reflexivity |].
  destruct (@send_uses_last_config decimal_runtime "10.0.0.2" 8000 "/hall"
              "/Cues/Index" (VtEnum OSCTypes.Int) (PyList [PyInt 42])
              [PyInt 42] Demo.world0 eq_refl eq_refl eq_refl)
    as (w' & evs & [Hrun Htr] & Hsent & _).
  rewrite Hrun. simpl snd. rewrite Htr. exact Hsent.
Defined.

(** ** What an invocation sends *)

Section InvocationOutcomes.
Context {rt : PyRuntime}.

(** Every way [_send_osc_action] can end for a callable callback. *)
Lemma send_osc_action_outcomes id vt address raw_val w :
  exists w' evs,
    runs (_send_osc_action (PyFunc id) vt address raw_val) w (Ok tt) w' evs
    /\ callbacks_of evs = [(id, true)]
    /\ (sent_of evs = []
        \/ exists values,
             send_values_of (val_type_str vt) raw_val = Ok values
             /\ sent_of evs = [message_of w address vt values]).
Proof.
  destruct (send_outcomes address vt raw_val
              (log_to w [EvLog (LogSendAction address raw_val)]))
    as (w2 & e2 & Hr2 & Hc2 & Hout).
  destruct (runs_emit (EvCallback id true) w2) as [w3 Hr3].
  exists w3, ([EvLog (LogSendAction address raw_val)]
              ++ (e2 ++ [EvCallback id true])).
  split; [| split].
  - apply runs_catch_ok.
    eapply runs_bind; [apply runs_log_to, emit_log_to |].
    eapply runs_bind; [exact Hr2 | exact Hr3].
  - now rewrite !callbacks_of_app, Hc2.
  - rewrite !sent_of_app. simpl. rewrite app_nil_r.
    destruct Hout as [(Hs & _) | (values & Hv & Hs & _)].
    + left. exact Hs.
    + right. exists values. split; [exact Hv | exact Hs].
Qed.

(** What a successful invocation leaves in the trace. *)
Lemma action_callback_success vt path values args id w vals :
  (expected_total (oscAction vt path values) <= List.length args)%nat ->
  nth_error args 0 = Some (PyFunc id) ->
  send_values_of (val_type_str vt)
    (PyList (action_values (oscAction vt path values) args)) = Ok vals ->
  build_ok (prefix w ++ action_path (oscAction vt path values) args)%string
    (added_args (val_type_str vt) vals) = true ->
  sendto_error (host w) (port w) = None ->
  exists w' evs,
    runs (action_callback (oscAction vt path values) args) w (Ok tt) w' evs
    /\ sent_of evs
       = [{| msg_address :=
               (prefix w ++ action_path (oscAction vt path values) args)%string;
             msg_args := added_args (val_type_str vt) vals |}]
    /\ callbacks_of evs = [(id, true)]
    /\ opened_of evs = [next_fd w]
    /\ closed_of evs = [next_fd w].
Proof.
  intros Hlen Hcb Hv Hb Hs.
  set (a := oscAction vt path values) in *.
  pose proof (action_callback_unfolds vt path values args (PyFunc id) w Hlen Hcb)
    as Hun. fold a in Hun.
  set (w1 := log_to w (invocation_notes a args)) in *.
  pose proof (send_osc_action_goes_through id vt (action_path a args)
                (PyList (action_values a args)) vals w1 Hv Hb Hs) as Hgo.
  destruct (notes_silent _ (invocation_notes_are_notes a args))
    as (Hno & Hnc & Hns & Hnb).
  destruct (observe_send_prologue w1 (action_path a args) vt vals)
    as (Hpo & Hpc & Hps & Hpb).
  eexists.
  exists (invocation_notes a args
          ++ ([EvLog (LogSendAction (action_path a args)
                        (PyList (action_values a args)))]
              ++ send_prologue w1 (action_path a args) vt vals
              ++ send_epilogue w1 (action_path a args) vt vals
              ++ [EvCallback id true])).
  split.
  - split; [rewrite Hun; exact Hgo |].
    unfold opened_to, w1, log_to. simpl trace. now rewrite <- app_assoc.
  - rewrite !sent_of_app, !callbacks_of_app, !opened_of_app, !closed_of_app,
      Hno, Hnc, Hns, Hnb, Hpo, Hpc, Hps, Hpb.
    repeat split.
Qed.

End InvocationOutcomes.

(** X5.  A templated action that goes through sends one message and reports
    success: the address is the configured prefix followed by the path with
    its placeholders resolved from the first arguments, the payload is the
    values of the value placeholders resolved from the arguments that follow
    (path first, then values, in order) and converted by the action's type,
    the completion callback is called once with [true], and the socket is
    closed. *)
Theorem action_callback_sends_resolved {rt : PyRuntime}
  (vt : valtype) (path : string) (values : list string)
  (args : list pyval) (id : nat) (w : world) (vals : list pyval) :
  (expected_total (oscAction vt path values) <= List.length args)%nat ->
  nth_error args 0 = Some (PyFunc id) ->
  send_values_of (val_type_str vt)
    (PyList (action_values (oscAction vt path values) args)) = Ok vals ->
  build_ok (prefix w ++ action_path (oscAction vt path values) args)%string
    (added_args (val_type_str vt) vals) = true ->
  sendto_error (host w) (port w) = None ->
  exists w' evs,
    runs (action_callback (oscAction vt path values) args) w (Ok tt) w' evs
    /\ sent_of evs
       = [{| msg_address :=
               (prefix w ++ action_path (oscAction vt path values) args)%string;
             msg_args := added_args (val_type_str vt) vals |}]
    /\ callbacks_of evs = [(id, true)]
    /\ opened_of evs = [next_fd w]
    /\ closed_of evs = [next_fd w].
Proof. apply action_callback_success. Qed.

(** X5 for "Set Cue Index" invoked with the text "42" under the prefix
    "/studio": the address is "/studio/Cues/Index" and the payload the
    integer 42. *)
Lemma action_callback_sends_resolved_witness :
  action_path Demo.cue_index [PyFunc 7; PyStr "42"] = "/Cues/Index"
  /\ action_values Demo.cue_index [PyFunc 7; PyStr "42"] = [PyInt 42]
  /\ sent_of (trace (snd (action_callback Demo.cue_index
                            [PyFunc 7; PyStr "42"] Demo.world0)))
     = [{| msg_address := "/studio/Cues/Index"; msg_args := [PyInt 42] |}].
Proof.
  split; [reflexivity |]. split; [reflexivity |].
  assert (Hlen : (expected_total Demo.cue_index
                  <= List.length [PyFunc 7; PyStr "42"])%nat)
    by (vm_compute; lia).
  destruct (@action_callback_sends_resolved decimal_runtime
              (VtEnum OSCTypes.Int) "/Cues/Index" ["{I, Index, 0, 0, 999}"]
              [PyFunc 7; PyStr "42"] 7 Demo.world0 [PyInt 42]
              Hlen eq_refl eq_refl eq_refl eq_refl)
    as (w' & evs & [Hrun Htr] & Hsent & _).
  change (oscAction (VtEnum OSCTypes.Int) "/Cues/Index"
            ["{I, Index, 0, 0, 999}"]) with Demo.cue_index in Hrun.
  rewrite Hrun. simpl snd. rewrite Htr. exact Hsent.
Defined.

Section BareAndArity.
Context {rt : PyRuntime}.

Lemma bare_has_no_values path values args :
  action_values (oscAction (VtEnum OSCTypes.Bare) path values) args = [].
Proof. reflexivity. Qed.

Lemma bare_outcome path values args id w :
  (expected_total (oscAction (VtEnum OSCTypes.Bare) path values)
   <= List.length args)%nat ->
  nth_error args 0 = Some (PyFunc id) ->
  exists w' evs,
    runs (action_callback (oscAction (VtEnum OSCTypes.Bare) path values) args)
         w (Ok tt) w' evs
    /\ callbacks_of evs = [(id, true)]
    /\ (sent_of evs = []
        \/ sent_of evs
           = [{| msg_address :=
                   (prefix w
                    ++ action_path
                         (oscAction (VtEnum OSCTypes.Bare) path values) args)%string;
                 msg_args := [] |}]).
Proof.
  intros Hlen Hcb.
  set (a := oscAction (VtEnum OSCTypes.Bare) path values) in *.
  pose proof (action_callback_unfolds (VtEnum OSCTypes.Bare) path values args
                (PyFunc id) w Hlen Hcb) as Hun. fold a in Hun.
  set (w1 := log_to w (invocation_notes a args)) in *.
  destruct (send_osc_action_outcomes id (VtEnum OSCTypes.Bare)
              (action_path a args) (PyList (action_values a args)) w1)
    as (w' & evs & [Hrun Htr] & Hc & Hout).
  destruct (notes_silent _ (invocation_notes_are_notes a args))
    as (_ & _ & Hns & Hnb).
  exists w', (invocation_notes a args ++ evs). split; [| split].
  - split; [rewrite Hun; exact Hrun |].
    rewrite Htr. unfold w1, log_to. simpl trace. now rewrite <- app_assoc.
  - now rewrite callbacks_of_app, Hnb.
  - rewrite sent_of_app, Hns. simpl.
    destruct Hout as [Hs | (vals & Hv & Hs)]; [now left | right].
    rewrite Hs. unfold a in Hv. rewrite bare_has_no_values in Hv.
    injection Hv as <-. reflexivity.
Qed.

(** Arguments beyond the expected ones are never read. *)
Lemma action_callback_ignores_extra vt path values args extra :
  List.length args = expected_total (oscAction vt path values) ->
  action_callback (oscAction vt path values) (args ++ extra)
  = action_callback (oscAction vt path values) args.
Proof.
  set (a := oscAction vt path values). intros Hlen.
  assert (Hpos : (1 <= expected_total a)%nat)
    by (change (expected_total a)
          with (1 + List.length (path_defs a) + List.length (value_defs a))%nat;
        lia).
  unfold action_callback.
  rewrite length_app.
  destruct (Nat.ltb_spec (List.length args + List.length extra)
              (expected_total a)) as [Hlt | _]; [lia |].
  destruct (Nat.ltb_spec (List.length args) (expected_total a)) as [Hlt | _];
    [lia |].
  destruct args as [| cb rest];
    [change (List.length (@nil pyval)) with 0%nat in Hlen; lia |].
  change (List.length (cb :: rest)) with (S (List.length rest)) in Hlen.
  simpl nth_error. simpl skipn.
  assert (H1 : firstn (expected_total a - 1) (rest ++ extra) = rest).
  { replace (expected_total a - 1)%nat with (List.length rest + 0)%nat by lia.
    rewrite firstn_app_2. simpl. apply app_nil_r. }
  assert (H2 : firstn (expected_total a - 1) rest = rest).
  { replace (expected_total a - 1)%nat with (List.length rest) by lia.
    apply firstn_all. }
  rewrite H1, H2. reflexivity.
Qed.

End BareAndArity.

(** X6.  An action of type Bare never sends a payload: invoked with enough
    arguments, it resolves the placeholders of its path, skips its value
    templates, reports [true], and any message it sends has no arguments. *)
Theorem bare_action_sends_no_payload {rt : PyRuntime}
  (path : string) (values : list string) (args : list pyval) (id : nat)
  (w : world) :
  (expected_total (oscAction (VtEnum OSCTypes.Bare) path values)
   <= List.length args)%nat ->
  nth_error args 0 = Some (PyFunc id) ->
  exists w' evs,
    runs (action_callback (oscAction (VtEnum OSCTypes.Bare) path values) args)
         w (Ok tt) w' evs
    /\ callbacks_of evs = [(id, true)]
    /\ (sent_of evs = []
        \/ sent_of evs
           = [{| msg_address :=
                   (prefix w
                    ++ action_path
                         (oscAction (VtEnum OSCTypes.Bare) path values) args)%string;
                 msg_args := [] |}]).
Proof. apply bare_outcome. Qed.

(** X6 for "Set Playback State" of the plugin, a Bare action with the state
    in its path, invoked with state 2. *)
Lemma bare_action_witness :
  (expected_total
     (oscAction (VtEnum OSCTypes.Bare)
        "/CueList/PlaybackState/{I, State, 0, 0, 2}" [])
   <= List.length [PyFunc 7; PyInt 2])%nat
  /\ sent_of (trace (snd (action_callback
                            (oscAction (VtEnum OSCTypes.Bare)
                               "/CueList/PlaybackState/{I, State, 0, 0, 2}" [])
                            [PyFunc 7; PyInt 2] Demo.world0)))
     = [{| msg_address := "/studio/CueList/PlaybackState/2"; msg_args := [] |}].
Proof.
  assert (Hlen : (expected_total
                    (oscAction (VtEnum OSCTypes.Bare)
                       "/CueList/PlaybackState/{I, State, 0, 0, 2}" [])
                  <= List.length [PyFunc 7; PyInt 2])%nat)
    by (vm_compute; lia).
  split; [exact Hlen |].
  destruct (@bare_action_sends_no_payload decimal_runtime
              "/CueList/PlaybackState/{I, State, 0, 0, 2}" []
              [PyFunc 7; PyInt 2] 7 Demo.world0 Hlen eq_refl)
    as (w' & evs & [Hrun Htr] & _ & [Hnone | Hsent]).
  - exfalso. change (trace Demo.world0 ++ evs) with evs in Htr.
    rewrite <- Htr in Hnone.
    replace w' with (snd (@action_callback decimal_runtime
                            (oscAction (VtEnum OSCTypes.Bare)
                               "/CueList/PlaybackState/{I, State, 0, 0, 2}" [])
                            [PyFunc 7; PyInt 2] Demo.world0)) in Hnone
      by (rewrite Hrun; reflexivity).
    vm_compute in Hnone. discriminate Hnone.
  - rewrite Hrun. simpl snd. rewrite Htr.
    change (trace Demo.world0 ++ evs) with evs. rewrite Hsent. reflexivity.
Defined.

(** X7.  Arguments beyond the expected ones are ignored: an invocation of a
    registered action with exactly the expected arguments followed by any
    others behaves as the invocation without them. *)
Theorem action_callback_reads_expected_only {rt : PyRuntime}
  (vt : valtype) (path : string) (values : list string)
  (args extra : list pyval) (w : world) :
  List.length args = expected_total (oscAction vt path values) ->
  action_callback (oscAction vt path values) (args ++ extra) w
  = action_callback (oscAction vt path values) args w.
Proof. intros H. now rewrite action_callback_ignores_extra. Qed.

(** X7 for "Set Cue Index" given a second value. *)
Lemma action_callback_reads_expected_only_witness :
  List.length [PyFunc 7; PyStr "42"] = expected_total Demo.cue_index
  /\ action_callback Demo.cue_index ([PyFunc 7; PyStr "42"] ++ [PyStr "43"])
       Demo.world0
     = action_callback Demo.cue_index [PyFunc 7; PyStr "42"] Demo.world0.
Proof.
  split; [reflexivity |].
  apply (@action_callback_reads_expected_only decimal_runtime
           (VtEnum OSCTypes.Int) "/Cues/Index" ["{I, Index, 0, 0, 999}"]).
  reflexivity.
Defined.

(** The arity guard: a tuple shorter than expected is only reported. *)
Lemma action_callback_guard {rt : PyRuntime} (a : action)
  (args : list pyval) (w : world) :
  (List.length args < expected_total a)%nat ->
  action_callback a args w
  = (Ok tt,
     log_to w [EvLogError (NotEnoughArgs (List.length args) (expected_total a))]).
Proof.
  intros H. unfold action_callback. apply Nat.ltb_lt in H. rewrite H.
  reflexivity.
Qed.

(** ** The custom action *)

Section CustomFacts.
Context {rt : PyRuntime}.

Lemma custom_action_fails callback path val_type_index value e w :
  custom_resolve val_type_index value = Raise e ->
  custom_action_callback callback path val_type_index value w
  = (emit (EvLogError (CustomActionFailed e)) ;; call callback false)%M w.
Proof.
  unfold custom_resolve, custom_action_callback, catch, bind, lift.
  destruct (as_index val_type_index) as [i | e1]; simpl;
    [| intros H; injection H as <-; reflexivity].
  destruct (py_index value_type_options i) as [vt | e2]; simpl;
    [| intros H; injection H as <-; reflexivity].
  destruct (custom_coerce vt value) as [c | e3]; simpl;
    [discriminate | intros H; injection H as <-; reflexivity].
Qed.

(** The four types of the custom action, and what each coerces to. *)
Lemma custom_resolve_cases val_type_index value vt c :
  custom_resolve val_type_index value = Ok (vt, c) ->
  (vt = "Int" /\ exists z, c = PyInt z)
  \/ (vt = "Float" /\ exists f, c = PyFloat f)
  \/ (vt = "String" /\ exists s, c = PyStr s)
  \/ (vt = "Bool" /\ exists b, c = PyBool b).
Proof.
  unfold custom_resolve.
  destruct (as_index val_type_index) as [i | e1]; simpl; [| discriminate].
  unfold py_index, value_type_options. simpl List.length.
  assert (Hcases : forall vt',
            In vt' ["Int"; "Float"; "String"; "Bool"] ->
            (c' <~ custom_coerce vt' value ;; Ok (vt', c'))%result = Ok (vt, c) ->
            (vt = "Int" /\ exists z, c = PyInt z)
            \/ (vt = "Float" /\ exists f, c = PyFloat f)
            \/ (vt = "String" /\ exists s, c = PyStr s)
            \/ (vt = "Bool" /\ exists b, c = PyBool b)).
  { intros vt' [<- | [<- | [<- | [<- | []]]]]; unfold custom_coerce; simpl.
    - destruct (py_int value) as [z |]; simpl; [| discriminate].
      intros H; injection H as <- <-. left. split; [reflexivity | now exists z].
    - destruct (py_float value) as [f |]; simpl; [| discriminate].
      intros H; injection H as <- <-. right. left.
      split; [reflexivity | now exists f].
    - intros H; injection H as <- <-. right. right. left.
      split; [reflexivity | now eexists].
    - intros H; injection H as <- <-. right. right. right.
      split; [reflexivity | now eexists]. }
  destruct ((0 <=? i) && (i <? Z.of_nat 4)).
  - destruct (nth_error ["Int"; "Float"; "String"; "Bool"] (Z.to_nat i))
      as [vt' |] eqn:Hn; simpl; [| discriminate].
    apply Hcases. eapply nth_error_In, Hn.
  - destruct ((- Z.of_nat 4 <=? i) && (i <? 0)); [| discriminate].
    destruct (nth_error ["Int"; "Float"; "String"; "Bool"]
                (Z.to_nat (Z.of_nat 4 + i))) as [vt' |] eqn:Hn; simpl;
      [| discriminate].
    apply Hcases. eapply nth_error_In, Hn.
Qed.

(** The type names of the custom action are no type tags: the sender
    converts the coerced value with its default arm, to text. *)
Lemma custom_value_sent_as_text val_type_index value vt c :
  custom_resolve val_type_index value = Ok (vt, c) ->
  send_values_of (val_type_str (VtStr vt)) c = Ok [PyStr (py_str c)]
  /\ added_args (val_type_str (VtStr vt)) [PyStr (py_str c)] = [PyStr (py_str c)].
Proof.
  intros H.
  destruct (custom_resolve_cases _ _ _ _ H)
    as [(-> & z & ->) | [(-> & f & ->) | [(-> & s & ->) | (-> & b & ->)]]];
    split; reflexivity.
Qed.

Lemma custom_action_proceeds id path val_type_index value vt c w :
  custom_resolve val_type_index value = Ok (vt, c) ->
  custom_action_callback (PyFunc id) path val_type_index value w
  = _send_osc_action (PyFunc id) (VtStr vt) path c
      (log_to w [EvLog (LogCustomSending path vt c)]).
Proof.
  unfold custom_resolve, custom_action_callback, catch, bind, lift.
  destruct (as_index val_type_index) as [i | e1]; simpl; [| discriminate].
  destruct (py_index value_type_options i) as [vt' | e2]; simpl;
    [| discriminate].
  destruct (custom_coerce vt' value) as [c' | e3]; simpl; [| discriminate].
  intros H. injection H as -> ->.
  destruct (send_osc_action_outcomes id (VtStr vt) path c
              (log_to w [EvLog (LogCustomSending path vt c)]))
    as (w' & evs & [Hrun _] & _).
  unfold log_to in Hrun. simpl in Hrun.
  unfold _send_osc_action, catch, bind in *. simpl in Hrun |- *.
  rewrite Hrun. reflexivity.
Qed.

Lemma custom_action_outcome id path val_type_index value w :
  exists w' evs,
    runs (custom_action_callback (PyFunc id) path val_type_index value)
         w (Ok tt) w' evs
    /\ callbacks_of evs
       = [(id, succeeded (custom_resolve val_type_index value))]
    /\ (succeeded (custom_resolve val_type_index value) = false ->
        sent_of evs = [] /\ opened_of evs = [])
    /\ (forall m, In m (sent_of evs) ->
        exists vt c,
          custom_resolve val_type_index value = Ok (vt, c)
          /\ m = {| msg_address := (prefix w ++ path)%string;
                    msg_args := [PyStr (py_str c)] |})
    /\ (forall e, custom_resolve val_type_index value = Raise e ->
        evs = [EvLogError (CustomActionFailed e); EvCallback id false]).
Proof.
  destruct (custom_resolve val_type_index value) as [[vt c] | e] eqn:Hres.
  - destruct (send_osc_action_outcomes id (VtStr vt) path c
                (log_to w [EvLog (LogCustomSending path vt c)]))
      as (w' & evs & [Hrun Htr] & Hc & Hout).
    exists w', ([EvLog (LogCustomSending path vt c)] ++ evs).
    split; [| split; [| split; [| split]]]; [| | | | discriminate].
    + split.
      * rewrite (custom_action_proceeds id path val_type_index value vt c w
                   Hres). exact Hrun.
      * rewrite Htr. simpl trace. now rewrite <- app_assoc.
    + rewrite callbacks_of_app. exact Hc.
    + discriminate.
    + rewrite sent_of_app. simpl. intros m Hm.
      destruct Hout as [Hs | (vals & Hv & Hs)]; [rewrite Hs in Hm; destruct Hm |].
      rewrite Hs in Hm. destruct Hm as [<- | []].
      exists vt, c. split; [reflexivity |].
      destruct (custom_value_sent_as_text _ _ _ _ Hres) as [Htext Hadd].
      rewrite Htext in Hv. injection Hv as <-.
      unfold message_of. rewrite Hadd. reflexivity.
  - exists (log_to w [EvLogError (CustomActionFailed e); EvCallback id false]).
    exists [EvLogError (CustomActionFailed e); EvCallback id false].
    split; [split |].
    + rewrite (custom_action_fails (PyFunc id) path val_type_index value e w
                 Hres).
      unfold bind, call, log_to. unfold emit at 1. simpl. unfold emit.
      simpl. repeat rewrite <- app_assoc. reflexivity.
    + reflexivity.
    + split; [reflexivity |].
      split; [intros _; now split |].
      split; [intros m [] |].
      intros e' He. now injection He as <-.
Qed.

End CustomFacts.

(** X8.  The custom action reports exactly once, and never raises: with
    [true] when the type index selects one of Int, Float, String, Bool and
    the value coerces to it, whether or not the send then succeeds, and with
    [false], after a diagnostic and without touching the network, when the
    index is no integer or is out of range or the value does not coerce. *)
Theorem custom_action_reports_once {rt : PyRuntime} (id : nat) (path : string)
  (val_type_index value : pyval) (w : world) :
  exists w' evs,
    runs (custom_action_callback (PyFunc id) path val_type_index value)
         w (Ok tt) w' evs
    /\ callbacks_of evs
       = [(id, succeeded (custom_resolve val_type_index value))]
    /\ (succeeded (custom_resolve val_type_index value) = false ->
        sent_of evs = [] /\ opened_of evs = [])
    /\ (forall e, custom_resolve val_type_index value = Raise e ->
        evs = [EvLogError (CustomActionFailed e); EvCallback id false]
        /\ errors_of evs = [CustomActionFailed e]).
Proof.
  destruct (custom_action_outcome id path val_type_index value w)
    as (w' & evs & Hr & Hc & Hf & _ & He).
  exists w', evs. split; [exact Hr |]. split; [exact Hc |].
  split; [exact Hf |].
  intros e Hres. rewrite (He e Hres). now split.
Qed.

(** X8 where the coercion fails: the text "abc" as Int. *)
Lemma custom_action_reports_once_witness :
  succeeded (custom_resolve (PyInt 0) (PyStr "abc")) = false
  /\ custom_resolve (PyInt 0) (PyStr "abc") = Raise ValueError
  /\ callbacks_of (trace (snd (custom_action_callback (PyFunc 3) "/custom/path"
                                 (PyInt 0) (PyStr "abc") Demo.world0)))
     = [(3%nat, false)]
  /\ sent_of (trace (snd (custom_action_callback (PyFunc 3) "/custom/path"
                            (PyInt 0) (PyStr "abc") Demo.world0)))
     = []
  /\ errors_of (trace (snd (custom_action_callback (PyFunc 3) "/custom/path"
                              (PyInt 0) (PyStr "abc") Demo.world0)))
     = [CustomActionFailed ValueError].
Proof.
  split; [reflexivity |]. split; [reflexivity |].
  destruct (@custom_action_reports_once decimal_runtime 3 "/custom/path"
              (PyInt 0) (PyStr "abc") Demo.world0)
    as (w' & evs & [Hrun Htr] & Hc & Hf & He).
  rewrite Hrun. simpl snd. rewrite Htr.
  change (trace Demo.world0 ++ evs) with evs.
  split; [exact Hc |]. split; [apply Hf; reflexivity |].
  apply (He ValueError). reflexivity.
Defined.

(** X9.  Whatever type is selected, the custom action transmits text: the
    names Int, Float, String and Bool it passes on are no type tags, so the
    sender's default arm applies, and every message the action sends carries
    one string argument, the text of the coerced value, under the address
    made of the prefix and the given path. *)
Theorem custom_action_sends_text {rt : PyRuntime} (id : nat) (path : string)
  (val_type_index value : pyval) (w : world) :
  exists w' evs,
    runs (custom_action_callback (PyFunc id) path val_type_index value)
         w (Ok tt) w' evs
    /\ (forall m, In m (sent_of evs) ->
        exists vt c,
          custom_resolve val_type_index value = Ok (vt, c)
          /\ m = {| msg_address := (prefix w ++ path)%string;
                    msg_args := [PyStr (py_str c)] |}).
Proof.
  destruct (custom_action_outcome id path val_type_index value w)
    as (w' & evs & Hr & _ & _ & Hm & _).
  now exists w', evs.
Qed.

(** The index 0 selects Int: the text "7" is parsed as the integer 7 and
    then transmitted as the text "7"; likewise 0.5 as a Float. *)
Example custom_int_is_sent_as_text :
  sent_of (trace (snd (custom_action_callback (PyFunc 3) "/custom/path"
                         (PyInt 0) (PyStr "7") Demo.world0)))
  = [{| msg_address := "/studio/custom/path"; msg_args := [PyStr "7"] |}]
  /\ custom_resolve (PyInt 0) (PyStr "7") = Ok ("Int", PyInt 7).
Proof. split; reflexivity. Qed.

(* ================================================================== *)
(** ** Templates and their placeholders *)

Lemma str_app_assoc (a b c : string) :
  ((a ++ b) ++ c = a ++ (b ++ c))%string.
Proof. induction a as [| x a IH]; simpl; [reflexivity | now rewrite IH]. Qed.

Lemma str_app_nil_r (a : string) : (a ++ "" = a)%string.
Proof. induction a as [| x a IH]; simpl; [reflexivity | now rewrite IH]. Qed.

Lemma str_app_length (a b : string) :
  String.length (a ++ b) = (String.length a + String.length b)%nat.
Proof. induction a as [| x a IH]; simpl; [reflexivity | now rewrite IH]. Qed.

Lemma has_char_app c (a b : string) :
  has_char c (a ++ b) = has_char c a || has_char c b.
Proof.
  induction a as [| x a IH]; simpl; [reflexivity |].
  now rewrite IH, orb_assoc.
Qed.

Lemma is_descriptor_spec d :
  is_descriptor d = true
  <-> d <> "" /\ has_char "{" d = false /\ has_char "}" d = false.
Proof.
  unfold is_descriptor. rewrite !andb_true_iff, !negb_true_iff.
  destruct d; simpl; intuition congruence.
Qed.

(** Up to an opening brace the scanner emits what it emits on the text
    before it, and starts afresh. *)
Lemma scan_defs_open (pre rest : string) : forall cur,
  PyStr.scan_defs (pre ++ String "{" rest) cur
  = PyStr.scan_defs pre cur ++ PyStr.scan_defs rest (Some ""%string).
Proof.
  induction pre as [| c pre IH]; intros cur; [reflexivity |].
  simpl. destruct (Ascii.eqb c "{"); [apply IH |].
  destruct (Ascii.eqb c "}").
  - destruct cur as [[| b body] |]; simpl; now rewrite IH.
  - destruct cur as [body |]; apply IH.
Qed.

(** Inside a placeholder the scanner collects text without braces up to
    the closing brace. *)
Lemma scan_defs_body (d post : string) : forall body,
  has_char "{" d = false -> has_char "}" d = false ->
  (body ++ d)%string <> ""%string ->
  PyStr.scan_defs (d ++ String "}" post) (Some body)
  = (body ++ d)%string :: PyStr.scan_defs post None.
Proof.
  induction d as [| c d IH]; intros body Ho Hc Hne.
  - rewrite str_app_nil_r in *. simpl. destruct body; [congruence | reflexivity].
  - simpl in Ho, Hc. apply orb_false_iff in Ho as [Ho1 Ho2].
    apply orb_false_iff in Hc as [Hc1 Hc2].
    simpl. rewrite Ho1, Hc1.
    rewrite IH; try assumption.
    + now rewrite str_app_assoc.
    + rewrite str_app_assoc. simpl. now destruct body.
Qed.

Lemma find_defs_app_placeholder (pre d post : string) :
  is_descriptor d = true ->
  PyStr.find_defs (pre ++ braced d ++ post)
  = PyStr.find_defs pre ++ d :: PyStr.find_defs post.
Proof.
  intros Hd. apply is_descriptor_spec in Hd as (Hne & Ho & Hc).
  unfold PyStr.find_defs, braced. simpl.
  rewrite scan_defs_open. f_equal.
  rewrite str_app_assoc. simpl.
  now rewrite (scan_defs_body d post ""%string).
Qed.

(** Text without an opening brace holds no placeholder. *)
Lemma find_defs_literal (s : string) :
  has_char "{" s = false -> PyStr.find_defs s = [].
Proof.
  unfold PyStr.find_defs. induction s as [| c s IH]; [reflexivity |].
  simpl. intros H. apply orb_false_iff in H as [H1 H2]. rewrite H1.
  destruct (Ascii.eqb c "}"); now apply IH.
Qed.

(** What the scanner emits is a descriptor that stands in braces in the
    text, or the completion of the body it was reading. *)
Lemma scan_defs_sound (s : string) : forall cur d,
  (forall body, cur = Some body ->
     has_char "{" body = false /\ has_char "}" body = false) ->
  In d (PyStr.scan_defs s cur) ->
  is_descriptor d = true
  /\ ((exists pre post, s = (pre ++ braced d ++ post)%string)
      \/ (exists body d' post,
            cur = Some body /\ d = (body ++ d')%string
            /\ s = (d' ++ String "}" post)%string)).
Proof.
  induction s as [| c s IH]; intros cur d Hcur Hin; [destruct Hin |].
  simpl in Hin. destruct (Ascii.eqb c "{") eqn:Eo.
  - apply Ascii.eqb_eq in Eo as ->.
    destruct (IH (Some ""%string) d) as (Hd & [(pre & post & ->) | H]);
      [intros body [= <-]; now split | exact Hin | |].
    + split; [exact Hd |]. left. now exists (String "{" pre), post.
    + destruct H as (body & d' & post & [= <-] & -> & ->).
      split; [exact Hd |]. left. exists ""%string, post.
      unfold braced. simpl. now rewrite str_app_assoc.
  - destruct (Ascii.eqb c "}") eqn:Ec.
    + apply Ascii.eqb_eq in Ec as ->.
      assert (Hrest : In d (PyStr.scan_defs s None) ->
                is_descriptor d = true
                /\ ((exists pre post,
                       String "}" s = (pre ++ braced d ++ post)%string)
                    \/ (exists body d' post,
                          cur = Some body /\ d = (body ++ d')%string
                          /\ String "}" s = (d' ++ String "}" post)%string))).
      { intros Hin'.
        destruct (IH None d) as (Hd & [(pre & post & ->) | H]);
          [intros body [=] | exact Hin' | |].
        - split; [exact Hd |]. left. now exists (String "}" pre), post.
        - destruct H as (body & d' & post & [=] & _). }
      destruct cur as [[| b body] |]; try (apply Hrest; exact Hin).
      destruct Hin as [<- | Hin]; [| apply Hrest; exact Hin].
      destruct (Hcur _ eq_refl) as [Ho Hc].
      split; [apply is_descriptor_spec; now repeat split |].
      right. exists (String b body), ""%string, s.
      now rewrite str_app_nil_r.
    + destruct cur as [body |].
      * destruct (Hcur _ eq_refl) as [Ho Hc].
        destruct (IH (Some (body ++ String c "")%string) d)
          as (Hd & [(pre & post & ->) | H]); [| exact Hin | |].
        -- intros body' [= <-]. rewrite !has_char_app. simpl.
           now rewrite Ho, Hc, Eo, Ec.
        -- split; [exact Hd |]. left. now exists (String c pre), post.
        -- destruct H as (body' & d' & post & [= <-] & -> & ->).
           split; [exact Hd |]. right. exists body, (String c d'), post.
           now rewrite str_app_assoc.
      * destruct (IH None d) as (Hd & [(pre & post & ->) | H]);
          [intros body [=] | exact Hin | |].
        -- split; [exact Hd |]. left. now exists (String c pre), post.
        -- destruct H as (body & d' & post & [=] & _).
Qed.

(** X10.  Placeholders are found in order and independently: for a
    descriptor [d], non-empty and without braces, the descriptors of
    [pre{d}post] are those of [pre], then [d], then those of [post],
    whatever [pre] and [post] hold (unbalanced braces included). *)
Theorem find_defs_splits (pre d post : string) :
  is_descriptor d = true ->
  PyStr.find_defs (pre ++ braced d ++ post)
  = PyStr.find_defs pre ++ d :: PyStr.find_defs post.
Proof. apply find_defs_app_placeholder. Qed.

(** X10 on a path of the plugin, after an unbalanced brace. *)
Lemma find_defs_splits_witness :
  is_descriptor "I, State, 0, 0, 2" = true
  /\ PyStr.find_defs ("/Cue{List/" ++ braced "I, State, 0, 0, 2" ++ "/x")
     = PyStr.find_defs "/Cue{List/" ++ ["I, State, 0, 0, 2"]
  /\ PyStr.find_defs "/Cue{List/" = [].
Proof.
  split; [reflexivity |]. split; [| reflexivity].
  exact (find_defs_splits "/Cue{List/" "I, State, 0, 0, 2" "/x" eq_refl).
Defined.

(** X11.  The template scanner finds exactly the placeholders: [d] is among
    the descriptors of a text if and only if [d] is not empty, holds no
    brace, and stands between braces somewhere in the text.  In particular
    empty braces and nested braces yield no descriptor of their own. *)
Theorem find_defs_finds_placeholders (s d : string) :
  In d (PyStr.find_defs s)
  <-> is_descriptor d = true
      /\ exists pre post, s = (pre ++ braced d ++ post)%string.
Proof.
  split.
  - intros Hin.
    destruct (scan_defs_sound s None d) as (Hd & [H | H]);
      [intros body [=] | exact Hin | |].
    + now split.
    + destruct H as (body & d' & post & [=] & _).
  - intros (Hd & pre & post & ->).
    rewrite find_defs_app_placeholder by exact Hd.
    apply in_or_app. right. now left.
Qed.

(** *** [str.replace] on templates *)

Lemma prefix_app (a b : string) : String.prefix a (a ++ b) = true.
Proof.
  induction a as [| x a IH]; simpl; [now destruct b |].
  destruct (ascii_dec x x); [exact IH | congruence].
Qed.

Lemma prefix_first (a x : ascii) (old s : string) :
  Ascii.eqb x a = false -> String.prefix (String a old) (String x s) = false.
Proof.
  intros H. simpl. destruct (ascii_dec a x) as [-> |]; [| reflexivity].
  now rewrite Ascii.eqb_refl in H.
Qed.

(** The characters of an occurrence that was replaced are skipped. *)
Lemma replace_from_skip (old new x rest : string) :
  PyStr.replace_from old new (x ++ rest) (String.length x)
  = PyStr.replace_from old new rest 0.
Proof.
  induction x as [| c x IH]; [reflexivity |].
  simpl. exact IH.
Qed.

(** Text in which the first character of [old] does not occur is copied. *)
Lemma replace_from_copy (a : ascii) (old new pre rest : string) :
  has_char a pre = false ->
  PyStr.replace_from (String a old) new (pre ++ rest) 0
  = (pre ++ PyStr.replace_from (String a old) new rest 0)%string.
Proof.
  induction pre as [| c pre IH]; intros H; [reflexivity |].
  simpl in H. apply orb_false_iff in H as [H1 H2].
  change (String c pre ++ rest)%string with (String c (pre ++ rest)).
  unfold PyStr.replace_from at 1. fold PyStr.replace_from.
  rewrite (prefix_first a c old (pre ++ rest) H1).
  simpl. now rewrite IH.
Qed.

(** An occurrence is replaced, and the search goes on behind it. *)
Lemma replace_from_hit (a : ascii) (old new rest : string) :
  PyStr.replace_from (String a old) new (String a old ++ rest) 0
  = (new ++ PyStr.replace_from (String a old) new rest 0)%string.
Proof.
  change (String a old ++ rest)%string with (String a (old ++ rest)).
  unfold PyStr.replace_from at 1. fold PyStr.replace_from.
  change (String a (old ++ rest)) with (String a old ++ rest)%string.
  rewrite prefix_app. f_equal.
  replace (String.length (String a old) - 1)%nat with (String.length old)
    by (simpl; lia).
  apply replace_from_skip.
Qed.

Lemma replace_from_literal (a : ascii) (old new s : string) :
  has_char a s = false -> PyStr.replace_from (String a old) new s 0 = s.
Proof.
  intros H. rewrite <- (str_app_nil_r s) at 1.
  rewrite replace_from_copy by exact H. simpl. apply str_app_nil_r.
Qed.

Lemma prefix_cons (a b : ascii) (s1 s2 : string) :
  String.prefix (String a s1) (String b s2) = true ->
  a = b /\ String.prefix s1 s2 = true.
Proof.
  simpl. destruct (ascii_dec a b) as [-> |]; [now split | discriminate].
Qed.

(** Two placeholders with different descriptors do not match each other. *)
Lemma prefix_closing (d : string) : forall d' rest,
  has_char "}" d = false -> has_char "}" d' = false ->
  String.prefix (d ++ "}") (d' ++ String "}" rest) = true -> d = d'.
Proof.
  induction d as [| c d IH]; intros d' rest Hd Hd' Hp.
  - destruct d' as [| c' d']; [reflexivity |].
    apply prefix_cons in Hp as [<- _].
    simpl in Hd'. discriminate.
  - simpl in Hd. apply orb_false_iff in Hd as [H1 H2].
    destruct d' as [| c' d'].
    + apply prefix_cons in Hp as [-> _]. discriminate.
    + simpl in Hd'. apply orb_false_iff in Hd' as [H1' H2'].
      apply prefix_cons in Hp as [<- Hp].
      f_equal. now apply (IH d' rest).
Qed.

Lemma template_app (a b : string) segs :
  template (a ++ b) segs = (a ++ template b segs)%string.
Proof. destruct segs as [| [d t] rest]; simpl; [reflexivity | apply str_app_assoc]. Qed.

Lemma filled_app (a b : string) segs xs :
  filled (a ++ b) segs xs = (a ++ filled b segs xs)%string.
Proof.
  destruct segs as [| [d t] rest]; [reflexivity |].
  destruct xs as [| x xs]; simpl; [reflexivity | apply str_app_assoc].
Qed.

(** Replacing a placeholder that the template does not hold changes
    nothing. *)
Lemma replace_from_other (d new : string) segs : forall t,
  is_descriptor d = true ->
  has_char "{" t = false -> well_formed segs -> ~ In d (map fst segs) ->
  PyStr.replace_from (braced d) new (template t segs) 0 = template t segs.
Proof.
  induction segs as [| [d' t'] rest IH]; intros t Hd Ht Hwf Hnot.
  - simpl. now apply replace_from_literal.
  - inversion Hwf as [| ? ? [Hd' Ht'] Hwf']; subst. simpl in Hd', Ht'.
    simpl in Hnot.
    apply is_descriptor_spec in Hd as Hd0. destruct Hd0 as (_ & Hdo & Hdc).
    apply is_descriptor_spec in Hd' as (_ & Hdo' & Hdc').
    simpl template. unfold braced at 1. simpl append.
    rewrite replace_from_copy by exact Ht. f_equal.
    unfold braced. simpl append.
    unfold PyStr.replace_from at 1. fold PyStr.replace_from.
    assert (Hp : String.prefix (String "{" (d ++ "}"))
                   (String "{" ((d' ++ "}") ++ template t' rest)) = false).
    { simpl. destruct (String.prefix (d ++ "}") ((d' ++ "}") ++ template t' rest))
        eqn:Hp; [| reflexivity].
      rewrite str_app_assoc in Hp. simpl in Hp.
      apply prefix_closing in Hp; try assumption.
      exfalso. apply Hnot. left. now symmetry. }
    rewrite Hp. f_equal.
    rewrite str_app_assoc. simpl append.
    change (String "}" (template t' rest))
      with ("}" ++ template t' rest)%string.
    rewrite <- str_app_assoc.
    rewrite replace_from_copy
      by (rewrite has_char_app; simpl; now rewrite Hdo').
    f_equal.
    apply (IH t' Hd Ht' Hwf'). tauto.
Qed.

Lemma replace_braced (s d new : string) :
  PyStr.replace s (braced d) new = PyStr.replace_from (braced d) new s 0.
Proof. reflexivity. Qed.

Lemma replace_braced_copy (d new pre rest : string) :
  has_char "{" pre = false ->
  PyStr.replace_from (braced d) new (pre ++ rest) 0
  = (pre ++ PyStr.replace_from (braced d) new rest 0)%string.
Proof. apply replace_from_copy. Qed.

Lemma replace_braced_hit (d new rest : string) :
  PyStr.replace_from (braced d) new (braced d ++ rest) 0
  = (new ++ PyStr.replace_from (braced d) new rest 0)%string.
Proof. apply (replace_from_hit "{" (d ++ "}") new rest). Qed.

Lemma replace_braced_literal (d new s : string) :
  has_char "{" s = false -> PyStr.replace_from (braced d) new s 0 = s.
Proof. apply replace_from_literal. Qed.

Section TemplateFacts.
Context {rt : PyRuntime}.

Lemma resolve_path_filled segs : forall t0 raws,
  well_formed segs -> NoDup (map fst segs) ->
  has_char "{" t0 = false ->
  List.length raws = List.length segs ->
  Forall (fun x => has_char "{" x = false) (path_texts (map fst segs) raws) ->
  resolve_path (map fst segs) raws (template t0 segs)
  = filled t0 segs (path_texts (map fst segs) raws).
Proof.
  induction segs as [| [d t] rest IH]; intros t0 raws Hwf Hnd Ht0 Hlen Hx.
  - now destruct raws.
  - destruct raws as [| raw raws]; [discriminate |].
    inversion Hwf as [| ? ? [Hd Ht] Hwf']; subst. simpl in Hd, Ht.
    inversion Hnd as [| ? ? Hnot Hnd']; subst.
    simpl in Hx. inversion Hx as [| ? ? Hx1 Hx']; subst.
    change (resolve_path (map fst rest) raws
              (PyStr.replace (t0 ++ braced d ++ template t rest)
                 (braced d) (path_text d raw))
            = (t0 ++ path_text d raw
                  ++ filled t rest (path_texts (map fst rest) raws))%string).
    assert (Hrep : PyStr.replace (t0 ++ braced d ++ template t rest)
                     (braced d) (path_text d raw)
                   = template (t0 ++ path_text d raw ++ t) rest).
    { rewrite replace_braced, (replace_braced_copy d _ t0) by exact Ht0.
      rewrite replace_braced_hit.
      rewrite (replace_from_other d _ rest t Hd Ht Hwf' Hnot).
      now rewrite !template_app. }
    rewrite Hrep.
    rewrite IH; try assumption.
    + now rewrite !filled_app.
    + rewrite !has_char_app. now rewrite Ht0, Hx1, Ht.
    + simpl in Hlen. lia.
Qed.

Lemma find_defs_template segs : forall t0,
  well_formed segs -> has_char "{" t0 = false ->
  PyStr.find_defs (template t0 segs) = map fst segs.
Proof.
  induction segs as [| [d t] rest IH]; intros t0 Hwf Ht0.
  - now apply find_defs_literal.
  - inversion Hwf as [| ? ? [Hd Ht] Hwf']; subst. simpl in Hd, Ht.
    change (PyStr.find_defs (t0 ++ braced d ++ template t rest)
            = d :: map fst rest).
    rewrite find_defs_app_placeholder by exact Hd.
    rewrite (find_defs_literal t0 Ht0). simpl. f_equal. now apply IH.
Qed.

Lemma resolve_path_more defs : forall raws more tempPath,
  List.length raws = List.length defs ->
  resolve_path defs (raws ++ more) tempPath = resolve_path defs raws tempPath.
Proof.
  induction defs as [| d defs IH]; intros raws more tempPath Hlen.
  - destruct raws; [| discriminate]. simpl. now destruct more.
  - destruct raws as [| raw raws]; [discriminate |].
    simpl. apply IH. simpl in Hlen. lia.
Qed.

End TemplateFacts.

Section TemplateActions.
Context {rt : PyRuntime}.

Lemma dyn_args_of_template vt path values cb raws more :
  List.length raws = List.length (PyStr.find_defs path) ->
  exists tail,
    dyn_args_of (oscAction vt path values) (cb :: raws ++ more) = raws ++ tail.
Proof.
  intros Hlen. unfold dyn_args_of.
  assert (He : (expected_total (oscAction vt path values) - 1
                = List.length raws
                  + List.length (flat_map PyStr.find_defs values))%nat)
    by (simpl; lia).
  rewrite He.
  change (skipn 1 (cb :: raws ++ more)) with (raws ++ more).
  rewrite firstn_app_2. now eexists.
Qed.

Lemma action_path_template vt t0 segs values cb raws more :
  well_formed segs -> NoDup (map fst segs) ->
  has_char "{" t0 = false ->
  List.length raws = List.length segs ->
  Forall (fun x => has_char "{" x = false) (path_texts (map fst segs) raws) ->
  action_path (oscAction vt (template t0 segs) values) (cb :: raws ++ more)
  = filled t0 segs (path_texts (map fst segs) raws).
Proof.
  intros Hwf Hnd Ht0 Hlen Hx.
  pose proof (find_defs_template segs t0 Hwf Ht0) as Hdefs.
  destruct (dyn_args_of_template vt (template t0 segs) values cb raws more)
    as (tail & Htail).
  { now rewrite Hdefs, length_map. }
  unfold action_path. rewrite Htail.
  change (path_defs (oscAction vt (template t0 segs) values))
    with (PyStr.find_defs (template t0 segs)).
  change (act_path (oscAction vt (template t0 segs) values))
    with (template t0 segs).
  rewrite Hdefs.
  rewrite resolve_path_more by now rewrite length_map.
  now apply resolve_path_filled.
Qed.

Lemma action_path_repeated vt t0 d t1 t2 values cb raw1 raw2 more :
  is_descriptor d = true ->
  has_char "{" t0 = false -> has_char "{" t1 = false ->
  has_char "{" t2 = false ->
  has_char "{" (path_text d raw1) = false ->
  PyStr.find_defs (t0 ++ braced d ++ t1 ++ braced d ++ t2) = [d; d]
  /\ action_path
       (oscAction vt (t0 ++ braced d ++ t1 ++ braced d ++ t2) values)
       (cb :: raw1 :: raw2 :: more)
     = (t0 ++ path_text d raw1 ++ t1 ++ path_text d raw1 ++ t2)%string.
Proof.
  intros Hd H0 H1 H2 Hx.
  assert (Hdefs : PyStr.find_defs (t0 ++ braced d ++ t1 ++ braced d ++ t2)
                  = [d; d]).
  { rewrite find_defs_app_placeholder by exact Hd.
    rewrite find_defs_app_placeholder by exact Hd.
    now rewrite !find_defs_literal. }
  split; [exact Hdefs |].
  destruct (dyn_args_of_template vt (t0 ++ braced d ++ t1 ++ braced d ++ t2)
              values cb [raw1; raw2] more) as (tail & Htail).
  { now rewrite Hdefs. }
  unfold action_path.
  change (cb :: raw1 :: raw2 :: more) with (cb :: [raw1; raw2] ++ more).
  rewrite Htail.
  change (path_defs (oscAction vt (t0 ++ braced d ++ t1 ++ braced d ++ t2)
                       values))
    with (PyStr.find_defs (t0 ++ braced d ++ t1 ++ braced d ++ t2)).
  rewrite Hdefs.
  change (act_path (oscAction vt (t0 ++ braced d ++ t1 ++ braced d ++ t2)
                      values))
    with (t0 ++ braced d ++ t1 ++ braced d ++ t2)%string.
  rewrite resolve_path_more by reflexivity.
  change (resolve_path [d; d] [raw1; raw2]
            (t0 ++ braced d ++ t1 ++ braced d ++ t2))
    with (PyStr.replace
            (PyStr.replace (t0 ++ braced d ++ t1 ++ braced d ++ t2)
               (braced d) (path_text d raw1))
            (braced d) (path_text d raw2)).
  rewrite !replace_braced.
  rewrite (replace_braced_copy d _ t0) by exact H0.
  rewrite replace_braced_hit.
  rewrite (replace_braced_copy d _ t1) by exact H1.
  rewrite replace_braced_hit.
  rewrite (replace_braced_literal d _ t2 H2).
  apply replace_braced_literal.
  rewrite !has_char_app. now rewrite H0, H1, H2, Hx.
Qed.

End TemplateActions.

(** X12.  Path placeholders are filled in place.  For a path template made
    of literal text without opening braces and of pairwise different
    placeholders, an invocation with one argument per placeholder resolves
    to the template with each placeholder replaced by the text of its
    argument, in order, provided these texts hold no opening brace; and the
    action expects exactly these arguments for its path. *)
Theorem placeholders_filled_in_place {rt : PyRuntime} (vt : valtype)
  (t0 : string) (segs : list (string * string)) (values : list string)
  (cb : pyval) (raws more : list pyval) :
  well_formed segs -> NoDup (map fst segs) ->
  has_char "{" t0 = false ->
  List.length raws = List.length segs ->
  Forall (fun x => has_char "{" x = false) (path_texts (map fst segs) raws) ->
  path_defs (oscAction vt (template t0 segs) values) = map fst segs
  /\ action_path (oscAction vt (template t0 segs) values) (cb :: raws ++ more)
     = filled t0 segs (path_texts (map fst segs) raws).
Proof.
  intros Hwf Hnd Ht0 Hlen Hx. split.
  - now apply find_defs_template.
  - now apply action_path_template.
Qed.

(** X12 on a path with an integer and a string placeholder. *)
Lemma placeholders_filled_in_place_witness :
  template "/layer/" [("I, Layer, 1, 1, 8", "/clip/"); ("S, Clip, a", "/go")]
  = "/layer/{I, Layer, 1, 1, 8}/clip/{S, Clip, a}/go"
  /\ action_path
       (oscAction (VtEnum OSCTypes.Bare)
          "/layer/{I, Layer, 1, 1, 8}/clip/{S, Clip, a}/go" [])
       [PyFunc 0; PyInt 3; PyStr "intro"]
     = "/layer/3/clip/intro/go".
Proof.
  split; [reflexivity |].
  refine (proj2 (@placeholders_filled_in_place decimal_runtime
                   (VtEnum OSCTypes.Bare) "/layer/"
                   [("I, Layer, 1, 1, 8", "/clip/"); ("S, Clip, a", "/go")]
                   [] (PyFunc 0) [PyInt 3; PyStr "intro"] [] _ _ _ _ _)).
  - repeat constructor.
  - repeat constructor; simpl; intuition discriminate.
  - reflexivity.
  - reflexivity.
  - repeat constructor.
Defined.

(** X13.  A placeholder that occurs twice in a path is counted twice but
    filled once: the action expects two arguments for it, both occurrences
    receive the text of the first one, and the second argument has no
    effect on the address. *)
Theorem repeated_placeholder_takes_first_argument {rt : PyRuntime}
  (vt : valtype) (t0 d t1 t2 : string) (values : list string)
  (cb raw1 raw2 : pyval) (more : list pyval) :
  is_descriptor d = true ->
  has_char "{" t0 = false -> has_char "{" t1 = false ->
  has_char "{" t2 = false ->
  has_char "{" (path_text d raw1) = false ->
  path_defs (oscAction vt (t0 ++ braced d ++ t1 ++ braced d ++ t2) values)
  = [d; d]
  /\ action_path
       (oscAction vt (t0 ++ braced d ++ t1 ++ braced d ++ t2) values)
       (cb :: raw1 :: raw2 :: more)
     = (t0 ++ path_text d raw1 ++ t1 ++ path_text d raw1 ++ t2)%string.
Proof. apply action_path_repeated. Qed.

(** X13 on a path that names a layer twice. *)
Lemma repeated_placeholder_witness :
  action_path
    (oscAction (VtEnum OSCTypes.Bare) "/a/{I, N, 0, 0, 9}/b/{I, N, 0, 0, 9}" [])
    [PyFunc 0; PyInt 1; PyInt 2]
  = "/a/1/b/1".
Proof.
  exact (proj2 (@repeated_placeholder_takes_first_argument decimal_runtime
                  (VtEnum OSCTypes.Bare) "/a/" "I, N, 0, 0, 9" "/b/" "" []
                  (PyFunc 0) (PyInt 1) (PyInt 2) []
                  eq_refl eq_refl eq_refl eq_refl eq_refl)).
Defined.


(* ================================================================== *)
(** ** The listener: retries, shutdown and restart *)

Section ListenerFacts.
Import Lifecycle.

Lemma nth_error_set_nth {A} (l : list A) : forall n x y,
  nth_error l n = Some y -> nth_error (set_nth n x l) n = Some x.
Proof.
  induction l as [| a l IH]; intros [| n] x y H; try discriminate.
  - reflexivity.
  - simpl. now apply (IH n x y).
Qed.

Lemma length_set_nth {A} (l : list A) : forall n x,
  List.length (set_nth n x l) = List.length l.
Proof.
  induction l as [| a l IH]; intros [| n] x; simpl; try reflexivity.
  now rewrite IH.
Qed.

Lemma turns_of_when_bound tid oks : forall s,
  listener_enabled s = true -> bg_run (turns_of tid oks) s = s.
Proof.
  induction oks as [| ok oks IH]; intros s H; [reflexivity |].
  change (bg_run (turns_of tid (ok :: oks)) s)
    with (bg_run (turns_of tid oks) (bg_exec (MainLoopTurn tid ok) s)).
  rewrite (turn_when_bound tid ok s H). apply IH, H.
Qed.

(** A turn of a running loop while the listener is wanted and not bound. *)
Lemma turn_binds tid w ok s :
  nth_error (workers s) tid = Some w -> running w = true ->
  should_run s = true -> listener_enabled s = false ->
  let s' := bg_exec (MainLoopTurn tid ok) s in
  bind_attempts s' = bind_attempts s ++ [(listen_ip w, listen_port w, ok)]
  /\ listener_enabled s' = ok
  /\ should_run s' = true
  /\ workers s' = workers s
  /\ osc_server s' = Some (listen_ip w, listen_port w)
  /\ (ok = true -> transport s' = Some (List.length (bind_attempts s))).
Proof.
  intros Hw Hr Hs Hl. simpl. rewrite Hw, Hr.
  unfold main_loop_turn. rewrite Hs, Hl. simpl.
  unfold _start_listener. simpl. rewrite Hl.
  destruct ok; simpl; repeat split; try assumption; discriminate.
Qed.

(** The binds of a running loop: one per turn up to the first success. *)
Lemma turns_until_bound tid w oks : forall s,
  nth_error (workers s) tid = Some w -> running w = true ->
  should_run s = true -> listener_enabled s = false ->
  bind_attempts (bg_run (turns_of tid oks) s)
  = bind_attempts s
    ++ map (fun ok => (listen_ip w, listen_port w, ok))
         (through_first_success oks)
  /\ listener_enabled (bg_run (turns_of tid oks) s) = existsb id oks
  /\ (existsb id oks = true ->
      osc_server (bg_run (turns_of tid oks) s)
      = Some (listen_ip w, listen_port w)
      /\ exists h, transport (bg_run (turns_of tid oks) s) = Some h).
Proof.
  induction oks as [| ok oks IH]; intros s Hw Hr Hs Hl.
  - simpl. rewrite app_nil_r.
    split; [reflexivity | split; [exact Hl | discriminate]].
  - change (bg_run (turns_of tid (ok :: oks)) s)
      with (bg_run (turns_of tid oks) (bg_exec (MainLoopTurn tid ok) s)).
    destruct (turn_binds tid w ok s Hw Hr Hs Hl)
      as (Hb & Hl' & Hs' & Hws & Hsrv & Htr).
    destruct ok.
    + rewrite turns_of_when_bound by exact Hl'.
      rewrite Hb, Hl'. split; [reflexivity |]. split; [reflexivity |].
      intros _. split; [exact Hsrv |]. eexists. now apply Htr.
    + destruct (IH (bg_exec (MainLoopTurn tid false) s))
        as (Hb2 & Hl2 & Hrest); try assumption.
      { now rewrite Hws. }
      rewrite Hb2, Hb, Hl2. rewrite <- app_assoc.
      split; [reflexivity |]. split; [reflexivity |]. exact Hrest.
Qed.

(** [disable] when the loop runs and its [_shutdown] completes in time. *)
Lemma disable_in_time env tid t s :
  should_run s = true -> loop s = Some tid -> is_running tid s = true ->
  thread s = Some t -> answers_in_time env = true ->
  let s' := disable env s in
  should_run s' = false /\ listener_enabled s' = false
  /\ transport s' = None /\ osc_server s' = None
  /\ loop s' = None /\ thread s' = None
  /\ is_running tid s' = false
  /\ bind_attempts s' = bind_attempts s
  /\ List.length (workers s') = List.length (workers s).
Proof.
  intros Hs Hl Hr Ht Henv. unfold answers_in_time in Henv.
  destruct (done_after env) as [d |] eqn:Hd; [| discriminate].
  unfold disable. rewrite Hs. simpl negb. cbv iota.
  simpl loop. rewrite Hl.
  assert (Hr1 : is_running tid (set_should_run false s) = true) by exact Hr.
  rewrite Hr1, Hd, Henv.
  unfold is_running in Hr.
  destruct (nth_error (workers s) tid) as [w |] eqn:Hw; [| discriminate].
  unfold _shutdown.
  destruct (transport s) eqn:Htr; simpl; unfold is_running; simpl;
    rewrite ?Htr; simpl; rewrite Hw, Hr; unfold set_running; simpl;
    rewrite Hw; simpl; rewrite Ht; simpl;
    rewrite (nth_error_set_nth (workers s) tid _ w Hw), length_set_nth;
    repeat split; simpl; rewrite ?Htr; reflexivity.
Qed.


Lemma disable_again env s :
  should_run s = false -> disable env s = add_log AlreadyDisabled s.
Proof. intros H. unfold disable. now rewrite H. Qed.

(** A thread whose loop has stopped takes no further step. *)
Lemma stopped_thread_is_inert tid s ok :
  is_running tid s = false -> bg_exec (MainLoopTurn tid ok) s = s.
Proof.
  unfold is_running. intros H. simpl.
  destruct (nth_error (workers s) tid) as [w |]; [| reflexivity].
  now rewrite H.
Qed.

(** The thread a new [enable] starts, once it has entered its loop. *)
Lemma enable_then_start ip p retry s :
  should_run s = false ->
  let tid := List.length (workers s) in
  let s' := bg_exec (StartLoop tid) (enable ip p retry s) in
  nth_error (workers s') tid
  = Some {| listen_ip := ip; listen_port := p; retry_interval := retry;
            running := true |}
  /\ should_run s' = true
  /\ listener_enabled s' = listener_enabled s
  /\ bind_attempts s' = bind_attempts s
  /\ osc_server s' = osc_server s
  /\ transport s' = transport s.
Proof.
  intros H. unfold enable. rewrite H. simpl.
  set (w := {| listen_ip := ip; listen_port := p; retry_interval := retry;
               running := false |}).
  assert (Hn : nth_error (workers s ++ [w]) (List.length (workers s)) = Some w).
  { rewrite nth_error_app2 by lia. now rewrite Nat.sub_diag. }
  rewrite Hn. unfold set_running. simpl. rewrite Hn. simpl.
  rewrite (nth_error_set_nth _ _ _ w Hn). repeat split.
Qed.

(** [disable] when its [_shutdown] never runs. *)
Lemma disable_unanswered env s :
  should_run s = true -> done_after env = None ->
  let s' := disable env s in
  should_run s' = false
  /\ listener_enabled s' = listener_enabled s
  /\ transport s' = transport s
  /\ osc_server s' = osc_server s
  /\ bind_attempts s' = bind_attempts s
  /\ workers s' = workers s.
Proof.
  intros Hs Hd. unfold disable. rewrite Hs, Hd. simpl negb. cbv iota.
  assert (Hc : forall o : option nat,
             match o with Some _ => @None Z | None => None end = None)
    by (now intros []).
  set (scheduled := match loop (set_should_run false s) with
                    | Some tid =>
                        if is_running tid (set_should_run false s)
                        then Some tid else None
                    | None => None
                    end).
  rewrite (Hc scheduled).
  assert (Hm : forall (o : option nat) (x : sposc),
             match o with Some _ => x | None => x end = x)
    by (now intros []).
  rewrite Hm. simpl. destruct (thread s); repeat split.
Qed.

End ListenerFacts.

(** X14.  The listener retries until it is bound, and then stops trying.
    On a new object, after [enable] and the start of its thread, the loop
    attempts one bind per turn, each on the address [enable] was given, up
    to and including the first that succeeds; the listener is enabled
    exactly when one did, and it then holds the server and a transport. *)
Theorem listener_binds_until_first_success (ip : string) (p retry : Z)
  (oks : list bool) :
  Lifecycle.bind_attempts
    (Lifecycle.bg_run (Lifecycle.StartLoop 0 :: Lifecycle.turns_of 0 oks)
       (Lifecycle.enable ip p retry Lifecycle.init))
  = map (fun ok => (ip, p, ok)) (Lifecycle.through_first_success oks)
  /\ Lifecycle.listener_enabled
       (Lifecycle.bg_run (Lifecycle.StartLoop 0 :: Lifecycle.turns_of 0 oks)
          (Lifecycle.enable ip p retry Lifecycle.init))
     = existsb id oks
  /\ (existsb id oks = true ->
      Lifecycle.osc_server
        (Lifecycle.bg_run (Lifecycle.StartLoop 0 :: Lifecycle.turns_of 0 oks)
           (Lifecycle.enable ip p retry Lifecycle.init))
      = Some (ip, p)
      /\ exists h,
           Lifecycle.transport
             (Lifecycle.bg_run
                (Lifecycle.StartLoop 0 :: Lifecycle.turns_of 0 oks)
                (Lifecycle.enable ip p retry Lifecycle.init))
           = Some h).
Proof.
  change (Lifecycle.bg_run (Lifecycle.StartLoop 0 :: Lifecycle.turns_of 0 oks)
            (Lifecycle.enable ip p retry Lifecycle.init))
    with (Lifecycle.bg_run (Lifecycle.turns_of 0 oks)
            (Lifecycle.bg_exec (Lifecycle.StartLoop 0)
               (Lifecycle.enable ip p retry Lifecycle.init))).
  destruct (enable_then_start ip p retry Lifecycle.init eq_refl)
    as (Hw & Hs & Hl & Hb & _).
  change (List.length (Lifecycle.workers Lifecycle.init)) with 0%nat
    in Hw, Hs, Hl, Hb.
  destruct (turns_until_bound 0 _ oks _ Hw eq_refl Hs Hl) as (H1 & H2 & H3).
  split; [| split]; [| exact H2 | exact H3].
  rewrite H1. now rewrite Hb.
Qed.

(** X15.  [disable] releases the listener when the loop answers in time.
    If the listener is enabled, its loop is running and the scheduled
    shutdown completes within the 2 s wait, then after [disable] the
    transport is closed and dropped, the server reference and the
    enabled flag are cleared, loop and thread are forgotten, and a further
    turn of the thread's main loop changes nothing.  A second [disable]
    only logs. *)
Theorem disable_releases_listener (env env' : Lifecycle.scheduler)
  (tid t : nat) (s : Lifecycle.sposc) :
  Lifecycle.should_run s = true -> Lifecycle.loop s = Some tid ->
  Lifecycle.is_running tid s = true -> Lifecycle.thread s = Some t ->
  Lifecycle.answers_in_time env = true ->
  (Lifecycle.should_run (Lifecycle.disable env s) = false
   /\ Lifecycle.listener_enabled (Lifecycle.disable env s) = false
   /\ Lifecycle.transport (Lifecycle.disable env s) = None
   /\ Lifecycle.osc_server (Lifecycle.disable env s) = None
   /\ Lifecycle.loop (Lifecycle.disable env s) = None
   /\ Lifecycle.thread (Lifecycle.disable env s) = None)
  /\ (forall ok,
        Lifecycle.bg_exec (Lifecycle.MainLoopTurn tid ok)
          (Lifecycle.disable env s)
        = Lifecycle.disable env s)
  /\ Lifecycle.disable env' (Lifecycle.disable env s)
     = Lifecycle.add_log Lifecycle.AlreadyDisabled (Lifecycle.disable env s).
Proof.
  intros Hs Hl Hr Ht Henv.
  destruct (disable_in_time env tid t s Hs Hl Hr Ht Henv)
    as (H1 & H2 & H3 & H4 & H5 & H6 & H7 & _).
  split; [now repeat split |].
  split; [intros ok; now apply stopped_thread_is_inert |].
  now apply disable_again.
Qed.

(** X15 on a listener that was bound at its first attempt, with a loop
    that completes the shutdown after 10 ms. *)
Lemma disable_releases_listener_witness :
  Lifecycle.transport
    (Lifecycle.bg_run [Lifecycle.StartLoop 0; Lifecycle.MainLoopTurn 0 true]
       (Lifecycle.enable "127.0.0.1" 9000 5 Lifecycle.init))
  = Some 0%nat
  /\ Lifecycle.transport
       (Lifecycle.disable
          {| Lifecycle.done_after := Some 10; Lifecycle.exit_after := Some 1 |}
          (Lifecycle.bg_run
             [Lifecycle.StartLoop 0; Lifecycle.MainLoopTurn 0 true]
             (Lifecycle.enable "127.0.0.1" 9000 5 Lifecycle.init)))
     = None.
Proof.
  split; [reflexivity |].
  exact (proj1 (proj2 (proj2 (proj1
           (disable_releases_listener
              {| Lifecycle.done_after := Some 10;
                 Lifecycle.exit_after := Some 1 |}
              Lifecycle.stuck 0 0
              (Lifecycle.bg_run
                 [Lifecycle.StartLoop 0; Lifecycle.MainLoopTurn 0 true]
                 (Lifecycle.enable "127.0.0.1" 9000 5 Lifecycle.init))
              eq_refl eq_refl eq_refl eq_refl eq_refl))))).
Defined.

(** X16.  [restart] moves the listener to the new address when the loop
    answers in time.  From a listener whose loop is running and completes
    the shutdown within the wait, the restart thread stops it and starts a
    new thread; that thread binds on the new address only, one attempt per
    turn up to the first success, and the binds of the old thread are all
    there were before. *)
Theorem restart_binds_new_address (env : Lifecycle.scheduler)
  (tid t : nat) (s : Lifecycle.sposc) (ip : string) (p retry : Z)
  (oks : list bool) :
  Lifecycle.should_run s = true -> Lifecycle.loop s = Some tid ->
  Lifecycle.is_running tid s = true -> Lifecycle.thread s = Some t ->
  Lifecycle.answers_in_time env = true ->
  Lifecycle.bind_attempts
    (Lifecycle.bg_run
       (Lifecycle.StartLoop (List.length (Lifecycle.workers s))
        :: Lifecycle.turns_of (List.length (Lifecycle.workers s)) oks)
       (Lifecycle.delayed_restart env ip p retry s))
  = Lifecycle.bind_attempts s
    ++ map (fun ok => (ip, p, ok)) (Lifecycle.through_first_success oks)
  /\ Lifecycle.listener_enabled
       (Lifecycle.bg_run
          (Lifecycle.StartLoop (List.length (Lifecycle.workers s))
           :: Lifecycle.turns_of (List.length (Lifecycle.workers s)) oks)
          (Lifecycle.delayed_restart env ip p retry s))
     = existsb id oks
  /\ (existsb id oks = true ->
      Lifecycle.osc_server
        (Lifecycle.bg_run
           (Lifecycle.StartLoop (List.length (Lifecycle.workers s))
            :: Lifecycle.turns_of (List.length (Lifecycle.workers s)) oks)
           (Lifecycle.delayed_restart env ip p retry s))
      = Some (ip, p)).
Proof.
  intros Hs Hl Hr Ht Henv.
  destruct (disable_in_time env tid t s Hs Hl Hr Ht Henv)
    as (H1 & H2 & _ & _ & _ & _ & _ & Hb & Hlen).
  set (s1 := Lifecycle.block Lifecycle.restart_pause (Lifecycle.disable env s)).
  assert (Hs1 : Lifecycle.should_run s1 = false) by exact H1.
  destruct (enable_then_start ip p retry s1 Hs1)
    as (Hw & Hrun & Hle & Hbs & _).
  change (List.length (Lifecycle.workers s1))
    with (List.length (Lifecycle.workers (Lifecycle.disable env s))) in Hw, Hrun, Hle, Hbs.
  rewrite Hlen in Hw, Hrun, Hle, Hbs.
  set (n := List.length (Lifecycle.workers s)) in *.
  change (Lifecycle.bg_run (Lifecycle.StartLoop n :: Lifecycle.turns_of n oks)
            (Lifecycle.delayed_restart env ip p retry s))
    with (Lifecycle.bg_run (Lifecycle.turns_of n oks)
            (Lifecycle.bg_exec (Lifecycle.StartLoop n)
               (Lifecycle.enable ip p retry s1))).
  destruct (turns_until_bound n _ oks _ Hw eq_refl Hrun)
    as (K1 & K2 & K3).
  { rewrite Hle. exact H2. }
  split; [| split]; [| exact K2 | intros Ho; now apply K3].
  rewrite K1, Hbs. simpl. now rewrite Hb.
Qed.

(** X16: a listener bound on port 9000 is restarted on port 9100. *)
Lemma restart_binds_new_address_witness :
  Lifecycle.bind_attempts
    (Lifecycle.bg_run [Lifecycle.StartLoop 1; Lifecycle.MainLoopTurn 1 true]
       (Lifecycle.delayed_restart
          {| Lifecycle.done_after := Some 10; Lifecycle.exit_after := Some 1 |}
          "127.0.0.1" 9100 5
          (Lifecycle.bg_run
             [Lifecycle.StartLoop 0; Lifecycle.MainLoopTurn 0 true]
             (Lifecycle.enable "127.0.0.1" 9000 5 Lifecycle.init))))
  = [("127.0.0.1", 9000, true); ("127.0.0.1", 9100, true)].
Proof.
  exact (proj1
           (restart_binds_new_address
              {| Lifecycle.done_after := Some 10;
                 Lifecycle.exit_after := Some 1 |}
              0 0
              (Lifecycle.bg_run
                 [Lifecycle.StartLoop 0; Lifecycle.MainLoopTurn 0 true]
                 (Lifecycle.enable "127.0.0.1" 9000 5 Lifecycle.init))
              "127.0.0.1" 9100 5 [true]
              eq_refl eq_refl eq_refl eq_refl eq_refl)).
Defined.

(** X17.  [restart] keeps the old binding when the shutdown never runs.
    If the listener is bound and the loop never runs the scheduled
    shutdown, [disable] gives up after its waits and leaves the enabled
    flag, the server and the transport as they were; the thread that the
    following [enable] starts then finds the listener enabled and never
    binds: the new address does not take effect. *)
Theorem restart_keeps_binding_when_shutdown_hangs
  (env : Lifecycle.scheduler) (s : Lifecycle.sposc) (ip : string)
  (p retry : Z) (oks : list bool) :
  Lifecycle.should_run s = true -> Lifecycle.listener_enabled s = true ->
  Lifecycle.done_after env = None ->
  Lifecycle.bind_attempts
    (Lifecycle.bg_run
       (Lifecycle.StartLoop (List.length (Lifecycle.workers s))
        :: Lifecycle.turns_of (List.length (Lifecycle.workers s)) oks)
       (Lifecycle.delayed_restart env ip p retry s))
  = Lifecycle.bind_attempts s
  /\ Lifecycle.osc_server
       (Lifecycle.bg_run
          (Lifecycle.StartLoop (List.length (Lifecycle.workers s))
           :: Lifecycle.turns_of (List.length (Lifecycle.workers s)) oks)
          (Lifecycle.delayed_restart env ip p retry s))
     = Lifecycle.osc_server s
  /\ Lifecycle.transport
       (Lifecycle.bg_run
          (Lifecycle.StartLoop (List.length (Lifecycle.workers s))
           :: Lifecycle.turns_of (List.length (Lifecycle.workers s)) oks)
          (Lifecycle.delayed_restart env ip p retry s))
     = Lifecycle.transport s.
Proof.
  intros Hs Hl Hd.
  destruct (disable_unanswered env s Hs Hd)
    as (H1 & H2 & H3 & H4 & H5 & H6).
  set (s1 := Lifecycle.block Lifecycle.restart_pause (Lifecycle.disable env s)).
  assert (Hs1 : Lifecycle.should_run s1 = false) by exact H1.
  destruct (enable_then_start ip p retry s1 Hs1)
    as (_ & _ & Hle & Hbs & Hsrv & Htr).
  change (List.length (Lifecycle.workers s1))
    with (List.length (Lifecycle.workers (Lifecycle.disable env s)))
    in Hle, Hbs, Hsrv, Htr.
  rewrite H6 in Hle, Hbs, Hsrv, Htr.
  set (n := List.length (Lifecycle.workers s)) in *.
  change (Lifecycle.bg_run (Lifecycle.StartLoop n :: Lifecycle.turns_of n oks)
            (Lifecycle.delayed_restart env ip p retry s))
    with (Lifecycle.bg_run (Lifecycle.turns_of n oks)
            (Lifecycle.bg_exec (Lifecycle.StartLoop n)
               (Lifecycle.enable ip p retry s1))).
  rewrite turns_of_when_bound.
  - rewrite Hbs, Hsrv, Htr. simpl. now rewrite H3, H4, H5.
  - rewrite Hle. simpl. now rewrite H2.
Qed.

(** X17: the restart of a bound listener on port 9100 against a loop that
    never answers makes no bind, whatever the turns of the new thread. *)
Lemma restart_keeps_binding_witness :
  Lifecycle.bind_attempts
    (Lifecycle.bg_run
       (Lifecycle.StartLoop 1 :: Lifecycle.turns_of 1 [true; true])
       (Lifecycle.delayed_restart Lifecycle.stuck "127.0.0.1" 9100 5
          (Lifecycle.bg_run
             [Lifecycle.StartLoop 0; Lifecycle.MainLoopTurn 0 true]
             (Lifecycle.enable "127.0.0.1" 9000 5 Lifecycle.init))))
  = [("127.0.0.1", 9000, true)].
Proof.
  exact (proj1
           (restart_keeps_binding_when_shutdown_hangs Lifecycle.stuck
              (Lifecycle.bg_run
                 [Lifecycle.StartLoop 0; Lifecycle.MainLoopTurn 0 true]
                 (Lifecycle.enable "127.0.0.1" 9000 5 Lifecycle.init))
              "127.0.0.1" 9100 5 [true; true] eq_refl eq_refl eq_refl)).
Defined.

(** A shutdown that runs only after [disable] has given up stops no loop,
    and after a restart it stops the loop of the new thread: the one
    [self._loop] names by then. *)
Example late_shutdown_stops_the_current_loop :
  Lifecycle.is_running 0
    (Lifecycle.bg_exec (Lifecycle.RunShutdown 0)
       (Lifecycle.disable Lifecycle.stuck
          (Lifecycle.bg_run
             [Lifecycle.StartLoop 0; Lifecycle.MainLoopTurn 0 true]
             (Lifecycle.enable "127.0.0.1" 9000 5 Lifecycle.init))))
  = true
  /\ Lifecycle.transport
       (Lifecycle.bg_exec (Lifecycle.RunShutdown 0)
          (Lifecycle.disable Lifecycle.stuck
             (Lifecycle.bg_run
                [Lifecycle.StartLoop 0; Lifecycle.MainLoopTurn 0 true]
                (Lifecycle.enable "127.0.0.1" 9000 5 Lifecycle.init))))
     = None
  /\ Lifecycle.is_running 1
       (Lifecycle.bg_run [Lifecycle.StartLoop 1; Lifecycle.RunShutdown 0]
          (Lifecycle.delayed_restart Lifecycle.stuck "127.0.0.1" 9100 5
             (Lifecycle.bg_run
                [Lifecycle.StartLoop 0; Lifecycle.MainLoopTurn 0 true]
                (Lifecycle.enable "127.0.0.1" 9000 5 Lifecycle.init))))
     = false.
Proof. repeat split. Qed.

(* ================================================================== *)
(** ** Descriptors and the parameters they register *)

Lemma split_nonempty (sep : ascii) (s : string) : PyStr.split sep s <> [].
Proof.
  destruct s as [| c s]; simpl; [discriminate |].
  destruct (Ascii.eqb c sep); [discriminate |].
  destruct (PyStr.split sep s); discriminate.
Qed.

(** Text without the separator is one field. *)
Lemma split_one (sep : ascii) (s : string) :
  has_char sep s = false -> PyStr.split sep s = [s].
Proof.
  induction s as [| c s IH]; [reflexivity |].
  simpl. intros H. apply orb_false_iff in H as [H1 H2].
  rewrite H1, (IH H2). reflexivity.
Qed.

(** The text up to the first separator is the first field. *)
Lemma split_first (sep : ascii) (a rest : string) :
  has_char sep a = false ->
  PyStr.split sep (a ++ String sep rest) = a :: PyStr.split sep rest.
Proof.
  induction a as [| c a IH]; intros H.
  - simpl. now rewrite Ascii.eqb_refl.
  - simpl in H. apply orb_false_iff in H as [H1 H2].
    simpl. rewrite H1, (IH H2). reflexivity.
Qed.

(** A blank before the first field does not count. *)
Lemma parts_of_blank (s : string) : parts_of (String " " s) = parts_of s.
Proof.
  unfold parts_of. simpl.
  destruct (PyStr.split "," s) as [| h t] eqn:Hs.
  - now apply split_nonempty in Hs.
  - reflexivity.
Qed.

Lemma parts_of_first (f rest : string) :
  has_char "," f = false ->
  parts_of (f ++ ", " ++ rest) = PyStr.strip f :: parts_of rest.
Proof.
  intros H. unfold parts_of at 1.
  change (f ++ ", " ++ rest)%string with (f ++ String "," (String " " rest))%string.
  rewrite (split_first "," f _ H). simpl map. f_equal.
  apply parts_of_blank.
Qed.

Lemma parts_of_descriptor_of (fields : list string) :
  fields <> [] -> Forall (fun f => is_field f = true) fields ->
  parts_of (descriptor_of fields) = fields.
Proof.
  induction fields as [| f rest IH]; intros Hne Hall; [congruence |].
  inversion Hall as [| ? ? Hf Hrest]; subst.
  unfold is_field in Hf. apply andb_true_iff in Hf as [Hc Hs].
  apply negb_true_iff in Hc. apply String.eqb_eq in Hs.
  destruct rest as [| g rest].
  - simpl. unfold parts_of. rewrite (split_one "," f Hc). simpl. now rewrite Hs.
  - change (descriptor_of (f :: g :: rest))
      with (f ++ ", " ++ descriptor_of (g :: rest))%string.
    rewrite (parts_of_first f _ Hc), Hs. f_equal.
    apply IH; [discriminate | exact Hrest].
Qed.

Lemma py_index_hit {A} (l : list A) (i : Z) (x : A) :
  0 <= i -> nth_error l (Z.to_nat i) = Some x -> py_index l i = Ok x.
Proof.
  intros Hi Hn. unfold py_index.
  assert (Hlt : (Z.to_nat i < List.length l)%nat)
    by (apply nth_error_Some; congruence).
  replace ((0 <=? i) && (i <? Z.of_nat (List.length l))) with true.
  - now rewrite Hn.
  - symmetry. apply andb_true_iff. split; [apply Z.leb_le | apply Z.ltb_lt]; lia.
Qed.

Section RegistrationFacts.
Context {rt : PyRuntime}.

(** Each descriptor leaves at most one trace: a parameter or an error. *)
Lemma register_one_at_most_one ddef evs :
  register_one ddef = Ok evs ->
  (List.length (params_of evs) + List.length (failures_of evs) <= 1)%nat.
Proof.
  unfold register_one.
  destruct (py_index (parts_of ddef) 0) as [pt | e0]; simpl; [| discriminate].
  destruct (py_index (parts_of ddef) 1) as [pn | e1]; simpl; [| discriminate].
  intros H. injection H as <-.
  destruct (register_body (parts_of ddef) pt pn) as [ps | e] eqn:Hb;
    [| simpl; lia].
  assert (Hlen : (List.length ps <= 1)%nat).
  { revert Hb. unfold register_body,
      add_action_param_int, add_action_param_float, add_action_param_string,
      add_action_param_IP, add_action_param_Array, add_action_param_Color,
      add_action_param_Bool.
    repeat match goal with
           | |- context [if ?b then _ else _] => destruct b
           | |- context [rbind ?r _] => destruct r; simpl
           end;
      intros H; try discriminate; injection H as <-; simpl; lia. }
  clear Hb. destruct ps as [| p [| q ps]]; simpl in *; lia.
Qed.

Lemma params_of_app e1 e2 : params_of (e1 ++ e2) = params_of e1 ++ params_of e2.
Proof.
  induction e1 as [| [p | d e] e1 IH]; simpl; [reflexivity | |]; now rewrite IH.
Qed.

Lemma failures_of_app e1 e2 :
  failures_of (e1 ++ e2) = failures_of e1 ++ failures_of e2.
Proof.
  induction e1 as [| [p | d e] e1 IH]; simpl; [reflexivity | |]; now rewrite IH.
Qed.

Lemma register_params_within defs :
  (List.length (params_of (fst (register_params defs)))
   + List.length (failures_of (fst (register_params defs)))
   <= List.length defs)%nat.
Proof.
  induction defs as [| d defs IH]; [simpl; lia |].
  simpl. destruct (register_one d) as [evs | e] eqn:Hd; [| simpl; lia].
  pose proof (register_one_at_most_one d evs Hd) as H1.
  destruct (register_params defs) as [evs' r]. simpl in *.
  rewrite params_of_app, failures_of_app, !length_app. lia.
Qed.

(** A descriptor without a comma has no name: [parts[1]] raises. *)
Lemma register_one_single_field ddef :
  has_char "," ddef = false -> register_one ddef = Raise IndexError.
Proof.
  intros H. unfold register_one, parts_of. now rewrite (split_one "," ddef H).
Qed.

Lemma register_params_app ds1 ds2 :
  snd (register_params ds1) = None ->
  register_params (ds1 ++ ds2)
  = (fst (register_params ds1) ++ fst (register_params ds2),
     snd (register_params ds2)).
Proof.
  induction ds1 as [| d ds1 IH]; intros H.
  - simpl. now destruct (register_params ds2).
  - simpl in *. destruct (register_one d) as [evs | e]; [| discriminate].
    destruct (register_params ds1) as [evs1 r1]. simpl in H. subst r1.
    rewrite (IH eq_refl). simpl. now rewrite app_assoc.
Qed.

End RegistrationFacts.

(** X18.  A descriptor is read back field by field: written as fields
    separated by a comma and a blank, where no field holds a comma or has
    white space around it, it splits into exactly these fields.  The blank
    after a comma is optional decoration, and an empty field stays a
    field. *)
Theorem descriptor_fields_are_recovered (fields : list string) :
  fields <> [] -> Forall (fun f => is_field f = true) fields ->
  parts_of (descriptor_of fields) = fields.
Proof. apply parts_of_descriptor_of. Qed.

(** X18 on a descriptor of the plugin. *)
Lemma descriptor_fields_witness :
  descriptor_of ["F"; "Level"; "50"; "0"; "100"; "%"]
  = "F, Level, 50, 0, 100, %"
  /\ parts_of "F, Level, 50, 0, 100, %"
     = ["F"; "Level"; "50"; "0"; "100"; "%"].
Proof.
  split; [reflexivity |].
  refine (descriptor_fields_are_recovered
            ["F"; "Level"; "50"; "0"; "100"; "%"] _ _).
  - discriminate.
  - repeat constructor.
Defined.

(** X19.  A Bool parameter starts ticked whatever its default says.  The
    default of a descriptor [B, name, default, ...] is passed through
    [bool(...)] as text, so every non-empty default, 0 and false included,
    registers the parameter with the default true, although the same text
    given as an argument of the action is read as false. *)
Theorem bool_parameter_defaults_to_on {rt : PyRuntime}
  (name default : string) (rest : list string) :
  Forall (fun f => is_field f = true) (name :: default :: rest) ->
  default <> ""%string ->
  register_one (descriptor_of ("B" :: name :: default :: rest))
  = Ok [Registered (BoolParameter name true)]
  /\ (PyStr.mem (PyStr.lower default) ["false"; "0"; "no"] = true ->
      bool_value (PyStr default) = false).
Proof.
  intros Hall Hne. split.
  - unfold register_one.
    rewrite parts_of_descriptor_of;
      [| discriminate | constructor; [reflexivity | exact Hall]].
    rewrite (py_index_hit _ 0 "B"%string) by (try reflexivity; lia).
    rewrite (py_index_hit _ 1 name) by (try reflexivity; lia).
    cbn [rbind]. unfold register_body.
    change (PyStr.mem "B" ["I"; "F"]) with false.
    change (String.eqb "B" "A") with false.
    change (String.eqb "B" "S") with false.
    change (String.eqb "B" "B") with true. cbv iota.
    rewrite (py_index_hit _ 2 default) by (try reflexivity; lia).
    cbn [rbind]. unfold add_action_param_Bool. cbn [rbind map py_truthy].
    destruct default; [congruence | reflexivity].
  - intros Hm. unfold bool_value. simpl py_str. rewrite Hm.
    apply andb_false_r.
Qed.

(** X19 on the Blackout action of the plugin: its check box starts ticked
    though its default is 0, and 0 as an argument means false. *)
Lemma bool_parameter_defaults_to_on_witness :
  register_one "B, Blackout, 0, 0;1, Off;On"
  = Ok [Registered (BoolParameter "Blackout" true)]
  /\ bool_value (PyStr "0") = false.
Proof.
  destruct (@bool_parameter_defaults_to_on decimal_runtime "Blackout" "0"
              ["0;1"; "Off;On"]) as [H1 H2].
  - repeat constructor.
  - discriminate.
  - split; [exact H1 | apply H2; reflexivity].
Defined.

(** X20.  A placeholder without a comma stops the registration with an
    exception.  Its name, [parts[1]], is read outside the [try], so the
    [IndexError] leaves [oscAction]: the parameters of the placeholders
    before it stay registered, those after it are never registered, and the
    caller of [oscAction] receives the exception. *)
Theorem nameless_placeholder_aborts_registration {rt : PyRuntime}
  (before after : list string) (ddef : string) :
  has_char "," ddef = false ->
  snd (register_params before) = None ->
  register_params (before ++ ddef :: after)
  = (fst (register_params before), Some IndexError).
Proof.
  intros Hd Hb. rewrite (register_params_app before _ Hb).
  simpl. rewrite (register_one_single_field ddef Hd). simpl.
  now rewrite app_nil_r.
Qed.

(** X20 on an action with the value placeholders [{I, Level, 0, 0, 9}],
    [{Fade}] and [{B, On, 1}]. *)
Lemma nameless_placeholder_witness :
  register_action
    (oscAction (VtEnum OSCTypes.Mixed) "/x"
       ["{I, Level, 0, 0, 9}"; "{Fade}"; "{B, On, 1}"])
  = ([Registered (IntParameter "Level" 0 0 9)], Some IndexError).
Proof.
  exact (@nameless_placeholder_aborts_registration decimal_runtime
           ["I, Level, 0, 0, 9"] ["B, On, 1"] "Fade" eq_refl eq_refl).
Defined.

(** X21.  Registration never adds more parameters than the callback reads:
    each placeholder leaves at most one parameter or one reported error, so
    an action has at most [expected_total - 1] parameters.  When it has
    fewer, because a placeholder has an unknown type or could not be
    registered, a host that passes the callback and one argument per
    parameter never gets through the arity guard: nothing is sent and the
    callback is not invoked. *)
Theorem registration_within_arity {rt : PyRuntime} (val_type : valtype)
  (path : string) (values : list string) (args : list pyval) (w : world) :
  (List.length
     (params_of (fst (register_action (oscAction val_type path values))))
   + List.length
       (failures_of (fst (register_action (oscAction val_type path values))))
   <= expected_total (oscAction val_type path values) - 1)%nat
  /\ ((List.length
         (params_of (fst (register_action (oscAction val_type path values))))
       < expected_total (oscAction val_type path values) - 1)%nat ->
      List.length args
      = S (List.length
             (params_of
                (fst (register_action (oscAction val_type path values))))) ->
      action_callback (oscAction val_type path values) args w
      = (Ok tt,
         log_to w [EvLogError
                     (NotEnoughArgs (List.length args)
                        (expected_total (oscAction val_type path values)))])).
Proof.
  split.
  - unfold register_action, all_defs.
    pose proof (register_params_within
                  (path_defs (oscAction val_type path values)
                   ++ value_defs (oscAction val_type path values))) as H.
    rewrite length_app in H. simpl in *. lia.
  - intros Hlt Hlen. apply action_callback_guard. lia.
Qed.

(** A placeholder of an unknown type is counted but adds no parameter and
    reports nothing: the action it belongs to cannot be invoked. *)
Example unknown_type_is_skipped_silently :
  register_action (oscAction (VtEnum OSCTypes.Int) "/x" ["{X, Speed, 1}"])
  = ([], None)
  /\ expected_total (oscAction (VtEnum OSCTypes.Int) "/x" ["{X, Speed, 1}"])
     = 2%nat.
Proof. split; reflexivity. Qed.

(** X22.  Every action of the plugin registers cleanly: no exception
    leaves the registration, no error is reported, and each action has
    exactly one parameter per placeholder, [expected_total - 1] in all, so
    that the arity guard lets the host's invocations through.  Every Bool
    parameter among them starts ticked. *)
Theorem plugin_actions_register_cleanly :
  Forall
    (fun entry =>
       snd (register_action (Madrix.action_of entry)) = None
       /\ failures_of (fst (register_action (Madrix.action_of entry))) = []
       /\ S (List.length
               (params_of (fst (register_action (Madrix.action_of entry)))))
          = expected_total (Madrix.action_of entry)
       /\ Forall (fun p => match p with
                           | BoolParameter _ default => default = true
                           | _ => True
                           end)
            (params_of (fst (register_action (Madrix.action_of entry)))))
    Madrix.actions
  /\ List.length Madrix.actions = 22%nat.
Proof.
  split; [| reflexivity].
  repeat (apply Forall_cons;
          [split; [reflexivity |]; split; [reflexivity |];
           split; [reflexivity |]; repeat constructor |]).
  apply Forall_nil.
Qed.

(* ================================================================== *)
(** ** From a placeholder to the wire *)

Section WireFacts.
Context {rt : PyRuntime}.

Lemma value_replacement_kinds parts raw v :
  value_replacement parts raw = Ok v ->
  (param_type_of parts = "I"%string -> exists z, v = PyInt z)
  /\ (param_type_of parts = "F"%string -> exists f, v = PyFloat f)
  /\ (param_type_of parts = "S"%string -> v = PyStr (py_str raw))
  /\ (param_type_of parts = "B"%string ->
      v = PyStr (if bool_value raw then "True" else "False")%string)
  /\ (param_type_of parts = "A"%string -> exists o, v = PyStr o).
Proof.
  unfold value_replacement. intros H.
  repeat split; intros Hk; rewrite Hk in H; simpl in H.
  - destruct (numeric_value parts raw) as [x |]; simpl in H; [| discriminate].
    destruct (float_trunc x) as [z |]; simpl in H; [| discriminate].
    injection H as <-. now exists z.
  - destruct (numeric_value parts raw) as [x |]; simpl in H; [| discriminate].
    injection H as <-. now exists x.
  - now injection H as <-.
  - injection H as <-. now destruct (bool_value raw).
  - destruct (array_value parts raw) as [o |]; simpl in H; [| discriminate].
    injection H as <-. now exists o.
Qed.

Lemma py_index_cases {A} (l : list A) (i : Z) (dflt : A) :
  (0 <= i < Z.of_nat (List.length l) ->
   py_index l i = Ok (nth (Z.to_nat i) l dflt))
  /\ (- Z.of_nat (List.length l) <= i < 0 ->
      py_index l i = Ok (nth (Z.to_nat (Z.of_nat (List.length l) + i)) l dflt))
  /\ (i < - Z.of_nat (List.length l) \/ Z.of_nat (List.length l) <= i ->
      py_index l i = Raise IndexError).
Proof.
  unfold py_index. repeat split; intros H.
  - replace ((0 <=? i) && (i <? Z.of_nat (List.length l))) with true
      by (symmetry; apply andb_true_iff;
          split; [apply Z.leb_le | apply Z.ltb_lt]; lia).
    rewrite (nth_error_nth' l dflt) by lia. reflexivity.
  - replace ((0 <=? i) && (i <? Z.of_nat (List.length l))) with false
      by (symmetry; apply andb_false_iff; left; apply Z.leb_gt; lia).
    replace ((- Z.of_nat (List.length l) <=? i) && (i <? 0)) with true
      by (symmetry; apply andb_true_iff;
          split; [apply Z.leb_le | apply Z.ltb_lt]; lia).
    rewrite (nth_error_nth' l dflt) by lia. reflexivity.
  - replace ((0 <=? i) && (i <? Z.of_nat (List.length l))) with false
      by (symmetry; apply andb_false_iff;
          destruct H; [left; apply Z.leb_gt | right; apply Z.ltb_ge]; lia).
    replace ((- Z.of_nat (List.length l) <=? i) && (i <? 0)) with false
      by (symmetry; apply andb_false_iff;
          destruct H; [left; apply Z.leb_gt | right; apply Z.ltb_ge]; lia).
    reflexivity.
Qed.

End WireFacts.

(** X23.  Matching kinds cross unchanged.  The value a placeholder of kind
    I, F, S or A resolves to is what the sender transmits under the type
    Int, Float, String and String: its conversion is the identity on it.
    A placeholder of kind B resolves to the text True or False, which the
    sender turns back into the boolean under the type Bool; a Python
    boolean handed to the sender directly is transmitted as false, since
    only the text True counts as true. *)
Theorem matching_kinds_cross_unchanged {rt : PyRuntime}
  (parts : list string) (raw v : pyval) :
  value_replacement parts raw = Ok v ->
  (param_type_of parts = "I"%string ->
   send_values_of (Some "i"%string) (PyList [v]) = Ok [v])
  /\ (param_type_of parts = "F"%string ->
      send_values_of (Some "f"%string) (PyList [v]) = Ok [v])
  /\ (param_type_of parts = "S"%string ->
      send_values_of (Some "s"%string) (PyList [v]) = Ok [v])
  /\ (param_type_of parts = "A"%string ->
      send_values_of (Some "s"%string) (PyList [v]) = Ok [v])
  /\ (param_type_of parts = "B"%string ->
      send_values_of (Some "B"%string) (PyList [v])
      = Ok [PyBool (bool_value raw)])
  /\ (forall b, send_values_of (Some "B"%string) (PyList [PyBool b])
                = Ok [PyBool false]).
Proof.
  intros H.
  destruct (value_replacement_kinds parts raw v H) as (HI & HF & HS & HB & HA).
  split; [| split; [| split; [| split; [| split]]]].
  - intros Hk. destruct (HI Hk) as (z & ->). reflexivity.
  - intros Hk. destruct (HF Hk) as (f & ->). reflexivity.
  - intros Hk. rewrite (HS Hk). reflexivity.
  - intros Hk. destruct (HA Hk) as (o & ->). reflexivity.
  - intros Hk. rewrite (HB Hk). now destruct (bool_value raw).
  - intros b. reflexivity.
Qed.

(** X23 for the check box of "Set Input AGC", ticked. *)
Lemma matching_kinds_witness :
  value_replacement (parts_of "B, AGC, 0, 0;1, Enable;Disable") (PyBool true)
  = Ok (PyStr "True")
  /\ send_values_of (Some "B") (PyList [PyStr "True"]) = Ok [PyBool true].
Proof.
  split; [reflexivity |].
  exact (proj1 (proj2 (proj2 (proj2 (proj2
           (@matching_kinds_cross_unchanged decimal_runtime
              (parts_of "B, AGC, 0, 0;1, Enable;Disable") (PyBool true)
              (PyStr "True") eq_refl))))) eq_refl).
Defined.

(** X24.  The packed colour can be taken apart again: shifting the result
    of the colour conversion right by 24, 16, 8 and 0 bits and masking with
    255 gives back the four channels, so that no channel spills into its
    neighbour. *)
Theorem rgba_channels_are_recoverable (r g b a : float) :
  exists packed R G B A : Z,
    rgb_floats_to_rgba_int (PyFloat r) (PyFloat g) (PyFloat b) (PyFloat a)
    = Ok packed
    /\ (channel (PyFloat r) = Ok R /\ channel (PyFloat g) = Ok G
        /\ channel (PyFloat b) = Ok B /\ channel (PyFloat a) = Ok A)
    /\ Z.land (Z.shiftr packed 24) 255 = R
    /\ Z.land (Z.shiftr packed 16) 255 = G
    /\ Z.land (Z.shiftr packed 8) 255 = B
    /\ Z.land packed 255 = A.
Proof.
  destruct (channel_float r) as (R & HR & HRb & _).
  destruct (channel_float g) as (G & HG & HGb & _).
  destruct (channel_float b) as (B & HB & HBb & _).
  destruct (channel_float a) as (A & HA & HAb & _).
  exists (pack_rgba R G B A), R, G, B, A.
  split; [unfold rgb_floats_to_rgba_int; now rewrite HR, HG, HB, HA |].
  split; [now repeat split |].
  rewrite (pack_rgba_sum R G B A HRb HGb HBb HAb).
  change 255 with (Z.ones 8).
  rewrite !Z.land_ones, !Z.shiftr_div_pow2 by lia.
  change (2 ^ 24) with 16777216. change (2 ^ 16) with 65536.
  change (2 ^ 8) with 256.
  repeat split; Z.div_mod_to_equations; lia.
Qed.

(** X25.  An enumeration placeholder [A, name, default, options] sends the
    label its argument selects among the options separated by semicolons,
    without the white space around it.  Indices follow Python: from 0 they
    count from the first label, negative ones from the last; for an index
    outside both ranges the text of the index itself is sent in place of
    a label. *)
Theorem enum_placeholder_selects_label {rt : PyRuntime}
  (name default options : string) (rest : list string) (i : Z) :
  Forall (fun f => is_field f = true) (name :: default :: options :: rest) ->
  resolved_value
    (descriptor_of ("A" :: name :: default :: options :: rest)) (PyInt i)
  = PyStr (match py_index (PyStr.split ";" options) i with
           | Ok label => PyStr.strip label
           | Raise _ => str_of_Z i
           end)
  /\ (0 <= i < Z.of_nat (List.length (PyStr.split ";" options)) ->
      py_index (PyStr.split ";" options) i
      = Ok (nth (Z.to_nat i) (PyStr.split ";" options) ""%string))
  /\ (- Z.of_nat (List.length (PyStr.split ";" options)) <= i < 0 ->
      py_index (PyStr.split ";" options) i
      = Ok (nth (Z.to_nat
                   (Z.of_nat (List.length (PyStr.split ";" options)) + i))
              (PyStr.split ";" options) ""%string))
  /\ (i < - Z.of_nat (List.length (PyStr.split ";" options))
      \/ Z.of_nat (List.length (PyStr.split ";" options)) <= i ->
      py_index (PyStr.split ";" options) i = Raise IndexError).
Proof.
  intros Hall. split; [| apply py_index_cases].
  unfold resolved_value.
  rewrite parts_of_descriptor_of;
    [| discriminate | constructor; [reflexivity | exact Hall]].
  unfold value_replacement.
  change (param_type_of ("A"%string :: name :: default :: options :: rest))
    with "A"%string.
  change (is_numeric_kind "A") with false.
  change (String.eqb "A" "B") with false.
  change (String.eqb "A" "A") with true. cbv iota.
  unfold array_value.
  rewrite (py_index_hit _ 3 options) by (try reflexivity; lia).
  cbn [rbind py_int].
  destruct (py_index (PyStr.split ";" options) i) as [label | e]; reflexivity.
Qed.

(** X25 on a time code source: 3 selects SMPTE, -1 the last label, and 7
    is sent as the text 7. *)
Lemma enum_placeholder_witness :
  resolved_value "A, Source, 0, None;Art-net;MIDI;SMPTE;System Time" (PyInt 3)
  = PyStr "SMPTE"
  /\ resolved_value "A, Source, 0, None;Art-net;MIDI;SMPTE;System Time"
       (PyInt (-1))
     = PyStr "System Time"
  /\ resolved_value "A, Source, 0, None;Art-net;MIDI;SMPTE;System Time"
       (PyInt 7)
     = PyStr "7".
Proof.
  assert (Hf : Forall (fun f => is_field f = true)
                 ["Source"; "0"; "None;Art-net;MIDI;SMPTE;System Time"])
    by (repeat constructor).
  split; [| split].
  - exact (proj1 (@enum_placeholder_selects_label decimal_runtime
                    "Source" "0" "None;Art-net;MIDI;SMPTE;System Time" []
                    3 Hf)).
  - exact (proj1 (@enum_placeholder_selects_label decimal_runtime
                    "Source" "0" "None;Art-net;MIDI;SMPTE;System Time" []
                    (-1) Hf)).
  - exact (proj1 (@enum_placeholder_selects_label decimal_runtime
                    "Source" "0" "None;Art-net;MIDI;SMPTE;System Time" []
                    7 Hf)).
Defined.
